(** * perema: contact listing, relationship and reminder handlers, birthday job

    A shallow embedding of the Go sources

    - [main.go]                                   ([Main]),
    - [backend/controllers/contact_controller.go] ([Backend]),
    - [controllers/contact_controller.go]         ([Controllers]),
    - the relationship controller                 ([RelationshipController]),
    - the reminder controller                     ([ReminderController]),

    over a model of what they call: Go's [int], [strconv.Atoi],
    [strings.Split] and [strings.Join] ([Go]), gin's query-string accessors
    ([Gin]), encoding/json ([Json]), the ORM's query builder and store
    ([Gorm]) and SQLite's [LIKE] ([Sqlite]).  [Spec] holds the vocabulary the
    statements are written in, [Sample] the data of the examples.

    Modelling boundary.  The store is a value: three tables held as lists of
    rows in order of insertion.  It is always reachable (driver and
    connection failures are not modelled).  A preload is checked against the
    relations of a contact, but the associated rows are not attached to the
    result.  Text of a request that reaches SQLite unread (a select list that
    is not made of column names; a path parameter that is not a number, which
    the ORM takes for a condition) is evaluated by an [Engine] that is left
    open: the statements about such requests hold whatever SQLite makes of
    the text.  [CreateReminder], [DeleteContact] and [DeleteReminder] take
    the path parameter as the string it is; the handlers that look one record
    up and answer or update it are modelled on path parameters that are
    numbers, given as the number. *)

From Stdlib Require Import List String Ascii ZArith NArith Lia Bool DecimalString.
From stdpp Require Import gmap strings.
Import ListNotations.

Local Open Scope string_scope.
Local Open Scope Z_scope.

#[local] Arguments String.append !_ _ / : simpl nomatch.

(* ================================================================== *)
(** * Go: machine integers, strconv, strings *)
(* ================================================================== *)

Module Go.

(** [int] is 64 bits wide on the platforms the server is built for;
    arithmetic wraps around silently. *)
Definition int_min : Z := - 2 ^ 63.
Definition int_max : Z := 2 ^ 63 - 1.

Definition wrap (z : Z) : Z := (z + 2 ^ 63) mod 2 ^ 64 - 2 ^ 63.

Definition sub (a b : Z) : Z := wrap (a - b).
Definition mul (a b : Z) : Z := wrap (a * b).

Definition byte_of (c : ascii) : Z := Z.of_nat (nat_of_ascii c).

Definition digit (c : ascii) : option Z :=
  let n := byte_of c in
  if (48 <=? n) && (n <=? 57) then Some (n - 48) else None.

Fixpoint digits (s : string) (acc : Z) : option Z :=
  match s with
  | EmptyString => Some acc
  | String c s' =>
      match digit c with
      | Some d => digits s' (acc * 10 + d)
      | None => None
      end
  end.

(** [strconv.Atoi]: the value and whether [err != nil].  A syntax error
    yields 0; a value outside [int] yields the nearest bound. *)
Definition Atoi (s : string) : Z * bool :=
  let '(neg, body) :=
    match s with
    | String "-"%char r => (true, r)
    | String "+"%char r => (false, r)
    | _ => (false, s)
    end in
  match body with
  | EmptyString => (0, true)
  | _ =>
      match digits body 0 with
      | None => (0, true)
      | Some n =>
          if neg then
            if 2 ^ 63 <? n then (int_min, true) else (- n, false)
          else
            if 2 ^ 63 <=? n then (int_max, true) else (n, false)
      end
  end.

(** [strings.Split(s, sep)] for a one-byte separator: always at least one
    piece, the empty string splitting into one empty piece. *)
Fixpoint Split (s : string) (sep : ascii) : list string :=
  match s with
  | EmptyString => [EmptyString]
  | String c s' =>
      if Ascii.eqb c sep then EmptyString :: Split s' sep
      else
        match Split s' sep with
        | piece :: rest => String c piece :: rest
        | [] => [String c EmptyString]
        end
  end.

(** [strings.Join]. *)
Definition Join (elems : list string) (sep : string) : string :=
  String.concat sep elems.

(** [slices.Contains] on strings. *)
Definition Contains (l : list string) (x : string) : bool :=
  existsb (String.eqb x) l.

(** [fmt.Sprintf("%d", n)]. *)
Definition itoa (n : Z) : string := NilZero.string_of_int (Z.to_int n).

End Go.

(* ================================================================== *)
(** * gin: the query string of a request *)
(* ================================================================== *)

Module Gin.

(** The decoded query string, in the order the pairs appear in the URL. *)
Definition Values := list (string * string).

Fixpoint GetQuery (q : Values) (key : string) : option string :=
  match q with
  | [] => None
  | (k, v) :: q' => if String.eqb k key then Some v else GetQuery q' key
  end.

(** [c.Query(key)]: the first value of the key, the empty string when the
    key is absent. *)
Definition Query (q : Values) (key : string) : string :=
  match GetQuery q key with Some v => v | None => EmptyString end.

(** [c.DefaultQuery(key, def)]: [def] only when the key is absent. *)
Definition DefaultQuery (q : Values) (key def : string) : string :=
  match GetQuery q key with Some v => v | None => def end.

End Gin.

(* ================================================================== *)
(** * time: calendar days *)
(* ================================================================== *)

Module Time.

(** A [time.Time] at day granularity. *)
Record t := mk { Year : Z; Month : Z; Day : Z }.

(** [time.Time{}] is January 1, year 1. *)
Definition zero : t := mk 1 1 1.

Definition eqb (a b : t) : bool :=
  (Year a =? Year b) && (Month a =? Month b) && (Day a =? Day b).

Fixpoint zeros (n : nat) : string :=
  match n with O => EmptyString | S n' => String "0"%char (zeros n') end.

(** Decimal rendering padded with zeros to [width] digits, as the layout
    elements 2006, 01 and 02 do for years 0 to 9999, months and days. *)
Definition pad (width : nat) (n : Z) : string :=
  let s := Go.itoa n in
  zeros (width - String.length s) +:+ s.

(** [t.Format("2006")]. *)
Definition FormatYear (d : t) : string := pad 4 (Year d).

(** [t.Format("2006-01-02")]. *)
Definition FormatDate (d : t) : string :=
  pad 4 (Year d) +:+ "-" +:+ pad 2 (Month d) +:+ "-" +:+ pad 2 (Day d).

End Time.

(* ================================================================== *)
(** * models: the records the handlers bind, store and return *)
(* ================================================================== *)

(** Modelled from the spec: the [models] package is not part of the sources
    at hand.  A contact is "a person record with biographical fields,
    optionally tagged with circles"; its fields are the ones the handlers
    and the birthday job name ([ID], [Firstname], [Lastname], [Nickname],
    [Birthday], [Photo]) and the columns the listing handler allows. *)
Module Contact.

Record t := mk {
  ID : N;
  Firstname : string;
  Lastname : string;
  Nickname : string;
  Gender : string;
  Email : string;
  Phone : string;
  Birthday : Time.t;
  Address : string;
  HowWeMet : string;
  FoodPreference : string;
  WorkInformation : string;
  ContactInformation : string;
  Circles : option (list string);   (* a slice: [None] is nil *)
  Photo : string
}.

(** The zero value of the struct ([var contact models.Contact]). *)
Definition zero : t :=
  mk 0%N "" "" "" "" "" "" Time.zero "" "" "" "" "" None "".

End Contact.

(** Modelled from the spec: a relationship is "a directed association between
    two contacts, optionally referencing an existing contact record".  The
    handlers read [ContactID] (a pointer, nil when the relationship names
    nobody on record) and set [RelatedContact]. *)
Module Relationship.

Record t := mk {
  ID : N;
  Name : string;
  Type_ : string;
  ContactID : option N;
  RelatedContact : option Contact.t
}.

End Relationship.

(** Modelled from the spec: a reminder is "a scheduled notification tied to a
    contact, with recurrence and completion-based rescheduling options"; the
    fields are those of the reminder form, [ID] and [ContactID]. *)
Module Reminder.

Record t := mk {
  ID : N;
  Message : string;
  ByMail : bool;
  RemindAt : string;
  Recurrence : string;
  ReoccurFromCompletion : bool;
  ContactID : option N
}.

End Reminder.

(* ================================================================== *)
(** * The contacts table: columns and their stored text *)
(* ================================================================== *)

Module Schema.

Inductive Column :=
| id | firstname | lastname | nickname | gender | email | phone | birthday
| address | how_we_met | food_preference | work_information
| contact_information | circles | photo.

Definition Column_eqb (a b : Column) : bool :=
  match a, b with
  | id, id | firstname, firstname | lastname, lastname
  | nickname, nickname | gender, gender | email, email | phone, phone
  | birthday, birthday | address, address | how_we_met, how_we_met
  | food_preference, food_preference
  | work_information, work_information
  | contact_information, contact_information | circles, circles
  | photo, photo => true
  | _, _ => false
  end.

Definition lower (c : ascii) : ascii :=
  let n := nat_of_ascii c in
  if (65 <=? n)%nat && (n <=? 90)%nat then ascii_of_nat (n + 32) else c.

Fixpoint lower_string (s : string) : string :=
  match s with
  | EmptyString => EmptyString
  | String c s' => String (lower c) (lower_string s')
  end.

(** Column names are matched without regard to ASCII letter case, so the
    select entry [ID] names the column [id]. *)
Definition column_of_name (name : string) : option Column :=
  let n := lower_string name in
  if String.eqb n "id" then Some id
  else if String.eqb n "firstname" then Some firstname
  else if String.eqb n "lastname" then Some lastname
  else if String.eqb n "nickname" then Some nickname
  else if String.eqb n "gender" then Some gender
  else if String.eqb n "email" then Some email
  else if String.eqb n "phone" then Some phone
  else if String.eqb n "birthday" then Some birthday
  else if String.eqb n "address" then Some address
  else if String.eqb n "how_we_met" then Some how_we_met
  else if String.eqb n "food_preference" then Some food_preference
  else if String.eqb n "work_information" then Some work_information
  else if String.eqb n "contact_information" then Some contact_information
  else if String.eqb n "circles" then Some circles
  else if String.eqb n "photo" then Some photo
  else None.

(** ** The serialized tag set *)

Definition dquote : ascii := "034"%char.
Definition backslash : ascii := "092"%char.

Definition hex_digit (n : nat) : ascii :=
  if (n <? 10)%nat then ascii_of_nat (48 + n) else ascii_of_nat (87 + n).

(** A JSON string body as Go's encoder writes it: quote, backslash,
    control characters, the HTML-sensitive characters and the line and
    paragraph separators are escaped, every other byte is copied. *)
Fixpoint json_escape (s : string) : string :=
  match s with
  | EmptyString => EmptyString
  | String "226"%char (String "128"%char (String "168"%char s')) =>
      String backslash ("u2028" +:+ json_escape s')
  | String "226"%char (String "128"%char (String "169"%char s')) =>
      String backslash ("u2029" +:+ json_escape s')
  | String c s' =>
      let n := nat_of_ascii c in
      let rest := json_escape s' in
      if (n =? 34)%nat || (n =? 92)%nat then String backslash (String c rest)
      else if (n =? 10)%nat then String backslash (String "n"%char rest)
      else if (n =? 13)%nat then String backslash (String "r"%char rest)
      else if (n =? 9)%nat then String backslash (String "t"%char rest)
      else if (n <? 32)%nat || (n =? 60)%nat || (n =? 62)%nat || (n =? 38)%nat
      then String backslash
             ("u00" +:+ String (hex_digit (n / 16)) (String (hex_digit (n mod 16)) rest))
      else String c rest
  end.

Definition json_string (s : string) : string :=
  String dquote (json_escape s +:+ String dquote EmptyString).

(** Modelled from the spec: a circle is "stored as part of a contact's
    serialized tag set"; [GetCircles] reads the column with [json_each], so
    the column holds the tags as a JSON array of strings, and [null] for a
    nil slice. *)
Definition circles_json (tags : option (list string)) : string :=
  match tags with
  | None => "null"
  | Some l => "[" +:+ String.concat "," (map json_string l) +:+ "]"
  end.

(** The text a column of a row holds, as the [LIKE] and [=] operators of
    the queries see it.  The birthday is compared at day granularity, in
    the layout the birthday job formats the current day with. *)
Definition text (col : Column) (c : Contact.t) : string :=
  match col with
  | id => Go.itoa (Z.of_N (Contact.ID c))
  | firstname => Contact.Firstname c
  | lastname => Contact.Lastname c
  | nickname => Contact.Nickname c
  | gender => Contact.Gender c
  | email => Contact.Email c
  | phone => Contact.Phone c
  | birthday => Time.FormatDate (Contact.Birthday c)
  | address => Contact.Address c
  | how_we_met => Contact.HowWeMet c
  | food_preference => Contact.FoodPreference c
  | work_information => Contact.WorkInformation c
  | contact_information => Contact.ContactInformation c
  | circles => circles_json (Contact.Circles c)
  | photo => Contact.Photo c
  end.

(** Scanning a row of which only the columns [cols] were selected into a
    fresh struct: the other fields keep their zero value. *)
Definition project (cols : list Column) (c : Contact.t) : Contact.t :=
  let sel (col : Column) := existsb (Column_eqb col) cols in
  let z := Contact.zero in
  Contact.mk
    (if sel id then Contact.ID c else Contact.ID z)
    (if sel firstname then Contact.Firstname c else Contact.Firstname z)
    (if sel lastname then Contact.Lastname c else Contact.Lastname z)
    (if sel nickname then Contact.Nickname c else Contact.Nickname z)
    (if sel gender then Contact.Gender c else Contact.Gender z)
    (if sel email then Contact.Email c else Contact.Email z)
    (if sel phone then Contact.Phone c else Contact.Phone z)
    (if sel birthday then Contact.Birthday c else Contact.Birthday z)
    (if sel address then Contact.Address c else Contact.Address z)
    (if sel how_we_met then Contact.HowWeMet c else Contact.HowWeMet z)
    (if sel food_preference then Contact.FoodPreference c
     else Contact.FoodPreference z)
    (if sel work_information then Contact.WorkInformation c
     else Contact.WorkInformation z)
    (if sel contact_information then Contact.ContactInformation c
     else Contact.ContactInformation z)
    (if sel circles then Contact.Circles c else Contact.Circles z)
    (if sel photo then Contact.Photo c else Contact.Photo z).

End Schema.

(* ================================================================== *)
(** * SQLite: the LIKE operator *)
(* ================================================================== *)

(** [main.go] opens the store with the SQLite driver.  Its [LIKE] reads
    pattern and text one UTF-8 character at a time (a lead byte takes the
    continuation bytes that follow it), treats [%] as any run of characters
    and [_] as any one character, has no escape character unless the
    statement names one, and compares ASCII letters without regard to
    case.  A character is compared by the bytes that encode it, which for
    well-formed UTF-8 is comparing code points. *)
Module Sqlite.

Definition is_lead (c : ascii) : bool := (192 <=? nat_of_ascii c)%nat.

Definition is_cont (c : ascii) : bool :=
  let n := nat_of_ascii c in (128 <=? n)%nat && (n <? 192)%nat.

Definition is_ascii (c : ascii) : bool := (nat_of_ascii c <? 128)%nat.

(** A character that is one stray continuation byte. *)
Definition bare_cont (ch : string) : bool :=
  match ch with
  | String c EmptyString => is_cont c
  | _ => false
  end.

Fixpoint span_cont (l : list string) : string * list string :=
  match l with
  | ch :: l' =>
      if bare_cont ch then
        let '(cs, rest) := span_cont l' in (ch +:+ cs, rest)
      else (EmptyString, l)
  | [] => (EmptyString, [])
  end.

(** The characters of a text, each as the bytes that encode it. *)
Fixpoint chars (s : string) : list string :=
  match s with
  | EmptyString => []
  | String c s' =>
      if is_lead c then
        let '(cs, rest) := span_cont (chars s') in String c cs :: rest
      else String c EmptyString :: chars s'
  end.

Definition eq_nocase (a b : string) : bool :=
  String.eqb a b ||
  match a, b with
  | String x EmptyString, String y EmptyString =>
      is_ascii x && is_ascii y && Ascii.eqb (Schema.lower x) (Schema.lower y)
  | _, _ => false
  end.

Definition matchAll : string := "%".
Definition matchOne : string := "_".

Fixpoint patternCompare (pattern text : list string) : bool :=
  match pattern with
  | [] => match text with [] => true | _ :: _ => false end
  | c :: pattern' =>
      if String.eqb c matchAll then
        (fix from (text : list string) : bool :=
           patternCompare pattern' text ||
           match text with
           | [] => false
           | _ :: text' => from text'
           end) text
      else
        match text with
        | [] => false
        | c2 :: text' =>
            (eq_nocase c c2 || String.eqb c matchOne)
            && patternCompare pattern' text'
        end
  end.

(** [text LIKE pattern]. *)
Definition like (pattern text : string) : bool :=
  patternCompare (chars pattern) (chars text).

(** A character of a pattern that stands for itself. *)
Definition literal (ch : string) : Prop :=
  String.eqb ch matchAll = false /\ String.eqb ch matchOne = false.

(** The text a list of characters encodes. *)
Fixpoint unchars (l : list string) : string :=
  match l with
  | [] => EmptyString
  | ch :: l' => ch +:+ unchars l'
  end.

End Sqlite.

(* ================================================================== *)
(** * gorm: query builder and store *)
(* ================================================================== *)

Module Gorm.

Inductive error :=
| ErrRecordNotFound
| ErrSQL (msg : string).

Inductive result (A : Type) :=
| Ok (a : A)
| Err (e : error).
Arguments Ok {A} a.
Arguments Err {A} e.

(** A stored relationship: the struct and the contact it was appended to,
    when it was saved through a contact. *)
Record RelationshipRow := mkRow {
  owner : option N;
  relationship : Relationship.t
}.

Record DB := mkDB {
  contacts : list Contact.t;
  relationships : list RelationshipRow;
  reminders : list Reminder.t
}.

(** ** Queries on the contacts table *)

Inductive Selection :=
| SelectAll                              (* no Select call *)
| SelectColumns (names : list string)    (* Select([]string) *)
| SelectRaw (expr : string).             (* Select(string) *)

Inductive Cond :=
| Like (cols : list Schema.Column) (pattern : string)
    (* col1 LIKE ? OR col2 LIKE ? ..., every ? bound to [pattern] *)
| Equals (col : Schema.Column) (value : string).
    (* col = ? *)

Record Query := mkQuery {
  limit : option Z;
  offset : option Z;
  selection : Selection;
  conds : list Cond;          (* joined by AND *)
  preloads : list string
}.

Definition Model : Query := mkQuery None None SelectAll [] [].

Definition Limit (n : Z) (q : Query) : Query :=
  mkQuery (Some n) (offset q) (selection q) (conds q) (preloads q).
Definition Offset (n : Z) (q : Query) : Query :=
  mkQuery (limit q) (Some n) (selection q) (conds q) (preloads q).
Definition Select (s : Selection) (q : Query) : Query :=
  mkQuery (limit q) (offset q) s (conds q) (preloads q).
Definition Where (w : Cond) (q : Query) : Query :=
  mkQuery (limit q) (offset q) (selection q) (conds q ++ [w]) (preloads q).
Definition Preload (name : string) (q : Query) : Query :=
  mkQuery (limit q) (offset q) (selection q) (conds q) (preloads q ++ [name]).

Definition holds (c : Contact.t) (w : Cond) : bool :=
  match w with
  | Like cols pattern =>
      existsb (fun col => Sqlite.like pattern (Schema.text col c)) cols
  | Equals col value => String.eqb (Schema.text col c) value
  end.

Definition matching (ws : list Cond) (rows : list Contact.t) : list Contact.t :=
  List.filter (fun c => forallb (holds c) ws) rows.

(** LIMIT and OFFSET: an OFFSET clause is written only for a positive
    offset, a LIMIT clause only for a limit that is not negative. *)
Definition window (lim off : option Z) (rows : list Contact.t) : list Contact.t :=
  let rows' :=
    match off with
    | Some o => if 0 <? o then skipn (Z.to_nat o) rows else rows
    | None => rows
    end in
  match lim with
  | Some l => if 0 <=? l then firstn (Z.to_nat l) rows' else rows'
  | None => rows'
  end.

Definition is_space (c : ascii) : bool := Ascii.eqb c " "%char.

Fixpoint ltrim (s : string) : string :=
  match s with
  | String c s' => if is_space c then ltrim s' else s
  | EmptyString => EmptyString
  end.

Fixpoint rtrim (s : string) : string :=
  match s with
  | EmptyString => EmptyString
  | String c s' =>
      match rtrim s' with
      | EmptyString => if is_space c then EmptyString else String c EmptyString
      | r => String c r
      end
  end.

Fixpoint resolve (names : list string) : option (list Schema.Column) :=
  match names with
  | [] => Some []
  | n :: names' =>
      match Schema.column_of_name n, resolve names' with
      | Some col, Some cols => Some (col :: cols)
      | _, _ => None
      end
  end.

(** The columns a selection names, when it is made of names of columns of
    the table ([Some None]: no select list, every column); [None] for any
    other select list, which is for SQLite to evaluate. *)
Definition columns (s : Selection) : option (option (list Schema.Column)) :=
  match s with
  | SelectAll => Some None
  | SelectColumns names =>
      match resolve names with Some cols => Some (Some cols) | None => None end
  | SelectRaw expr =>
      match resolve (map (fun n => rtrim (ltrim n)) (Go.Split expr ","%char)) with
      | Some cols => Some (Some cols)
      | None => None
      end
  end.

(** The stored rows a query comes to: filtered, then cut by OFFSET and
    LIMIT. *)
Definition rows (db : DB) (q : Query) : list Contact.t :=
  window (limit q) (offset q) (matching (conds q) (contacts db)).

(** Modelled from the spec: a contact has "associated
    notes/activities/relationships/reminders".  The relations are known to
    [Preload] by the names of the fields that hold them, the names
    [GetContact] preloads and the handlers read ([contact.Relationships],
    [contact.Reminders]). *)
Definition relations : list string :=
  ["Notes"; "Activities"; "Relationships"; "Reminders"].

(** The preloads of a query that name no relation of a contact. *)
Definition unsupported (q : Query) : list string :=
  List.filter (fun name => negb (Go.Contains relations name)) (preloads q).

(** SQLite on text of the request that the ORM passes on unread.  What it
    makes of such text is left open:
    - [select_text]: the outcome of a [Find] whose select list is not made
      of column names;
    - [first_contact_where]: the outcome of [First] on the contacts with a
      string for a condition;
    - [delete_contacts_where], [delete_reminders_where]: the outcome of
      [Delete] with a string for a condition, the store it leaves or the
      error. *)
Record Engine := mkEngine {
  select_text : Query -> DB -> result (list Contact.t);
  first_contact_where : string -> DB -> result Contact.t;
  delete_contacts_where : string -> DB -> result DB;
  delete_reminders_where : string -> DB -> result DB
}.

(** [query.Find(&contacts)].  A preload that names no relation of the model
    fails the call, whatever the rows. *)
Definition Find (sqlite : Engine) (db : DB) (q : Query) : result (list Contact.t) :=
  match unsupported q with
  | name :: _ =>
      Err (ErrSQL (name +:+ ": unsupported relations for schema Contact"))
  | [] =>
      match columns (selection q) with
      | None => select_text sqlite q db
      | Some None => Ok (rows db q)
      | Some (Some cols) => Ok (map (Schema.project cols) (rows db q))
      end
  end.

(** [db.Model(&models.Contact{}).Count(&total)]. *)
Definition Count (db : DB) : Z := Z.of_nat (length (contacts db)).

(** [db.First(&contact, id)] for a number [id]. *)
Definition First (db : DB) (key : Z) : result Contact.t :=
  match find (fun c => Z.of_N (Contact.ID c) =? key) (contacts db) with
  | Some c => Ok c
  | None => Err ErrRecordNotFound
  end.

(** [db.First(&contact, s)] for a string [s]: the ORM takes a string that
    [strconv.Atoi] reads for the primary key, and any other string for a
    condition. *)
Definition FirstWhere (sqlite : Engine) (db : DB) (s : string) : result Contact.t :=
  let '(key, err) := Go.Atoi s in
  if err then first_contact_where sqlite s db else First db key.

(** ** Writes *)

Definition next_id (ids : list N) : N := N.succ (fold_right N.max 0%N ids).

Definition with_contact_id (c : Contact.t) (i : N) : Contact.t :=
  Contact.mk i (Contact.Firstname c) (Contact.Lastname c) (Contact.Nickname c)
    (Contact.Gender c) (Contact.Email c) (Contact.Phone c) (Contact.Birthday c)
    (Contact.Address c) (Contact.HowWeMet c) (Contact.FoodPreference c)
    (Contact.WorkInformation c) (Contact.ContactInformation c)
    (Contact.Circles c) (Contact.Photo c).

Definition with_relationship_id (r : Relationship.t) (i : N) : Relationship.t :=
  Relationship.mk i (Relationship.Name r) (Relationship.Type_ r)
    (Relationship.ContactID r) (Relationship.RelatedContact r).

Definition with_reminder_id (r : Reminder.t) (i : N) : Reminder.t :=
  Reminder.mk i (Reminder.Message r) (Reminder.ByMail r) (Reminder.RemindAt r)
    (Reminder.Recurrence r) (Reminder.ReoccurFromCompletion r)
    (Reminder.ContactID r).

Definition set_contacts (db : DB) (l : list Contact.t) : DB :=
  mkDB l (relationships db) (reminders db).
Definition set_relationships (db : DB) (l : list RelationshipRow) : DB :=
  mkDB (contacts db) l (reminders db).
Definition set_reminders (db : DB) (l : list Reminder.t) : DB :=
  mkDB (contacts db) (relationships db) l.

(** [db.Create(&x)]: a zero primary key is assigned by the table, a given
    one must be unused. *)
Definition CreateContact (db : DB) (c : Contact.t) : result Contact.t * DB :=
  let ids := map Contact.ID (contacts db) in
  if (Contact.ID c =? 0)%N then
    let c' := with_contact_id c (next_id ids) in
    (Ok c', set_contacts db (contacts db ++ [c']))
  else if existsb (N.eqb (Contact.ID c)) ids then
    (Err (ErrSQL "UNIQUE constraint failed: contacts.id"), db)
  else (Ok c, set_contacts db (contacts db ++ [c])).

Definition CreateRelationship (db : DB) (r : Relationship.t)
  : result Relationship.t * DB :=
  let ids := map (fun row => Relationship.ID (relationship row)) (relationships db) in
  if (Relationship.ID r =? 0)%N then
    let r' := with_relationship_id r (next_id ids) in
    (Ok r', set_relationships db (relationships db ++ [mkRow None r']))
  else if existsb (N.eqb (Relationship.ID r)) ids then
    (Err (ErrSQL "UNIQUE constraint failed: relationships.id"), db)
  else (Ok r, set_relationships db (relationships db ++ [mkRow None r])).

Definition CreateReminder (db : DB) (r : Reminder.t) : result Reminder.t * DB :=
  let ids := map Reminder.ID (reminders db) in
  if (Reminder.ID r =? 0)%N then
    let r' := with_reminder_id r (next_id ids) in
    (Ok r', set_reminders db (reminders db ++ [r']))
  else if existsb (N.eqb (Reminder.ID r)) ids then
    (Err (ErrSQL "UNIQUE constraint failed: reminders.id"), db)
  else (Ok r, set_reminders db (reminders db ++ [r])).

Fixpoint replace_contact (c : Contact.t) (rows : list Contact.t) : list Contact.t :=
  match rows with
  | [] => []
  | r :: rows' =>
      if (Contact.ID r =? Contact.ID c)%N then c :: rows'
      else r :: replace_contact c rows'
  end.

(** [db.Save(&contact)] on the contact's own row: an insert for a zero
    primary key, otherwise an update of every column of the row with that
    key, or an insert when there is none. *)
Definition SaveContact (db : DB) (c : Contact.t) : Contact.t * DB :=
  let ids := map Contact.ID (contacts db) in
  if (Contact.ID c =? 0)%N then
    let c' := with_contact_id c (next_id ids) in
    (c', set_contacts db (contacts db ++ [c']))
  else if existsb (N.eqb (Contact.ID c)) ids then
    (c, set_contacts db (replace_contact c (contacts db)))
  else (c, set_contacts db (contacts db ++ [c])).

Fixpoint reparent (i : N) (o : N) (rows : list RelationshipRow) : list RelationshipRow :=
  match rows with
  | [] => []
  | r :: rows' =>
      if (Relationship.ID (relationship r) =? i)%N
      then mkRow (Some o) (relationship r) :: rows'
      else r :: reparent i o rows'
  end.

(** Saving a relationship held in [contact.Relationships]: a new row for
    the contact, or, when its primary key is already stored, that row
    handed to the contact. *)
Definition SaveRelationshipOf (o : N) (db : DB) (r : Relationship.t) : DB :=
  let ids := map (fun row => Relationship.ID (relationship row)) (relationships db) in
  if (Relationship.ID r =? 0)%N then
    set_relationships db
      (relationships db ++ [mkRow (Some o) (with_relationship_id r (next_id ids))])
  else if existsb (N.eqb (Relationship.ID r)) ids then
    set_relationships db (reparent (Relationship.ID r) o (relationships db))
  else set_relationships db (relationships db ++ [mkRow (Some o) r]).

(** [db.Save(&contact)] for a contact that carries relationships. *)
Definition SaveWithRelationships (db : DB) (c : Contact.t)
    (rels : list Relationship.t) : Contact.t * DB :=
  let '(c', db') := SaveContact db c in
  (c', fold_left (SaveRelationshipOf (Contact.ID c')) rels db').

(** ** Deleting and the reminders table *)

(** [db.Delete(&models.Contact{}, id)] for a primary key: the rows with the
    key are gone from what queries see (removed, or marked deleted); that
    there is no such row is not an error. *)
Definition DeleteContact (db : DB) (key : Z) : DB :=
  set_contacts db
    (List.filter (fun c => negb (Z.of_N (Contact.ID c) =? key)) (contacts db)).

(** [db.Delete(&models.Contact{}, s)] for a string [s], read as by
    [First]. *)
Definition DeleteContactWhere (sqlite : Engine) (db : DB) (s : string) : result DB :=
  let '(key, err) := Go.Atoi s in
  if err then delete_contacts_where sqlite s db else Ok (DeleteContact db key).

(** [db.First(&reminder, id)]. *)
Definition FirstReminder (db : DB) (key : Z) : result Reminder.t :=
  match find (fun r => Z.of_N (Reminder.ID r) =? key) (reminders db) with
  | Some r => Ok r
  | None => Err ErrRecordNotFound
  end.

(** [db.Delete(&models.Reminder{}, id)] for a primary key. *)
Definition DeleteReminder (db : DB) (key : Z) : DB :=
  set_reminders db
    (List.filter (fun r => negb (Z.of_N (Reminder.ID r) =? key)) (reminders db)).

(** [db.Delete(&models.Reminder{}, s)] for a string [s]. *)
Definition DeleteReminderWhere (sqlite : Engine) (db : DB) (s : string) : result DB :=
  let '(key, err) := Go.Atoi s in
  if err then delete_reminders_where sqlite s db else Ok (DeleteReminder db key).

Fixpoint replace_reminder (r : Reminder.t) (rows : list Reminder.t) : list Reminder.t :=
  match rows with
  | [] => []
  | x :: rows' =>
      if (Reminder.ID x =? Reminder.ID r)%N then r :: rows'
      else x :: replace_reminder r rows'
  end.

(** [db.Save(&reminder)]. *)
Definition SaveReminder (db : DB) (r : Reminder.t) : Reminder.t * DB :=
  let ids := map Reminder.ID (reminders db) in
  if (Reminder.ID r =? 0)%N then
    let r' := with_reminder_id r (next_id ids) in
    (r', set_reminders db (reminders db ++ [r']))
  else if existsb (N.eqb (Reminder.ID r)) ids then
    (r, set_reminders db (replace_reminder r (reminders db)))
  else (r, set_reminders db (reminders db ++ [r])).

(** [Preload("Reminders")] for one contact: the reminders whose [ContactID]
    is the contact's primary key. *)
Definition RemindersOf (db : DB) (contact : N) : list Reminder.t :=
  List.filter
    (fun r => match Reminder.ContactID r with
              | Some k => (k =? contact)%N
              | None => false
              end)
    (reminders db).

(** The raw query of [GetCircles],
    [SELECT DISTINCT json_each.value FROM contacts, json_each(contacts.circles)],
    scanned into a [[]string]: the elements of the tag sets, each once, in an
    order SQL does not fix.  A tag set stored as [null] gives a NULL value,
    which does not scan into a string. *)
Definition Circles (db : DB) : result (list string) :=
  if existsb (fun c => match Contact.Circles c with None => true | Some _ => false end)
       (contacts db)
  then Err (ErrSQL "converting NULL to string is unsupported")
  else
    Ok (nodup string_dec
          (flat_map (fun c => match Contact.Circles c with Some l => l | None => [] end)
             (contacts db))).

End Gorm.

(* ================================================================== *)
(** * HTTP: request bodies and responses *)
(* ================================================================== *)

Module Http.

Definition StatusOK : Z := 200.
Definition StatusBadRequest : Z := 400.
Definition StatusNotFound : Z := 404.
Definition StatusInternalServerError : Z := 500.

(** What [c.ShouldBindJSON] makes of the request body for a fresh struct:
    the struct, or the error it returns. *)
Inductive Bound (A : Type) :=
| Decoded (a : A)
| Malformed (err : string).
Arguments Decoded {A} a.
Arguments Malformed {A} err.

Inductive Body :=
| Error (msg : string)
    (* gin.H{"error": msg} *)
| Message (msg : string)
    (* gin.H{"message": msg} *)
| ContactPage (contacts : list Contact.t) (total page limit : Z)
    (* gin.H{"contacts": .., "total": .., "page": .., "limit": ..} *)
| OneContact (contact : Contact.t)
| OneRelationship (relationship : Relationship.t)
| MessageReminder (msg : string) (reminder : Reminder.t).
    (* gin.H{"message": msg, "reminder": reminder} *)

Record Response := JSON { status : Z; body : Body }.

End Http.

(** The answers of the handlers whose bodies have another shape. *)
Module Reply.

Inductive Body :=
| MessageContact (msg : string) (contact : Contact.t)
    (* gin.H{"message": msg, "contact": contact} *)
| OneReminder (reminder : Reminder.t)
| ReminderList (reminders : list Reminder.t)
    (* gin.H{"reminders": contact.Reminders} *)
| CircleNames (names : list string)
| Error (msg : string).
    (* gin.H{"error": msg} *)

Record Response := JSON { status : Z; body : Body }.

End Reply.

(* ================================================================== *)
(** * encoding/json: decoding a body over an existing contact *)
(* ================================================================== *)

Module Json.

#[warnings="-register-all"] Inductive value :=
| Null
| Bool (b : bool)
| Number (n : Z)
| Str (s : string)
| Array (items : list value)
| Object (members : list (string * value)).

Section Decode.

(** The models package being absent, how the birthday field reads a JSON
    string is left open. *)
Variable parse_time : string -> option Time.t.

Definition with_text (col : Schema.Column) (s : string) (c : Contact.t) : Contact.t :=
  let pick (k : Schema.Column) (old : string) :=
    if Schema.Column_eqb k col then s else old in
  Contact.mk (Contact.ID c)
    (pick Schema.firstname (Contact.Firstname c))
    (pick Schema.lastname (Contact.Lastname c))
    (pick Schema.nickname (Contact.Nickname c))
    (pick Schema.gender (Contact.Gender c))
    (pick Schema.email (Contact.Email c))
    (pick Schema.phone (Contact.Phone c))
    (Contact.Birthday c)
    (pick Schema.address (Contact.Address c))
    (pick Schema.how_we_met (Contact.HowWeMet c))
    (pick Schema.food_preference (Contact.FoodPreference c))
    (pick Schema.work_information (Contact.WorkInformation c))
    (pick Schema.contact_information (Contact.ContactInformation c))
    (Contact.Circles c)
    (pick Schema.photo (Contact.Photo c)).

Definition with_birthday (d : Time.t) (c : Contact.t) : Contact.t :=
  Contact.mk (Contact.ID c) (Contact.Firstname c) (Contact.Lastname c)
    (Contact.Nickname c) (Contact.Gender c) (Contact.Email c)
    (Contact.Phone c) d (Contact.Address c) (Contact.HowWeMet c)
    (Contact.FoodPreference c) (Contact.WorkInformation c)
    (Contact.ContactInformation c) (Contact.Circles c) (Contact.Photo c).

Definition with_circles (l : option (list string)) (c : Contact.t) : Contact.t :=
  Contact.mk (Contact.ID c) (Contact.Firstname c) (Contact.Lastname c)
    (Contact.Nickname c) (Contact.Gender c) (Contact.Email c)
    (Contact.Phone c) (Contact.Birthday c) (Contact.Address c)
    (Contact.HowWeMet c) (Contact.FoodPreference c)
    (Contact.WorkInformation c) (Contact.ContactInformation c) l
    (Contact.Photo c).

(** The elements of a JSON array read into a [[]string]: a [null]
    element leaves the empty string. *)
Fixpoint strings_of (items : list value) : option (list string) :=
  match items with
  | [] => Some []
  | Str s :: items' =>
      match strings_of items' with Some l => Some (s :: l) | None => None end
  | Null :: items' =>
      match strings_of items' with Some l => Some (EmptyString :: l) | None => None end
  | _ :: _ => None
  end.

(** One member of the body decoded into the field it names; the JSON name
    of a field is taken to be the name of its column.  [None] is a type
    error.  [null] leaves a non-pointer field alone and makes a slice
    nil. *)
Definition set_member (col : Schema.Column) (v : value) (c : Contact.t)
  : option Contact.t :=
  match col, v with
  | Schema.circles, Null => Some (with_circles None c)
  | Schema.circles, Array items =>
      match strings_of items with
      | Some l => Some (with_circles (Some l) c)
      | None => None
      end
  | Schema.circles, _ => None
  | _, Null => Some c
  | Schema.id, Number n =>
      if (0 <=? n) && (n <? 2 ^ 64)
      then Some (Gorm.with_contact_id c (Z.to_N n)) else None
  | Schema.id, _ => None
  | Schema.birthday, Str s =>
      match parse_time s with
      | Some d => Some (with_birthday d c)
      | None => None
      end
  | Schema.birthday, _ => None
  | _, Str s => Some (with_text col s c)
  | _, _ => None
  end.

(** The members of the body in the order they appear; a key that names
    no field is skipped. *)
Fixpoint decode_members (members : list (string * value)) (c : Contact.t)
  : option Contact.t :=
  match members with
  | [] => Some c
  | (key, v) :: members' =>
      match Schema.column_of_name key with
      | None => decode_members members' c
      | Some col =>
          match set_member col v c with
          | Some c' => decode_members members' c'
          | None => None
          end
      end
  end.

(** [c.ShouldBindJSON(&contact)] on a body that is well-formed JSON. *)
Definition ShouldBindJSON (doc : value) (c : Contact.t) : Http.Bound Contact.t :=
  match doc with
  | Null => Http.Decoded c
  | Object members =>
      match decode_members members c with
      | Some c' => Http.Decoded c'
      | None => Http.Malformed "json: cannot unmarshal value into Go struct field"
      end
  | _ => Http.Malformed "json: cannot unmarshal value into Go value of type models.Contact"
  end.

End Decode.

(** A member of the body names the column. *)
Definition mentions (members : list (string * value)) (col : Schema.Column) : Prop :=
  exists key v, In (key, v) members /\ Schema.column_of_name key = Some col.

End Json.

(* ================================================================== *)
(** * backend/controllers/contact_controller.go *)
(* ================================================================== *)

Module Backend.

Definition allowedFields : list string :=
  ["firstname"; "lastname"; "nickname"; "gender"; "email"; "phone";
   "birthday"; "address"; "how_we_met"; "food_preference";
   "work_information"; "contact_information"; "circles"].

(** The loop over [strings.Split(fields, ",")] that keeps the allowed
    names. *)
Fixpoint validated (requested : list string) (selectedFields : list string) : list string :=
  match requested with
  | [] => selectedFields
  | field :: requested' =>
      if Go.Contains allowedFields field
      then validated requested' (selectedFields ++ [field])
      else validated requested' selectedFields
  end.

Definition selectedFields (fields : string) : list string :=
  if negb (String.eqb fields "") then validated (Go.Split fields ","%char) ["ID"]
  else allowedFields.

Definition relationshipMap : gmap string bool :=
  <["notes" := false]> (<["activities" := false]>
    (<["relationships" := false]> (<["reminders" := false]> ∅))).

Definition include (m : gmap string bool) (rel : string) : gmap string bool :=
  match m !! rel with
  | Some _ => <[rel := true]> m
  | None => m
  end.

(** [for rel, include := range relationshipMap]: the keys marked true. *)
Definition included (m : gmap string bool) : list string :=
  map fst (List.filter snd (map_to_list m)).

Definition effective_page (q : Gin.Values) : Z :=
  let page := fst (Go.Atoi (Gin.DefaultQuery q "page" "1")) in
  if page <? 1 then 1 else page.

Definition effective_limit (q : Gin.Values) : Z :=
  let limit := fst (Go.Atoi (Gin.DefaultQuery q "limit" "25")) in
  if (limit <? 1) || (100 <? limit) then 25 else limit.

(** The query [GetContacts] builds from the query string. *)
Definition contacts_query (q : Gin.Values) : Gorm.Query :=
  let page := effective_page q in
  let limit := effective_limit q in
  let offset := Go.mul (Go.sub page 1) limit in
  let selected := selectedFields (Gin.Query q "fields") in
  let m := fold_left include (Go.Split (Gin.Query q "includes") ","%char) relationshipMap in
  let query := Gorm.Offset offset (Gorm.Limit limit Gorm.Model) in
  let query :=
    if (0 <? length selected)%nat
    then Gorm.Select (Gorm.SelectColumns selected) query else query in
  let searchTerm := Gin.Query q "search" in
  let query :=
    if negb (String.eqb searchTerm "") then
      Gorm.Where
        (Gorm.Like [Schema.firstname; Schema.lastname; Schema.nickname]
           ("%" +:+ searchTerm +:+ "%")) query
    else query in
  let circle := Gin.Query q "circle" in
  let query :=
    if negb (String.eqb circle "") then
      Gorm.Where (Gorm.Like [Schema.circles] ("%" +:+ circle +:+ "%")) query
    else query in
  fold_left (fun qr rel => Gorm.Preload rel qr) (included m) query.

Definition GetContacts (sqlite : Gorm.Engine) (db : Gorm.DB) (q : Gin.Values)
  : Http.Response :=
  match Gorm.Find sqlite db (contacts_query q) with
  | Gorm.Err _ =>
      Http.JSON Http.StatusInternalServerError
        (Http.Error "Failed to retrieve contacts")
  | Gorm.Ok contacts =>
      let total := Gorm.Count db in
      Http.JSON Http.StatusOK
        (Http.ContactPage contacts total (effective_page q) (effective_limit q))
  end.

Section UpdateContact.

Variable parse_time : string -> option Time.t.

(** [UpdateContact]; the three controller files carry the same body.
    [body] is the request body as a JSON document, or the syntax error of a
    body that is none. *)
Definition UpdateContact (db : Gorm.DB) (id : Z) (body : Http.Bound Json.value)
  : Http.Response * Gorm.DB :=
  match Gorm.First db id with
  | Gorm.Err _ =>
      (Http.JSON Http.StatusNotFound (Http.Error "Contact not found"), db)
  | Gorm.Ok contact =>
      match body with
      | Http.Malformed err => (Http.JSON Http.StatusBadRequest (Http.Error err), db)
      | Http.Decoded doc =>
          match Json.ShouldBindJSON parse_time doc contact with
          | Http.Malformed err =>
              (Http.JSON Http.StatusBadRequest (Http.Error err), db)
          | Http.Decoded contact' =>
              let '(saved, db') := Gorm.SaveContact db contact' in
              (Http.JSON Http.StatusOK (Http.OneContact saved), db')
          end
      end
  end.

End UpdateContact.

Section CreateContact.

Variable parse_time : string -> option Time.t.

(** [CreateContact], the same in [backend/controllers] and [controllers]. *)
Definition CreateContact (db : Gorm.DB) (body : Http.Bound Json.value)
  : Reply.Response * Gorm.DB :=
  match body with
  | Http.Malformed err => (Reply.JSON Http.StatusBadRequest (Reply.Error err), db)
  | Http.Decoded doc =>
      match Json.ShouldBindJSON parse_time doc Contact.zero with
      | Http.Malformed err =>
          (Reply.JSON Http.StatusBadRequest (Reply.Error err), db)
      | Http.Decoded contact =>
          match Gorm.CreateContact db contact with
          | (Gorm.Err _, db') =>
              (Reply.JSON Http.StatusInternalServerError
                 (Reply.Error "Failed to save contact"), db')
          | (Gorm.Ok created, db') =>
              (Reply.JSON Http.StatusOK
                 (Reply.MessageContact "Contact created successfully" created), db')
          end
      end
  end.

End CreateContact.

(** [GetContact]. *)
Definition GetContact (db : Gorm.DB) (id : Z) : Http.Response :=
  match Gorm.First db id with
  | Gorm.Err _ => Http.JSON Http.StatusNotFound (Http.Error "Contact not found")
  | Gorm.Ok contact => Http.JSON Http.StatusOK (Http.OneContact contact)
  end.

(** [DeleteContact]; the three controller files carry the same body.  [id]
    is the path parameter as it arrives. *)
Definition DeleteContact (sqlite : Gorm.Engine) (db : Gorm.DB) (id : string)
  : Http.Response * Gorm.DB :=
  match Gorm.DeleteContactWhere sqlite db id with
  | Gorm.Err _ =>
      (Http.JSON Http.StatusNotFound (Http.Error "Contact not found"), db)
  | Gorm.Ok db' =>
      (Http.JSON Http.StatusOK (Http.Message "Contact deleted"), db')
  end.

(** [GetCircles]. *)
Definition GetCircles (db : Gorm.DB) : Reply.Response :=
  match Gorm.Circles db with
  | Gorm.Err _ =>
      Reply.JSON Http.StatusInternalServerError
        (Reply.Error "Failed to retrieve circles")
  | Gorm.Ok circleNames => Reply.JSON Http.StatusOK (Reply.CircleNames circleNames)
  end.

End Backend.

(* ================================================================== *)
(** * controllers/contact_controller.go *)
(* ================================================================== *)

Module Controllers.

Definition effective_page (q : Gin.Values) : Z :=
  let page := fst (Go.Atoi (Gin.DefaultQuery q "page" "1")) in
  if page <? 1 then 1 else page.

Definition effective_limit (q : Gin.Values) : Z :=
  let limit := fst (Go.Atoi (Gin.DefaultQuery q "limit" "25")) in
  if limit <? 1 then 25 else limit.

Definition relationshipMap : gmap string bool :=
  <["notes" := false]> (<["activities" := false]> ∅).

(** The query [GetAllContacts] builds from the query string. *)
Definition contacts_query (q : Gin.Values) : Gorm.Query :=
  let page := effective_page q in
  let limit := effective_limit q in
  let offset := Go.mul (Go.sub page 1) limit in
  let fields := Gin.Query q "fields" in
  let includeAllFields := String.eqb fields "" in
  let selectedFields := if negb includeAllFields then Go.Split fields ","%char else [] in
  let m :=
    fold_left Backend.include (Go.Split (Gin.Query q "includes") ","%char)
      relationshipMap in
  let query := Gorm.Offset offset (Gorm.Limit limit Gorm.Model) in
  let query :=
    if negb includeAllFields
    then Gorm.Select (Gorm.SelectRaw (Go.Join selectedFields ", ")) query
    else query in
  let query :=
    if bool_decide (m !! "notes" = Some true) then Gorm.Preload "Notes" query else query in
  if bool_decide (m !! "activities" = Some true)
  then Gorm.Preload "Activities" query else query.

Definition GetAllContacts (sqlite : Gorm.Engine) (db : Gorm.DB) (q : Gin.Values)
  : Http.Response :=
  match Gorm.Find sqlite db (contacts_query q) with
  | Gorm.Err _ =>
      Http.JSON Http.StatusInternalServerError
        (Http.Error "Failed to retrieve contacts")
  | Gorm.Ok contacts =>
      let total := Gorm.Count db in
      Http.JSON Http.StatusOK
        (Http.ContactPage contacts total (effective_page q) (effective_limit q))
  end.

(** [AddRelationshipToContact]: [id] is the path parameter as it arrives. *)
Definition AddRelationshipToContact (db : Gorm.DB) (id : string)
    (body : Http.Bound Relationship.t) : Http.Response * Gorm.DB :=
  let '(contactID, err) := Go.Atoi id in
  if err then
    (Http.JSON Http.StatusBadRequest (Http.Error "Invalid contact ID"), db)
  else
    match Gorm.First db contactID with
    | Gorm.Err Gorm.ErrRecordNotFound =>
        (Http.JSON Http.StatusNotFound (Http.Error "Contact not found"), db)
    | Gorm.Err _ =>
        (Http.JSON Http.StatusInternalServerError
           (Http.Error "Failed to find contact"), db)
    | Gorm.Ok contact =>
        match body with
        | Http.Malformed _ =>
            (Http.JSON Http.StatusBadRequest (Http.Error "Invalid request body"), db)
        | Http.Decoded relationship =>
            let checked : Http.Response + Relationship.t :=
              match Relationship.ContactID relationship with
              | Some related =>
                  match Gorm.First db (Z.of_N related) with
                  | Gorm.Err Gorm.ErrRecordNotFound =>
                      inl (Http.JSON Http.StatusNotFound
                             (Http.Error "Related contact not found"))
                  | Gorm.Err _ =>
                      inl (Http.JSON Http.StatusInternalServerError
                             (Http.Error "Failed to find related contact"))
                  | Gorm.Ok relatedContact =>
                      inr (Relationship.mk (Relationship.ID relationship)
                             (Relationship.Name relationship)
                             (Relationship.Type_ relationship)
                             (Relationship.ContactID relationship)
                             (Some relatedContact))
                  end
              | None => inr relationship
              end in
            match checked with
            | inl response => (response, db)
            | inr relationship' =>
                (* contact.Relationships is nil after First (no Preload);
                   Save does not fail in the model, so the 500 exit for a
                   failed save has no counterpart here *)
                let '(_, db') :=
                  Gorm.SaveWithRelationships db contact ([] ++ [relationship']) in
                (Http.JSON Http.StatusOK
                   (Http.Message "Relationship added to contact successfully"), db')
            end
        end
    end.

End Controllers.

(* ================================================================== *)
(** * The relationship controller *)
(* ================================================================== *)

Module RelationshipController.

Definition CreateRelationship (db : Gorm.DB) (body : Http.Bound Relationship.t)
  : Http.Response * Gorm.DB :=
  match body with
  | Http.Malformed err => (Http.JSON Http.StatusBadRequest (Http.Error err), db)
  | Http.Decoded relationship =>
      let checked : Http.Response + Relationship.t :=
        match Relationship.ContactID relationship with
        | Some related =>
            match Gorm.First db (Z.of_N related) with
            | Gorm.Err _ =>
                inl (Http.JSON Http.StatusBadRequest
                       (Http.Error "Related contact not found"))
            | Gorm.Ok existingContact =>
                inr (Relationship.mk (Relationship.ID relationship)
                       (Relationship.Name relationship)
                       (Relationship.Type_ relationship)
                       (Relationship.ContactID relationship)
                       (Some existingContact))
            end
        | None => inr relationship
        end in
      match checked with
      | inl response => (response, db)
      | inr relationship' =>
          (* the error of Create is not looked at; the struct is answered
             as Create left it *)
          match Gorm.CreateRelationship db relationship' with
          | (Gorm.Ok created, db') =>
              (Http.JSON Http.StatusOK (Http.OneRelationship created), db')
          | (Gorm.Err _, db') =>
              (Http.JSON Http.StatusOK (Http.OneRelationship relationship'), db')
          end
      end
  end.

End RelationshipController.

(* ================================================================== *)
(** * The reminder controller *)
(* ================================================================== *)

Module ReminderController.

(** [CreateReminder]: [contactID] is the path parameter as it arrives. *)
Definition CreateReminder (sqlite : Gorm.Engine) (db : Gorm.DB) (contactID : string)
    (body : Http.Bound Reminder.t) : Http.Response * Gorm.DB :=
  match Gorm.FirstWhere sqlite db contactID with
  | Gorm.Err Gorm.ErrRecordNotFound =>
      (Http.JSON Http.StatusNotFound (Http.Error "Contact not found"), db)
  | Gorm.Err (Gorm.ErrSQL msg) =>
      (Http.JSON Http.StatusInternalServerError (Http.Error msg), db)
  | Gorm.Ok contact =>
      match body with
      | Http.Malformed err => (Http.JSON Http.StatusBadRequest (Http.Error err), db)
      | Http.Decoded reminder =>
          let reminder :=
            Reminder.mk (Reminder.ID reminder) (Reminder.Message reminder)
              (Reminder.ByMail reminder) (Reminder.RemindAt reminder)
              (Reminder.Recurrence reminder)
              (Reminder.ReoccurFromCompletion reminder)
              (Some (Contact.ID contact)) in
          match Gorm.CreateReminder db reminder with
          | (Gorm.Err _, db') =>
              (Http.JSON Http.StatusInternalServerError
                 (Http.Error "Failed to save reminder"), db')
          | (Gorm.Ok created, db') =>
              (Http.JSON Http.StatusOK
                 (Http.MessageReminder "Reminder created successfully" created), db')
          end
      end
  end.

(** [GetReminder]. *)
Definition GetReminder (db : Gorm.DB) (id : Z) : Reply.Response :=
  match Gorm.FirstReminder db id with
  | Gorm.Err _ => Reply.JSON Http.StatusNotFound (Reply.Error "Reminder not found")
  | Gorm.Ok reminder => Reply.JSON Http.StatusOK (Reply.OneReminder reminder)
  end.

(** [UpdateReminder].  [body] is what [c.ShouldBindJSON(&reminder)] makes of
    the request body when it decodes it over a given reminder. *)
Definition UpdateReminder (db : Gorm.DB) (id : Z)
    (body : Reminder.t -> Http.Bound Reminder.t) : Http.Response * Gorm.DB :=
  match Gorm.FirstReminder db id with
  | Gorm.Err _ =>
      (Http.JSON Http.StatusNotFound (Http.Error "Reminder not found"), db)
  | Gorm.Ok reminder =>
      match body reminder with
      | Http.Malformed err => (Http.JSON Http.StatusBadRequest (Http.Error err), db)
      | Http.Decoded reminder' =>
          let '(saved, db') := Gorm.SaveReminder db reminder' in
          (Http.JSON Http.StatusOK
             (Http.MessageReminder "Reminder updated successfully" saved), db')
      end
  end.

(** [DeleteReminder]: [id] is the path parameter as it arrives. *)
Definition DeleteReminder (sqlite : Gorm.Engine) (db : Gorm.DB) (id : string)
  : Http.Response * Gorm.DB :=
  match Gorm.DeleteReminderWhere sqlite db id with
  | Gorm.Err _ =>
      (Http.JSON Http.StatusNotFound (Http.Error "Reminder not found"), db)
  | Gorm.Ok db' =>
      (Http.JSON Http.StatusOK (Http.Message "Reminder deleted"), db')
  end.

(** [GetRemindersForContact]. *)
Definition GetRemindersForContact (db : Gorm.DB) (contactID : Z) : Reply.Response :=
  match Gorm.First db contactID with
  | Gorm.Err Gorm.ErrRecordNotFound =>
      Reply.JSON Http.StatusNotFound (Reply.Error "Contact not found")
  | Gorm.Err (Gorm.ErrSQL msg) =>
      Reply.JSON Http.StatusInternalServerError (Reply.Error msg)
  | Gorm.Ok contact =>
      Reply.JSON Http.StatusOK
        (Reply.ReminderList (Gorm.RemindersOf db (Contact.ID contact)))
  end.

End ReminderController.

(* ================================================================== *)
(** * main.go *)
(* ================================================================== *)

Module Main.

(** The dynamic template data of one birthday mail. *)
Record Mail := mkMail {
  birthday_person_nick : string;
  birthday_person : string;
  birthday_age : string
}.

(** The body of the loop of [sendBirthdayReminders]: the call of
    [sendBirthdayMail] it ends with. *)
Definition sendBirthdayMail (now : Time.t) (contact : Contact.t) : Mail :=
  let age :=
    if negb (String.eqb (Time.FormatYear (Contact.Birthday contact))
                        (Time.FormatYear Time.zero))
    then Go.itoa (Go.sub (Time.Year now) (Time.Year (Contact.Birthday contact)))
         +:+ " years old"
    else "unknown age" in
  let nickname :=
    if String.eqb (Contact.Nickname contact) "" then Contact.Firstname contact
    else Contact.Nickname contact in
  mkMail nickname
    (Contact.Firstname contact +:+ " " +:+ Contact.Lastname contact) age.

Definition birthday_query (now : Time.t) : Gorm.Query :=
  Gorm.Where (Gorm.Equals Schema.birthday (Time.FormatDate now)) Gorm.Model.

(** [sendBirthdayReminders] run on the day [now]: the mails handed to the
    mail API, in order. *)
Definition sendBirthdayReminders (sqlite : Gorm.Engine) (db : Gorm.DB) (now : Time.t)
  : list Mail :=
  match Gorm.Find sqlite db (birthday_query now) with
  | Gorm.Ok contacts => map (sendBirthdayMail now) contacts
  | Gorm.Err _ => []
  end.

(** ** The process started by [main] *)

Inductive Stmt :=
| NewScheduler                 (* s := gocron.NewScheduler(time.UTC) *)
| OpenDatabase                 (* gorm.Open, panic on error *)
| AutoMigrate                  (* db.AutoMigrate(&models.Contact{}) *)
| ScheduleDaily (at_ : string) (* s.Every(1).Day().At(..).Do(sendBirthdayReminders, db) *)
| StartBlocking                (* s.StartBlocking() *)
| GinDefault                   (* r := gin.Default() *)
| Static (prefix root : string)(* r.Static(..) *)
| Run.                         (* r.Run() *)

Definition main : list Stmt :=
  [NewScheduler; OpenDatabase; AutoMigrate; ScheduleDaily "08:00";
   StartBlocking; GinDefault; Static "/static" "./static"; Run].

Record Process := mkProcess {
  pc : nat;                     (* the statement of [main] being executed *)
  jobs : list string;           (* times of day of the scheduled jobs *)
  scheduler_running : bool;
  routes : list string;
  listening : bool;
  panicked : bool
}.

Definition start : Process := mkProcess 0 [] false [] false false.

(** One step of the main goroutine.  [StartBlocking] runs the scheduler in
    the calling goroutine and does not return, [Run] serves in the calling
    goroutine and does not return: neither moves on to the next statement.
    [db_opens] tells whether [gorm.Open] succeeds. *)
Definition step (db_opens : bool) (p : Process) : Process :=
  if panicked p then p
  else
    match nth_error main (pc p) with
    | None => p
    | Some NewScheduler | Some AutoMigrate | Some GinDefault =>
        mkProcess (S (pc p)) (jobs p) (scheduler_running p) (routes p)
          (listening p) false
    | Some OpenDatabase =>
        if db_opens then
          mkProcess (S (pc p)) (jobs p) (scheduler_running p) (routes p)
            (listening p) false
        else
          mkProcess (pc p) (jobs p) (scheduler_running p) (routes p)
            (listening p) true
    | Some (ScheduleDaily at_) =>
        mkProcess (S (pc p)) (jobs p ++ [at_]) (scheduler_running p) (routes p)
          (listening p) false
    | Some StartBlocking =>
        mkProcess (pc p) (jobs p) true (routes p) (listening p) false
    | Some (Static prefix _) =>
        mkProcess (S (pc p)) (jobs p) (scheduler_running p) (routes p ++ [prefix])
          (listening p) false
    | Some Run =>
        mkProcess (pc p) (jobs p) (scheduler_running p) (routes p) true false
    end.

Fixpoint run (db_opens : bool) (n : nat) (p : Process) : Process :=
  match n with
  | O => p
  | S n' => run db_opens n' (step db_opens p)
  end.

End Main.

(* ================================================================== *)
(** * frontend/src/services/contactService.js *)
(* ================================================================== *)

Module ContactService.

(** What a call of the service comes to: the GET request it makes, or the
    exception it throws again before any request is made. *)
Inductive Call :=
| Get (url : string) (params : Gin.Values)
| Throws.

Definition API_URL : string := "/contacts".

(** [getContacts({ fields, includes, page, limit })].  [fields] and
    [includes] are arrays of strings or null ([None], the default); an array
    is truthy also when it is empty.  [page] and [limit] are whole numbers,
    the caller's or the defaults 1 and 25. *)
Definition getContacts (fields includes : option (list string)) (page limit : Z) : Call :=
  let params := [("page", Go.itoa page); ("limit", Go.itoa limit)] in
  let params :=
    match fields with
    | Some f => (params ++ [("fields", Go.Join f ",")])%list
    | None => params
    end in
  match includes with
  | Some _ =>
      match fields with
      | Some f => Get API_URL (params ++ [("includes", Go.Join f ",")])%list
      | None => Throws     (* fields.join on null *)
      end
  | None => Get API_URL params
  end.

End ContactService.

(* ================================================================== *)
(** * Vocabulary of the specification *)
(* ================================================================== *)

Module Spec.

(** The tags of a contact's tag set. *)
Definition tags (c : Contact.t) : list string :=
  match Contact.Circles c with Some l => l | None => [] end.

(** [s] contains [t] as a substring. *)
Definition contains (t s : string) : Prop :=
  exists pre post, s = pre +:+ t +:+ post.

(** [s] contains [t] up to the case of ASCII letters. *)
Definition contains_nocase (t s : string) : Prop :=
  exists pre mid post,
    s = pre +:+ mid +:+ post /\ Schema.lower_string mid = Schema.lower_string t.

Fixpoint no_wildcards (t : string) : bool :=
  match t with
  | EmptyString => true
  | String c t' =>
      negb (Ascii.eqb c "%"%char) && negb (Ascii.eqb c "_"%char) && no_wildcards t'
  end.

(** The name filter of a listing request, as the query applies it. *)
Definition search_matches (term : string) (c : Contact.t) : bool :=
  if String.eqb term "" then true
  else
    Sqlite.like ("%" +:+ term +:+ "%") (Contact.Firstname c)
    || Sqlite.like ("%" +:+ term +:+ "%") (Contact.Lastname c)
    || Sqlite.like ("%" +:+ term +:+ "%") (Contact.Nickname c).

(** The circle filter of a listing request, as the query applies it. *)
Definition circle_matches (circle : string) (c : Contact.t) : bool :=
  if String.eqb circle "" then true
  else Sqlite.like ("%" +:+ circle +:+ "%") (Schema.circles_json (Contact.Circles c)).


(** Two contacts hold the same value in a column. *)
Definition same_field (col : Schema.Column) (a b : Contact.t) : Prop :=
  match col with
  | Schema.id => Contact.ID a = Contact.ID b
  | Schema.firstname => Contact.Firstname a = Contact.Firstname b
  | Schema.lastname => Contact.Lastname a = Contact.Lastname b
  | Schema.nickname => Contact.Nickname a = Contact.Nickname b
  | Schema.gender => Contact.Gender a = Contact.Gender b
  | Schema.email => Contact.Email a = Contact.Email b
  | Schema.phone => Contact.Phone a = Contact.Phone b
  | Schema.birthday => Contact.Birthday a = Contact.Birthday b
  | Schema.address => Contact.Address a = Contact.Address b
  | Schema.how_we_met => Contact.HowWeMet a = Contact.HowWeMet b
  | Schema.food_preference => Contact.FoodPreference a = Contact.FoodPreference b
  | Schema.work_information => Contact.WorkInformation a = Contact.WorkInformation b
  | Schema.contact_information =>
      Contact.ContactInformation a = Contact.ContactInformation b
  | Schema.circles => Contact.Circles a = Contact.Circles b
  | Schema.photo => Contact.Photo a = Contact.Photo b
  end.

(** No member of the body names the column. *)
Definition absent (doc : Json.value) (col : Schema.Column) : Prop :=
  match doc with
  | Json.Object members => ~ Json.mentions members col
  | _ => True
  end.

(** An answer that reports a missing record: status 404, or the message
    the relationship handlers give for a missing related contact. *)
Definition not_found_error (r : Http.Response) : Prop :=
  Http.status r = Http.StatusNotFound
  \/ Http.body r = Http.Error "Related contact not found".

(** Month and day of the birthday are those of the day. *)
Definition birthday_on (now : Time.t) (c : Contact.t) : Prop :=
  Time.Month (Contact.Birthday c) = Time.Month now
  /\ Time.Day (Contact.Birthday c) = Time.Day now.

(** The two listing handlers, and what the claims about listing say of
    either. *)
Inductive Listing := GetContacts | GetAllContacts.

Definition answer (sqlite : Gorm.Engine) (h : Listing) (db : Gorm.DB)
    (q : Gin.Values) : Http.Response :=
  match h with
  | GetContacts => Backend.GetContacts sqlite db q
  | GetAllContacts => Controllers.GetAllContacts sqlite db q
  end.

(** The query a listing handler builds. *)
Definition query (h : Listing) (q : Gin.Values) : Gorm.Query :=
  match h with
  | GetContacts => Backend.contacts_query q
  | GetAllContacts => Controllers.contacts_query q
  end.





(** The stored contacts a page is cut from: [GetContacts] filters by search
    term and circle, [GetAllContacts] has no filter. *)
Definition pool (h : Listing) (db : Gorm.DB) (q : Gin.Values) : list Contact.t :=
  match h with
  | GetContacts =>
      List.filter
        (fun c => search_matches (Gin.Query q "search") c
                  && circle_matches (Gin.Query q "circle") c)
        (Gorm.contacts db)
  | GetAllContacts => Gorm.contacts db
  end.

(** The page and the limit a handler uses. *)
Definition effective_page (h : Listing) (q : Gin.Values) : Z :=
  match h with
  | GetContacts => Backend.effective_page q
  | GetAllContacts => Controllers.effective_page q
  end.

Definition effective_limit (h : Listing) (q : Gin.Values) : Z :=
  match h with
  | GetContacts => Backend.effective_limit q
  | GetAllContacts => Controllers.effective_limit q
  end.

(** The reading of the circle filter as tag membership, in the direction
    that a contact is on the page only if the circle is one of its tags. *)
Definition circle_filter_by_membership (sqlite : Gorm.Engine) (db : Gorm.DB)
    (q : Gin.Values) : Prop :=
  forall cs total p l,
    Backend.GetContacts sqlite db q
    = Http.JSON Http.StatusOK (Http.ContactPage cs total p l) ->
    forall c, In c cs -> In (Gin.Query q "circle") (tags c).

(** The reading of the search filter as substring containment: a contact is
    on the page only if one of its three names contains the term. *)
Definition search_filter_by_substring (sqlite : Gorm.Engine) (db : Gorm.DB)
    (q : Gin.Values) : Prop :=
  forall cs total p l,
    Backend.GetContacts sqlite db q
    = Http.JSON Http.StatusOK (Http.ContactPage cs total p l) ->
    forall c, In c cs ->
      contains (Gin.Query q "search") (Contact.Firstname c)
      \/ contains (Gin.Query q "search") (Contact.Lastname c)
      \/ contains (Gin.Query q "search") (Contact.Nickname c).


(** A contact with the primary key [k] is stored. *)
Definition contact_exists (db : Gorm.DB) (k : N) : Prop :=
  exists c, Gorm.First db (Z.of_N k) = Gorm.Ok c.

(** The reading of the relationship claim for [AddRelationshipToContact]:
    a body that names a missing contact is answered with a not-found error
    and nothing is written. *)
Definition missing_contact_is_not_found (db : Gorm.DB) (id : string)
    (r : Relationship.t) : Prop :=
  forall k,
    Relationship.ContactID r = Some k ->
    ~ contact_exists db k ->
    not_found_error (fst (Controllers.AddRelationshipToContact db id (Http.Decoded r)))
    /\ snd (Controllers.AddRelationshipToContact db id (Http.Decoded r)) = db.


(** ** Vocabulary of the further properties *)

(** Primary keys as the tables assign and keep them: pairwise distinct and
    never zero. *)
Definition keys_ok (ids : list N) : Prop := NoDup ids /\ ~ In 0%N ids.

Definition contact_keys_ok (db : Gorm.DB) : Prop :=
  keys_ok (map Contact.ID (Gorm.contacts db)).

Definition relationship_keys_ok (db : Gorm.DB) : Prop :=
  keys_ok (map (fun row => Relationship.ID (Gorm.relationship row))
             (Gorm.relationships db)).

Definition reminder_keys_ok (db : Gorm.DB) : Prop :=
  keys_ok (map Reminder.ID (Gorm.reminders db)).

(** A text of ASCII characters only. *)
Fixpoint ascii_only (s : string) : bool :=
  match s with
  | EmptyString => true
  | String c s' => Sqlite.is_ascii c && ascii_only s'
  end.

(** The names that [GetContacts] knows in its [includes] parameter, as it
    writes them. *)
Definition relations : list string :=
  ["notes"; "activities"; "relationships"; "reminders"].

(** A calendar year that the layout element 2006 writes with four digits. *)
Definition four_digit_year (y : Z) : Prop := 0 <= y <= 9999.

(** Every table of the store has its keys in order. *)
Definition well_keyed (db : Gorm.DB) : Prop :=
  contact_keys_ok db /\ relationship_keys_ok db /\ reminder_keys_ok db.

End Spec.

(* ================================================================== *)
(** * Sample data *)
(* ================================================================== *)

Module Sample.

Definition al : Contact.t :=
  Contact.mk 1%N "Al" "Smith" "" "" "al@example.org" "" (Time.mk 1990 11 2)
    "" "" "" "" "" (Some ["family"]) "".

Definition bea : Contact.t :=
  Contact.mk 2%N "Bea" "Jones" "B" "" "" "" (Time.mk 2026 11 2)
    "" "" "" "" "" (Some ["work"; "chess"]) "".

Definition one : Gorm.DB := Gorm.mkDB [al] [] [].
Definition two : Gorm.DB := Gorm.mkDB [al; bea] [] [].

Definition today : Time.t := Time.mk 2026 11 2.

Definition sibling_of (k : option N) : Relationship.t :=
  Relationship.mk 0%N "Cy" "sibling" k None.

Definition call_back : Reminder.t :=
  Reminder.mk 0%N "call back" false "2026-12-01T08:00:00Z" "none" true None.

(** A reading of the birthday member for the examples: no string is
    accepted. *)
Definition no_time (s : string) : option Time.t := None.

(** An engine for the examples: it fails on every text. *)
Definition sqlite : Gorm.Engine :=
  Gorm.mkEngine
    (fun _ _ => Gorm.Err (Gorm.ErrSQL "SQL logic error"))
    (fun _ _ => Gorm.Err (Gorm.ErrSQL "SQL logic error"))
    (fun _ _ => Gorm.Err (Gorm.ErrSQL "SQL logic error"))
    (fun _ _ => Gorm.Err (Gorm.ErrSQL "SQL logic error")).

(** A store with two contacts and a reminder for the first. *)
Definition with_reminder : Gorm.DB :=
  Gorm.mkDB [al; bea] []
    [Reminder.mk 1%N "call back" false "2026-12-01T08:00:00Z" "none" true (Some 1%N)].

End Sample.

(* ================================================================== *)
(** * main.go: the process and the birthday job *)
(* ================================================================== *)

(** The main goroutine never gets past the statement that starts the
    scheduler, and it does not serve while it is there. *)
Lemma main_stays_before_gin (db_opens : bool) (n : nat) :
  let p := Main.run db_opens n Main.start in
  (Main.pc p <= 4)%nat /\ Main.listening p = false /\ Main.routes p = [].
Proof.
  cbv zeta.
  assert (Hinv : forall p,
    ((Main.pc p <= 4)%nat /\ Main.listening p = false /\ Main.routes p = []) ->
    let p' := Main.step db_opens p in
    (Main.pc p' <= 4)%nat /\ Main.listening p' = false /\ Main.routes p' = []).
  { intros [pc jobs sr routes l pa] (Hpc & Hl & Hr); simpl in *; subst.
    unfold Main.step; simpl.
    destruct pa; [simpl; auto |].
    do 5 (destruct pc as [|pc]; [destruct db_opens; simpl; repeat split; auto; lia |]).
    lia. }
  assert (Hrun : forall k p,
    ((Main.pc p <= 4)%nat /\ Main.listening p = false /\ Main.routes p = []) ->
    let p' := Main.run db_opens k p in
    (Main.pc p' <= 4)%nat /\ Main.listening p' = false /\ Main.routes p' = []).
  { induction k as [|k IH]; intros p Hp; simpl; [exact Hp |].
    apply IH, Hinv, Hp. }
  apply Hrun. simpl. repeat split; auto; lia.
Qed.

(** Once the database has opened, four steps bring the process to
    [StartBlocking], where the scheduler runs from then on. *)
Lemma main_blocks_in_scheduler (n : nat) :
  let p := Main.run true (5 + n) Main.start in
  Main.pc p = 4%nat /\ Main.scheduler_running p = true
  /\ Main.jobs p = ["08:00"] /\ Main.listening p = false.
Proof.
  cbv zeta. change (5 + n)%nat with (S (S (S (S (S n))))).
  cbn [Main.run].
  set (p5 := Main.step true (Main.step true (Main.step true
               (Main.step true (Main.step true Main.start))))).
  assert (H5 : p5 = Main.mkProcess 4 ["08:00"] true [] false false) by reflexivity.
  rewrite H5. clear.
  induction n as [|n IH]; simpl; [repeat split; reflexivity |].
  exact IH.
Qed.

(** C2 (violated by the code).  The claim has the HTTP server listening
    while the daily job is scheduled.  However many steps the process
    started by [main] takes, and whether or not the database opens, it is
    never listening: [StartBlocking] does not return, so [r.Run()] is not
    reached. *)
Theorem main_never_listens (db_opens : bool) (n : nat) :
  Main.listening (Main.run db_opens n Main.start) = false.
Proof.
  destruct (main_stays_before_gin db_opens n) as (_ & H & _). exact H.
Qed.

(** What the birthday job sends: one mail for each contact whose stored
    birthday, year included, is the day it runs on. *)
Lemma sendBirthdayReminders_selects (sqlite : Gorm.Engine) (db : Gorm.DB)
    (now : Time.t) :
  Main.sendBirthdayReminders sqlite db now =
  map (Main.sendBirthdayMail now)
    (List.filter
       (fun c => String.eqb (Time.FormatDate (Contact.Birthday c)) (Time.FormatDate now))
       (Gorm.contacts db)).
Proof.
  unfold Main.sendBirthdayReminders, Gorm.Find, Gorm.rows, Main.birthday_query.
  simpl. unfold Gorm.matching. f_equal.
  apply filter_ext. intros c. simpl. now rewrite andb_true_r.
Qed.

(** A contact whose birthday is the very day the job runs on gets its mail,
    and the age the mail states is then zero years. *)
Example sendBirthdayReminders_born_today (sqlite : Gorm.Engine) :
  Main.sendBirthdayReminders sqlite Sample.two Sample.today =
  [Main.mkMail "B" "Bea Jones" "0 years old"].
Proof. reflexivity. Qed.

(** C1 (violated by the code).  Al was born on November 2, 1990.  On
    November 2, 2026 his birthday is the current day of the year, yet the
    job, which compares the stored birthday with the whole current date,
    selects nobody and sends nothing. *)
Theorem sendBirthdayReminders_misses_anniversary (sqlite : Gorm.Engine) :
  Spec.birthday_on Sample.today Sample.al
  /\ Main.sendBirthdayReminders sqlite Sample.one Sample.today = [].
Proof. split; [split; reflexivity | reflexivity]. Qed.

(* ================================================================== *)
(** * Field selection *)
(* ================================================================== *)

Lemma validated_spec (requested acc : list string) :
  Backend.validated requested acc =
  (acc ++ List.filter (Go.Contains Backend.allowedFields) requested)%list.
Proof.
  revert acc. induction requested as [|f requested IH]; intros acc;
    cbn [Backend.validated List.filter].
  - now rewrite app_nil_r.
  - destruct (Go.Contains Backend.allowedFields f) eqn:E; rewrite IH;
      [rewrite <- app_assoc |]; reflexivity.
Qed.

Lemma Contains_In (l : list string) (x : string) :
  Go.Contains l x = true <-> In x l.
Proof.
  unfold Go.Contains. rewrite existsb_exists. split.
  - intros (y & Hy & Heq). apply String.eqb_eq in Heq. now subst.
  - intros H. exists x. split; [exact H | apply String.eqb_refl].
Qed.

(** [GetContacts] lets a name into the select list only if it is [ID] or
    an allowed field, and a requested name gets there exactly when it is
    allowed. *)
Lemma GetContacts_selects_allowed_only (fields name : string) :
  In name (Backend.selectedFields fields) ->
  name = "ID" \/ In name Backend.allowedFields.
Proof.
  unfold Backend.selectedFields.
  destruct (String.eqb fields ""); cbn [negb]; [intros H; right; exact H |].
  rewrite validated_spec. intros [H | H]%in_app_or.
  - destruct H as [H | []]. left. symmetry. exact H.
  - apply filter_In in H. right. apply Contains_In, H.
Qed.

(** The select list [GetAllContacts] hands to the query is whatever the
    request names. *)
Lemma GetAllContacts_selects_as_requested (q : Gin.Values) :
  Gin.Query q "fields" <> "" ->
  Gorm.selection (Controllers.contacts_query q) =
  Gorm.SelectRaw (Go.Join (Go.Split (Gin.Query q "fields") ","%char) ", ").
Proof.
  intros Hne. unfold Controllers.contacts_query.
  destruct (String.eqb_spec (Gin.Query q "fields") "") as [He | _]; [contradiction |].
  simpl. repeat (match goal with |- context [if ?b then _ else _] => destruct b end);
    reflexivity.
Qed.

(** C3 (violated by the code).  [password] is not an allowed field name.
    [GetContacts] drops it, but [GetAllContacts] puts it into the select
    list of its query, character for character. *)
Theorem GetAllContacts_passes_unlisted_field :
  ~ In "password" Backend.allowedFields
  /\ Gorm.selection (Backend.contacts_query [("fields", "firstname,password")])
     = Gorm.SelectColumns ["ID"; "firstname"]
  /\ Gorm.selection (Controllers.contacts_query [("fields", "firstname,password")])
     = Gorm.SelectRaw "firstname, password".
Proof.
  split; [| split; reflexivity].
  intros H. simpl in H. repeat (destruct H as [H | H]; [discriminate H |]). exact H.
Qed.

(* ================================================================== *)
(** * Go integers *)
(* ================================================================== *)

Lemma wrap_small (z : Z) :
  Go.int_min <= z <= Go.int_max -> Go.wrap z = z.
Proof.
  unfold Go.wrap, Go.int_min, Go.int_max. intros H.
  rewrite Z.mod_small; lia.
Qed.

Lemma digits_nonneg (s : string) (acc n : Z) :
  Go.digits s acc = Some n -> 0 <= acc -> 0 <= n.
Proof.
  revert acc. induction s as [|c s IH]; intros acc; simpl.
  - intros [= <-]. auto.
  - unfold Go.digit.
    destruct ((48 <=? Go.byte_of c) && (Go.byte_of c <=? 57)) eqn:E; [| discriminate].
    intros H Hacc. apply IH in H; [exact H |].
    apply andb_prop in E. destruct E as [E1 E2].
    apply Z.leb_le in E1. lia.
Qed.

(** Whatever the string, the value [strconv.Atoi] returns is an [int]. *)
Lemma Atoi_range (s : string) :
  Go.int_min <= fst (Go.Atoi s) <= Go.int_max.
Proof.
  assert (Hb : forall neg body,
    Go.int_min <=
    fst (match body with
         | EmptyString => (0, true)
         | _ =>
             match Go.digits body 0 with
             | None => (0, true)
             | Some n =>
                 if neg : bool then
                   if 2 ^ 63 <? n then (Go.int_min, true) else (- n, false)
                 else
                   if 2 ^ 63 <=? n then (Go.int_max, true) else (n, false)
             end
         end) <= Go.int_max).
  { intros neg body. unfold Go.int_min, Go.int_max.
    destruct body as [|c body]; [simpl; lia |].
    destruct (Go.digits (String c body) 0) as [n|] eqn:E; [| simpl; lia].
    apply digits_nonneg in E; [| lia].
    destruct neg.
    - destruct (2 ^ 63 <? n) eqn:E'; simpl; [lia |]. apply Z.ltb_ge in E'. lia.
    - destruct (2 ^ 63 <=? n) eqn:E'; simpl; [lia |]. apply Z.leb_gt in E'. lia. }
  unfold Go.Atoi.
  destruct s as [|c s]; [apply (Hb false EmptyString) |].
  destruct (Ascii.eqb_spec c "-"%char) as [-> | Hm]; [apply (Hb true s) |].
  destruct (Ascii.eqb_spec c "+"%char) as [-> | Hp]; [apply (Hb false s) |].
  assert (Hc : (let '(neg, body) :=
                  match String c s with
                  | String "-"%char r => (true, r)
                  | String "+"%char r => (false, r)
                  | _ => (false, String c s)
                  end in (neg, body)) = (false, String c s)).
  { destruct c as [[] [] [] [] [] [] [] []]; try reflexivity; congruence. }
  destruct c as [[] [] [] [] [] [] [] []];
    try (apply (Hb false (String _ s))); congruence.
Qed.

(* ================================================================== *)
(** * The queries the listing handlers build *)
(* ================================================================== *)

(** Preloading adds to the preloads of a query and to nothing else. *)
Lemma preload_keeps (names : list string) (q : Gorm.Query) :
  let q' := fold_left (fun qr rel => Gorm.Preload rel qr) names q in
  Gorm.limit q' = Gorm.limit q
  /\ Gorm.offset q' = Gorm.offset q
  /\ Gorm.selection q' = Gorm.selection q
  /\ Gorm.conds q' = Gorm.conds q.
Proof.
  cbv zeta. revert q.
  induction names as [|n l IH]; intros q; simpl; [auto |].
  destruct (IH (Gorm.Preload n q)) as (H1 & H2 & H3 & H4).
  rewrite H1, H2, H3, H4. auto.
Qed.

Lemma effective_page_range (q : Gin.Values) :
  1 <= Backend.effective_page q <= Go.int_max.
Proof.
  unfold Backend.effective_page.
  pose proof (Atoi_range (Gin.DefaultQuery q "page" "1")) as H.
  unfold Go.int_max in *.
  destruct (fst (Go.Atoi (Gin.DefaultQuery q "page" "1")) <? 1) eqn:E; [lia |].
  apply Z.ltb_ge in E. lia.
Qed.

Lemma Backend_limit_range (q : Gin.Values) :
  1 <= Backend.effective_limit q <= 100.
Proof.
  unfold Backend.effective_limit.
  destruct ((fst (Go.Atoi (Gin.DefaultQuery q "limit" "25")) <? 1)
            || (100 <? fst (Go.Atoi (Gin.DefaultQuery q "limit" "25")))) eqn:E; [lia |].
  apply orb_false_elim in E. destruct E as [E1 E2].
  apply Z.ltb_ge in E1, E2. lia.
Qed.


(** Cutting a pool by a limit of at least one and an offset that is not
    negative is taking a page of it. *)
Lemma window_page (limit off : Z) (pool : list Contact.t) :
  0 <= limit -> 0 <= off ->
  Gorm.window (Some limit) (Some off) pool =
  firstn (Z.to_nat limit) (skipn (Z.to_nat off) pool).
Proof.
  intros Hl Ho. unfold Gorm.window.
  destruct (0 <? off) eqn:E.
  - destruct (0 <=? limit) eqn:E'; [reflexivity | apply Z.leb_gt in E'; lia].
  - apply Z.ltb_ge in E. assert (off = 0) as -> by lia. simpl.
    destruct (0 <=? limit) eqn:E'; [reflexivity | apply Z.leb_gt in E'; lia].
Qed.

Lemma matching_nil (rows : list Contact.t) : Gorm.matching [] rows = rows.
Proof.
  unfold Gorm.matching. induction rows as [|r rows IH]; simpl; [reflexivity |].
  f_equal. exact IH.
Qed.

(** The conditions of the query of [GetContacts] are those of the search
    term and of the circle, and no other. *)
Lemma Backend_query_parts (q : Gin.Values) :
  let query := Backend.contacts_query q in
  Gorm.limit query = Some (Backend.effective_limit q)
  /\ Gorm.offset query
     = Some (Go.mul (Go.sub (Backend.effective_page q) 1) (Backend.effective_limit q))
  /\ Gorm.selection query
     = Gorm.SelectColumns (Backend.selectedFields (Gin.Query q "fields"))
  /\ Gorm.conds query =
     ((if negb (String.eqb (Gin.Query q "search") "")
       then [Gorm.Like [Schema.firstname; Schema.lastname; Schema.nickname]
               ("%" +:+ Gin.Query q "search" +:+ "%")]
       else []) ++
      (if negb (String.eqb (Gin.Query q "circle") "")
       then [Gorm.Like [Schema.circles] ("%" +:+ Gin.Query q "circle" +:+ "%")]
       else []))%list.
Proof.
  cbv zeta. unfold Backend.contacts_query.
  match goal with
  | |- context [fold_left _ ?l ?q0] =>
      destruct (preload_keeps l q0) as (H1 & H2 & H3 & H4)
  end.
  rewrite H1, H2, H3, H4. clear H1 H2 H3 H4.
  assert (Hsel : (0 <? length (Backend.selectedFields (Gin.Query q "fields")))%nat = true).
  { unfold Backend.selectedFields.
    destruct (String.eqb (Gin.Query q "fields") ""); cbn [negb]; [reflexivity |].
    rewrite validated_spec. reflexivity. }
  rewrite Hsel.
  destruct (negb (String.eqb (Gin.Query q "search") ""));
    destruct (negb (String.eqb (Gin.Query q "circle") "")); simpl; auto.
Qed.

Lemma Controllers_query_parts (q : Gin.Values) :
  let query := Controllers.contacts_query q in
  Gorm.limit query = Some (Controllers.effective_limit q)
  /\ Gorm.offset query
     = Some (Go.mul (Go.sub (Controllers.effective_page q) 1)
               (Controllers.effective_limit q))
  /\ Gorm.conds query = [].
Proof.
  cbv zeta. unfold Controllers.contacts_query.
  repeat (match goal with |- context [if ?b then _ else _] => destruct b end);
    simpl; auto.
Qed.

(* ================================================================== *)
(** * What the listing handlers answer *)
(* ================================================================== *)

Lemma allowed_resolves (name : string) :
  In name ("ID" :: Backend.allowedFields) ->
  exists col, Schema.column_of_name name = Some col.
Proof.
  intros H. unfold Backend.allowedFields in H.
  repeat (destruct H as [<- | H]; [eexists; reflexivity |]).
  destruct H.
Qed.

Lemma resolve_all (names : list string) :
  (forall n, In n names -> exists col, Schema.column_of_name n = Some col) ->
  exists cols, Gorm.resolve names = Some cols.
Proof.
  induction names as [|n names IH]; intros H; cbn [Gorm.resolve].
  - eexists; reflexivity.
  - destruct (H n (or_introl eq_refl)) as [col ->].
    destruct IH as [cols ->]; [intros m Hm; apply H; right; exact Hm |].
    eexists; reflexivity.
Qed.

Lemma selectedFields_resolve (fields : string) :
  exists cols, Gorm.resolve (Backend.selectedFields fields) = Some cols.
Proof.
  apply resolve_all. intros n Hn. apply allowed_resolves.
  destruct (GetContacts_selects_allowed_only fields n Hn) as [-> | H].
  - left; reflexivity.
  - right; exact H.
Qed.

(** The select list of [GetContacts] is made of column names. *)
Lemma GetContacts_columns (q : Gin.Values) :
  exists cols,
    Gorm.resolve (Backend.selectedFields (Gin.Query q "fields")) = Some cols
    /\ Gorm.columns (Gorm.selection (Backend.contacts_query q)) = Some (Some cols).
Proof.
  destruct (selectedFields_resolve (Gin.Query q "fields")) as [cols Hc].
  exists cols. split; [exact Hc |].
  destruct (Backend_query_parts q) as (_ & _ & Hs & _). rewrite Hs.
  cbn [Gorm.columns]. now rewrite Hc.
Qed.

(** [GetContacts] answers 500 when it preloads something that is no
    relation of a contact, and otherwise 200: the rows of its query, reduced
    to the selected columns, the number of all contacts, and the page and
    limit it used.  The engine is not consulted. *)
Lemma GetContacts_answer (sqlite : Gorm.Engine) (db : Gorm.DB) (q : Gin.Values) :
  exists cols,
    Gorm.resolve (Backend.selectedFields (Gin.Query q "fields")) = Some cols
    /\ Backend.GetContacts sqlite db q =
       match Gorm.unsupported (Backend.contacts_query q) with
       | [] =>
           Http.JSON Http.StatusOK
             (Http.ContactPage
                (map (Schema.project cols) (Gorm.rows db (Backend.contacts_query q)))
                (Gorm.Count db) (Backend.effective_page q) (Backend.effective_limit q))
       | _ :: _ =>
           Http.JSON Http.StatusInternalServerError
             (Http.Error "Failed to retrieve contacts")
       end.
Proof.
  destruct (GetContacts_columns q) as (cols & Hc & Hs).
  exists cols. split; [exact Hc |].
  unfold Backend.GetContacts, Gorm.Find. rewrite Hs.
  destruct (Gorm.unsupported (Backend.contacts_query q)); reflexivity.
Qed.

(** A page answered by [GetContacts]. *)
Lemma GetContacts_page (sqlite : Gorm.Engine) (db : Gorm.DB) (q : Gin.Values)
    (cs : list Contact.t) (total p l : Z) :
  Backend.GetContacts sqlite db q
  = Http.JSON Http.StatusOK (Http.ContactPage cs total p l) ->
  exists cols,
    Gorm.resolve (Backend.selectedFields (Gin.Query q "fields")) = Some cols
    /\ cs = map (Schema.project cols) (Gorm.rows db (Backend.contacts_query q))
    /\ total = Gorm.Count db
    /\ p = Backend.effective_page q
    /\ l = Backend.effective_limit q.
Proof.
  destruct (GetContacts_answer sqlite db q) as (cols & Hc & ->).
  destruct (Gorm.unsupported (Backend.contacts_query q)); [| discriminate].
  intros [= <- <- <- <-]. exists cols. auto.
Qed.



Lemma holds_name_like (term : string) (c : Contact.t) :
  term <> "" ->
  Gorm.holds c (Gorm.Like [Schema.firstname; Schema.lastname; Schema.nickname]
                  ("%" +:+ term +:+ "%"))
  = Spec.search_matches term c.
Proof.
  intros Hne. unfold Spec.search_matches.
  destruct (String.eqb_spec term "") as [-> | _]; [contradiction |].
  cbn [Gorm.holds existsb Schema.text].
  now rewrite orb_false_r, orb_assoc.
Qed.

Lemma holds_circle_like (circle : string) (c : Contact.t) :
  circle <> "" ->
  Gorm.holds c (Gorm.Like [Schema.circles] ("%" +:+ circle +:+ "%"))
  = Spec.circle_matches circle c.
Proof.
  intros Hne. unfold Spec.circle_matches.
  destruct (String.eqb_spec circle "") as [-> | _]; [contradiction |].
  cbn [Gorm.holds existsb Schema.text].
  now rewrite orb_false_r.
Qed.

(** The rows behind a page of [GetContacts]: the stored contacts that pass
    both filters, cut by the limit and the offset of the query. *)
Lemma Backend_rows (db : Gorm.DB) (q : Gin.Values) :
  Gorm.rows db (Backend.contacts_query q) =
  Gorm.window (Some (Backend.effective_limit q))
    (Some (Go.mul (Go.sub (Backend.effective_page q) 1) (Backend.effective_limit q)))
    (Spec.pool Spec.GetContacts db q).
Proof.
  unfold Gorm.rows.
  destruct (Backend_query_parts q) as (-> & -> & _ & ->).
  f_equal. unfold Gorm.matching, Spec.pool.
  apply filter_ext. intros c.
  unfold Spec.search_matches at 1. unfold Spec.circle_matches at 1.
  destruct (String.eqb_spec (Gin.Query q "search") "") as [Hs | Hs];
    destruct (String.eqb_spec (Gin.Query q "circle") "") as [Hc | Hc];
    cbn [negb app forallb]; rewrite ?andb_true_r.
  - reflexivity.
  - rewrite (holds_circle_like _ c Hc). unfold Spec.circle_matches.
    destruct (String.eqb_spec (Gin.Query q "circle") ""); [contradiction | reflexivity].
  - rewrite (holds_name_like _ c Hs). unfold Spec.search_matches.
    destruct (String.eqb_spec (Gin.Query q "search") ""); [contradiction | reflexivity].
  - rewrite (holds_name_like _ c Hs), (holds_circle_like _ c Hc).
    unfold Spec.search_matches, Spec.circle_matches.
    destruct (String.eqb_spec (Gin.Query q "search") ""); [contradiction |].
    destruct (String.eqb_spec (Gin.Query q "circle") ""); [contradiction | reflexivity].
Qed.

Lemma Controllers_rows (db : Gorm.DB) (q : Gin.Values) :
  Gorm.rows db (Controllers.contacts_query q) =
  Gorm.window (Some (Controllers.effective_limit q))
    (Some (Go.mul (Go.sub (Controllers.effective_page q) 1)
             (Controllers.effective_limit q)))
    (Spec.pool Spec.GetAllContacts db q).
Proof.
  unfold Gorm.rows.
  destruct (Controllers_query_parts q) as (-> & -> & ->).
  now rewrite matching_nil.
Qed.







(** The second page of one record each of a store of two is the second
    contact, in the selected columns. *)
Example listing_second_page (sqlite : Gorm.Engine) :
  Backend.GetContacts sqlite Sample.two
    [("page", "2"); ("limit", "1"); ("fields", "firstname")]
  = Http.JSON Http.StatusOK
      (Http.ContactPage
         [Contact.mk 2%N "Bea" "" "" "" "" "" Time.zero "" "" "" "" "" None ""] 2 2 1).
Proof. reflexivity. Qed.





(** With two contacts stored and a search term that one of them matches,
    the page holds one contact and the total is two. *)
Example listing_total_ignores_filters (sqlite : Gorm.Engine) :
  exists c,
    Backend.GetContacts sqlite Sample.two [("search", "bea")] =
    Http.JSON Http.StatusOK (Http.ContactPage [c] 2 1 25).
Proof. eexists. vm_compute. reflexivity. Qed.

(* ================================================================== *)
(** * LIKE with a pattern [%term%] *)
(* ================================================================== *)

Lemma append_assoc (a b c : string) : (a +:+ b) +:+ c = a +:+ (b +:+ c).
Proof. induction a as [|x a IH]; simpl; [| rewrite IH]; reflexivity. Qed.

Lemma append_nil_r (a : string) : a +:+ "" = a.
Proof. induction a as [|x a IH]; simpl; [| rewrite IH]; reflexivity. Qed.

Lemma lower_string_app (a b : string) :
  Schema.lower_string (a +:+ b) = Schema.lower_string a +:+ Schema.lower_string b.
Proof. induction a as [|x a IH]; simpl; [| rewrite IH]; reflexivity. Qed.

Lemma unchars_app (l k : list string) :
  Sqlite.unchars (l ++ k) = Sqlite.unchars l +:+ Sqlite.unchars k.
Proof.
  induction l as [|x l IH]; simpl; [reflexivity |].
  now rewrite IH, append_assoc.
Qed.

Lemma span_cont_unchars (l : list string) :
  Sqlite.unchars l
  = fst (Sqlite.span_cont l) +:+ Sqlite.unchars (snd (Sqlite.span_cont l)).
Proof.
  induction l as [|ch l IH]; simpl; [reflexivity |].
  destruct (Sqlite.bare_cont ch); [| reflexivity].
  destruct (Sqlite.span_cont l) as [cs rest]. simpl in *.
  now rewrite IH, append_assoc.
Qed.

(** The characters of a text are a cutting of it: put together again they
    give the text. *)
Lemma unchars_chars (s : string) : Sqlite.unchars (Sqlite.chars s) = s.
Proof.
  induction s as [|c s IH]; simpl; [reflexivity |].
  destruct (Sqlite.is_lead c).
  - pose proof (span_cont_unchars (Sqlite.chars s)) as H.
    destruct (Sqlite.span_cont (Sqlite.chars s)) as [cs rest]. simpl in *.
    now rewrite <- H, IH.
  - simpl. now rewrite IH.
Qed.

Lemma span_cont_Forall (P : string -> Prop) (l : list string) :
  Forall P l -> Forall P (snd (Sqlite.span_cont l)).
Proof.
  induction l as [|ch l IH]; simpl; intros H; [constructor |].
  destruct (Sqlite.bare_cont ch); [| exact H].
  inversion H as [|? ? _ Hl]; subst.
  specialize (IH Hl). destruct (Sqlite.span_cont l); exact IH.
Qed.

Lemma span_cont_app (x : string) (a b : list string) :
  Sqlite.bare_cont x = false ->
  Sqlite.span_cont (a ++ x :: b)
  = (fst (Sqlite.span_cont a), (snd (Sqlite.span_cont a) ++ x :: b)%list).
Proof.
  intros Hx. induction a as [|ch a IH]; simpl.
  - now rewrite Hx.
  - destruct (Sqlite.bare_cont ch); [| reflexivity].
    rewrite IH. destruct (Sqlite.span_cont a); reflexivity.
Qed.

Lemma chars_app_percent (t : string) :
  Sqlite.chars (t +:+ "%") = (Sqlite.chars t ++ ["%"])%list.
Proof.
  induction t as [|c t IH]; simpl; [reflexivity |].
  rewrite IH. destruct (Sqlite.is_lead c); [| reflexivity].
  rewrite span_cont_app by reflexivity.
  destruct (Sqlite.span_cont (Sqlite.chars t)); reflexivity.
Qed.

Lemma chars_literal (t : string) :
  Spec.no_wildcards t = true -> Forall Sqlite.literal (Sqlite.chars t).
Proof.
  induction t as [|c t IH]; simpl; intros H; [constructor |].
  apply andb_prop in H. destruct H as [H Ht].
  apply andb_prop in H. destruct H as [H1 H2].
  apply negb_true_iff in H1, H2.
  specialize (IH Ht).
  assert (Hc : forall cs, Sqlite.literal (String c cs)).
  { intros cs. unfold Sqlite.literal, Sqlite.matchAll, Sqlite.matchOne. simpl.
    now rewrite H1, H2. }
  destruct (Sqlite.is_lead c).
  - apply (span_cont_Forall Sqlite.literal) in IH.
    destruct (Sqlite.span_cont (Sqlite.chars t)) as [cs rest]. simpl in IH.
    constructor; [apply Hc | exact IH].
  - constructor; [apply Hc | exact IH].
Qed.

Lemma patternCompare_all (p s : list string) :
  Sqlite.patternCompare (Sqlite.matchAll :: p) s
  = Sqlite.patternCompare p s
    || match s with
       | [] => false
       | _ :: s' => Sqlite.patternCompare (Sqlite.matchAll :: p) s'
       end.
Proof. destruct s; reflexivity. Qed.

Lemma patternCompare_literal (c : string) (p s : list string) :
  Sqlite.literal c ->
  Sqlite.patternCompare (c :: p) s
  = match s with
    | [] => false
    | c2 :: s' => Sqlite.eq_nocase c c2 && Sqlite.patternCompare p s'
    end.
Proof.
  intros [H1 H2]. cbn [Sqlite.patternCompare]. rewrite H1.
  destruct s as [|c2 s']; [reflexivity |].
  now rewrite H2, orb_false_r.
Qed.

(** A leading [%] lets the rest of the pattern start anywhere. *)
Lemma patternCompare_all_inv (p s : list string) :
  Sqlite.patternCompare (Sqlite.matchAll :: p) s = true ->
  exists pre s', s = (pre ++ s')%list /\ Sqlite.patternCompare p s' = true.
Proof.
  induction s as [|c s IH]; rewrite patternCompare_all; intros H.
  - rewrite orb_false_r in H. exists [], []. auto.
  - apply orb_prop in H. destruct H as [H | H].
    + exists [], (c :: s). auto.
    + destruct (IH H) as (pre & s' & -> & Hs'). exists (c :: pre), s'. auto.
Qed.

(** Literal characters followed by [%] match a prefix of the text,
    character by character. *)
Lemma patternCompare_literals_inv (m s : list string) :
  Forall Sqlite.literal m ->
  Sqlite.patternCompare (m ++ [Sqlite.matchAll]) s = true ->
  exists mid post,
    s = (mid ++ post)%list
    /\ Forall2 (fun a b => Sqlite.eq_nocase a b = true) m mid.
Proof.
  intros Hm. revert s. induction Hm as [|c m Hc Hm IH]; intros s H.
  - exists [], s. split; [reflexivity | constructor].
  - cbn [app] in H. rewrite (patternCompare_literal c _ s Hc) in H.
    destruct s as [|c2 s]; [discriminate |].
    apply andb_prop in H. destruct H as [He Hs].
    destruct (IH s Hs) as (mid & post & -> & Hf).
    exists (c2 :: mid), post. split; [reflexivity | constructor; assumption].
Qed.

Lemma eq_nocase_lower (a b : string) :
  Sqlite.eq_nocase a b = true -> Schema.lower_string a = Schema.lower_string b.
Proof.
  unfold Sqlite.eq_nocase. intros [H | H]%orb_prop.
  - apply String.eqb_eq in H. now subst.
  - destruct a as [|x [|? ?]]; try discriminate.
    destruct b as [|y [|? ?]]; try discriminate.
    apply andb_prop in H. destruct H as [_ H]. apply Ascii.eqb_eq in H.
    simpl. now rewrite H.
Qed.

Lemma Forall2_eq_nocase_lower (m mid : list string) :
  Forall2 (fun a b => Sqlite.eq_nocase a b = true) m mid ->
  Schema.lower_string (Sqlite.unchars mid) = Schema.lower_string (Sqlite.unchars m).
Proof.
  induction 1 as [|a b m mid Hab _ IH]; simpl; [reflexivity |].
  rewrite !lower_string_app, IH. f_equal. symmetry. now apply eq_nocase_lower.
Qed.

(** For a term without [%] and [_], a text that is [LIKE %term%] contains
    the term, letter case aside. *)
Lemma like_contains_nocase (term text : string) :
  Spec.no_wildcards term = true ->
  Sqlite.like ("%" +:+ term +:+ "%") text = true ->
  Spec.contains_nocase term text.
Proof.
  intros Hw H. unfold Sqlite.like in H.
  change (Sqlite.chars ("%" +:+ term +:+ "%"))
    with (Sqlite.matchAll :: Sqlite.chars (term +:+ "%")) in H.
  rewrite chars_app_percent in H.
  apply patternCompare_all_inv in H. destruct H as (pre & s' & Hs & H).
  apply patternCompare_literals_inv in H; [| now apply chars_literal].
  destruct H as (mid & post & -> & Hf).
  exists (Sqlite.unchars pre), (Sqlite.unchars mid), (Sqlite.unchars post).
  split.
  - rewrite <- (unchars_chars text), Hs, !unchars_app. reflexivity.
  - rewrite (Forall2_eq_nocase_lower _ _ Hf), unchars_chars. reflexivity.
Qed.

(* ================================================================== *)
(** * The circle filter and the search filter of [GetContacts] *)
(* ================================================================== *)

Lemma In_firstn (n : nat) (l : list Contact.t) (c : Contact.t) :
  In c (firstn n l) -> In c l.
Proof.
  revert l. induction n as [|n IH]; intros [|x l]; simpl; try tauto.
  intros [H | H]; [left; exact H | right; apply IH, H].
Qed.

Lemma In_skipn (n : nat) (l : list Contact.t) (c : Contact.t) :
  In c (skipn n l) -> In c l.
Proof.
  revert l. induction n as [|n IH]; intros [|x l]; simpl; try tauto.
  intros H. right. apply IH, H.
Qed.

Lemma window_incl (lim off : option Z) (pool : list Contact.t) (c : Contact.t) :
  In c (Gorm.window lim off pool) -> In c pool.
Proof.
  unfold Gorm.window. intros H.
  assert (H' : In c (match off with
                     | Some o => if 0 <? o then skipn (Z.to_nat o) pool else pool
                     | None => pool
                     end)).
  { destruct lim as [l|]; [| exact H].
    destruct (0 <=? l); [apply In_firstn in H |]; exact H. }
  destruct off as [o|]; [| exact H'].
  destruct (0 <? o); [apply In_skipn in H' |]; exact H'.
Qed.

Lemma pool_GetContacts (db : Gorm.DB) (q : Gin.Values) (c : Contact.t) :
  In c (Spec.pool Spec.GetContacts db q) <->
  In c (Gorm.contacts db)
  /\ Spec.search_matches (Gin.Query q "search") c = true
  /\ Spec.circle_matches (Gin.Query q "circle") c = true.
Proof.
  unfold Spec.pool. rewrite filter_In, andb_true_iff. tauto.
Qed.

(** The contacts of a page answered by [GetContacts]: the stored contacts
    that pass the search filter and the circle filter, cut by the limit and
    the offset, each in the selected columns. *)
Lemma GetContacts_page_rows (sqlite : Gorm.Engine) (db : Gorm.DB) (q : Gin.Values)
    (cs : list Contact.t) (total p l : Z) :
  Backend.GetContacts sqlite db q
  = Http.JSON Http.StatusOK (Http.ContactPage cs total p l) ->
  exists cols,
    Gorm.resolve (Backend.selectedFields (Gin.Query q "fields")) = Some cols
    /\ cs = map (Schema.project cols)
              (Gorm.window (Some l) (Some (Go.mul (Go.sub p 1) l))
                 (Spec.pool Spec.GetContacts db q)).
Proof.
  intros Hans.
  destruct (GetContacts_page sqlite db q cs total p l Hans)
    as (cols & Hc & -> & _ & -> & ->).
  exists cols. split; [exact Hc |]. now rewrite Backend_rows.
Qed.

(** A selected column of a row is shown as it is stored. *)
Lemma project_text (cols : list Schema.Column) (col : Schema.Column) (c : Contact.t) :
  In col cols ->
  Schema.text col (Schema.project cols c) = Schema.text col c.
Proof.
  intros Hin.
  assert (H : existsb (Schema.Column_eqb col) cols = true).
  { apply existsb_exists. exists col. split; [exact Hin | destruct col; reflexivity]. }
  destruct col; cbn [Schema.text Schema.project Contact.ID Contact.Firstname
    Contact.Lastname Contact.Nickname Contact.Gender Contact.Email Contact.Phone
    Contact.Birthday Contact.Address Contact.HowWeMet Contact.FoodPreference
    Contact.WorkInformation Contact.ContactInformation Contact.Circles Contact.Photo];
    now rewrite H.
Qed.

(** Without a [fields] parameter every allowed field is selected. *)
Lemma all_fields_selected (cols : list Schema.Column) :
  Gorm.resolve (Backend.selectedFields "") = Some cols ->
  In Schema.firstname cols /\ In Schema.lastname cols /\ In Schema.nickname cols
  /\ In Schema.circles cols.
Proof.
  intros [= <-]. cbn. tauto.
Qed.

(** C4 (as amended).  For a listing request with a non-empty circle, the
    page is cut, by the limit and the offset, from the stored contacts that
    pass the search filter and whose serialized circles text is
    [LIKE %circle%], each shown in the selected columns.  So every contact
    of the page shows a stored contact whose circles text matches the
    pattern, and shows that text itself when the circles are selected, as
    they are when the request names no fields.  The test is on the
    serialized text, not on the tags: for a circle without [%] and [_] it
    says that the text contains the circle, letter case aside. *)
Theorem circle_filter_is_like (sqlite : Gorm.Engine) (db : Gorm.DB) (q : Gin.Values)
    (circle : string) (cs : list Contact.t) (total p l : Z) :
  Gin.Query q "circle" = circle ->
  circle <> "" ->
  Backend.GetContacts sqlite db q
  = Http.JSON Http.StatusOK (Http.ContactPage cs total p l) ->
  let pattern := "%" +:+ circle +:+ "%" in
  let passes (c : Contact.t) :=
    Spec.search_matches (Gin.Query q "search") c
    && Sqlite.like pattern (Schema.circles_json (Contact.Circles c)) in
  exists cols,
    Gorm.resolve (Backend.selectedFields (Gin.Query q "fields")) = Some cols
    /\ cs = map (Schema.project cols)
              (Gorm.window (Some l) (Some (Go.mul (Go.sub p 1) l))
                 (List.filter passes (Gorm.contacts db)))
    /\ (forall listed, In listed cs ->
          exists stored,
            In stored (Gorm.contacts db)
            /\ listed = Schema.project cols stored
            /\ Sqlite.like pattern (Schema.circles_json (Contact.Circles stored)) = true
            /\ (Spec.no_wildcards circle = true ->
                Spec.contains_nocase circle
                  (Schema.circles_json (Contact.Circles stored))))
    /\ (In Schema.circles cols ->
        forall listed, In listed cs ->
          Sqlite.like pattern (Schema.circles_json (Contact.Circles listed)) = true)
    /\ (Gin.Query q "fields" = "" -> In Schema.circles cols).
Proof.
  intros Hq Hne Hans pattern passes.
  destruct (GetContacts_page_rows sqlite db q cs total p l Hans) as (cols & Hc & Hcs).
  assert (Hpool : Spec.pool Spec.GetContacts db q = List.filter passes (Gorm.contacts db)).
  { unfold Spec.pool. apply filter_ext. intros c. subst passes pattern. cbv beta.
    rewrite Hq. unfold Spec.circle_matches.
    destruct (String.eqb_spec circle ""); [contradiction | reflexivity]. }
  rewrite Hpool in Hcs.
  assert (Hlisted : forall listed, In listed cs ->
    exists stored,
      In stored (Gorm.contacts db)
      /\ listed = Schema.project cols stored
      /\ Sqlite.like pattern (Schema.circles_json (Contact.Circles stored)) = true).
  { intros listed Hin. rewrite Hcs in Hin. apply in_map_iff in Hin.
    destruct Hin as (stored & <- & Hin). apply window_incl, filter_In in Hin.
    destruct Hin as [Hin Hp]. apply andb_prop in Hp.
    exists stored. split; [exact Hin | split; [reflexivity | apply Hp]]. }
  exists cols. split; [exact Hc | split; [exact Hcs | split; [| split]]].
  - intros listed Hin. destruct (Hlisted listed Hin) as (stored & Hs & He & Hl).
    exists stored. split; [exact Hs | split; [exact He | split; [exact Hl |]]].
    intros Hw. now apply like_contains_nocase.
  - intros Hsel listed Hin. destruct (Hlisted listed Hin) as (stored & _ & -> & Hl).
    change (Schema.circles_json (Contact.Circles (Schema.project cols stored)))
      with (Schema.text Schema.circles (Schema.project cols stored)).
    rewrite project_text by exact Hsel. exact Hl.
  - intros He. rewrite He in Hc. apply all_fields_selected in Hc. tauto.
Qed.

Lemma circle_filter_is_like_witness :
  let q := [("circle", "fam"); ("fields", "firstname")] in
  let cs := [Schema.project [Schema.id; Schema.firstname] Sample.al] in
  let pattern := "%" +:+ "fam" +:+ "%" in
  let passes (c : Contact.t) :=
    Spec.search_matches (Gin.Query q "search") c
    && Sqlite.like pattern (Schema.circles_json (Contact.Circles c)) in
  exists cols,
    Gorm.resolve (Backend.selectedFields (Gin.Query q "fields")) = Some cols
    /\ cs = map (Schema.project cols)
              (Gorm.window (Some 25) (Some (Go.mul (Go.sub 1 1) 25))
                 (List.filter passes (Gorm.contacts Sample.one)))
    /\ (forall listed, In listed cs ->
          exists stored,
            In stored (Gorm.contacts Sample.one)
            /\ listed = Schema.project cols stored
            /\ Sqlite.like pattern (Schema.circles_json (Contact.Circles stored)) = true
            /\ (Spec.no_wildcards "fam" = true ->
                Spec.contains_nocase "fam"
                  (Schema.circles_json (Contact.Circles stored))))
    /\ (In Schema.circles cols ->
        forall listed, In listed cs ->
          Sqlite.like pattern (Schema.circles_json (Contact.Circles listed)) = true)
    /\ (Gin.Query q "fields" = "" -> In Schema.circles cols).
Proof.
  intros q cs.
  apply (circle_filter_is_like Sample.sqlite Sample.one q "fam" cs 1 1 25).
  - reflexivity.
  - discriminate.
  - vm_compute. reflexivity.
Defined.

(** Al's tag set is [family]; a request for the circle [fam] lists him with
    that tag set. *)
Example circle_fam_lists_family (sqlite : Gorm.Engine) :
  Backend.GetContacts sqlite Sample.one [("circle", "fam")]
  = Http.JSON Http.StatusOK
      (Http.ContactPage
         [Contact.mk 0%N "Al" "Smith" "" "" "al@example.org" "" (Time.mk 1990 11 2)
            "" "" "" "" "" (Some ["family"]) ""] 1 1 25).
Proof. vm_compute. reflexivity. Qed.

(** C4 (as stated, refuted).  Al's tag set is [family].  A request for the
    circle [fam] has him on its page, though [fam] is not one of his
    tags. *)
Lemma circle_filter_not_by_membership :
  ~ Spec.circle_filter_by_membership Sample.sqlite Sample.one [("circle", "fam")].
Proof.
  intros H.
  specialize (H _ _ _ _ (circle_fam_lists_family Sample.sqlite) _ (or_introl eq_refl)).
  cbn in H. destruct H as [H | []]. discriminate H.
Qed.

(** C8 (as amended).  For a listing request with a non-empty search term,
    the page is cut, by the limit and the offset, from the stored contacts
    that pass the circle filter and whose firstname, lastname or nickname is
    [LIKE %term%], each shown in the selected columns.  So every contact of
    the page shows a stored contact one of whose three names matches the
    pattern, and for a term without [%] and [_] contains the term, letter
    case aside; it shows such a name itself when the three names are
    selected, as they are when the request names no fields.  With an empty
    or absent search term the page is cut from the stored contacts that pass
    the circle filter. *)
Theorem search_filter_is_like (sqlite : Gorm.Engine) (db : Gorm.DB) (q : Gin.Values)
    (cs : list Contact.t) (total p l : Z) :
  Backend.GetContacts sqlite db q
  = Http.JSON Http.StatusOK (Http.ContactPage cs total p l) ->
  let term := Gin.Query q "search" in
  let pattern := "%" +:+ term +:+ "%" in
  let named (c : Contact.t) :=
    Sqlite.like pattern (Contact.Firstname c)
    || Sqlite.like pattern (Contact.Lastname c)
    || Sqlite.like pattern (Contact.Nickname c) in
  let in_circle (c : Contact.t) := Spec.circle_matches (Gin.Query q "circle") c in
  let cut := Gorm.window (Some l) (Some (Go.mul (Go.sub p 1) l)) in
  exists cols,
    Gorm.resolve (Backend.selectedFields (Gin.Query q "fields")) = Some cols
    /\ (term <> "" ->
        cs = map (Schema.project cols)
               (cut (List.filter (fun c => named c && in_circle c) (Gorm.contacts db)))
        /\ (forall listed, In listed cs ->
              exists stored,
                In stored (Gorm.contacts db)
                /\ listed = Schema.project cols stored
                /\ named stored = true
                /\ (Spec.no_wildcards term = true ->
                    Spec.contains_nocase term (Contact.Firstname stored)
                    \/ Spec.contains_nocase term (Contact.Lastname stored)
                    \/ Spec.contains_nocase term (Contact.Nickname stored)))
        /\ (In Schema.firstname cols -> In Schema.lastname cols ->
            In Schema.nickname cols ->
            forall listed, In listed cs -> named listed = true))
    /\ (Gin.Query q "fields" = "" ->
        In Schema.firstname cols /\ In Schema.lastname cols /\ In Schema.nickname cols)
    /\ (Gin.GetQuery q "search" = None -> term = "")
    /\ (term = "" ->
        cs = map (Schema.project cols) (cut (List.filter in_circle (Gorm.contacts db)))).
Proof.
  intros Hans term pattern named in_circle cut.
  destruct (GetContacts_page_rows sqlite db q cs total p l Hans) as (cols & Hc & Hcs).
  fold cut in Hcs.
  exists cols. split; [exact Hc | split; [| split; [| split]]].
  - intros Hne.
    assert (Hpool : Spec.pool Spec.GetContacts db q
                    = List.filter (fun c => named c && in_circle c) (Gorm.contacts db)).
    { unfold Spec.pool. apply filter_ext. intros c. fold term.
      unfold Spec.search_matches.
      destruct (String.eqb_spec term ""); [contradiction | reflexivity]. }
    rewrite Hpool in Hcs.
    assert (Hlisted : forall listed, In listed cs ->
      exists stored,
        In stored (Gorm.contacts db)
        /\ listed = Schema.project cols stored
        /\ named stored = true).
    { intros listed Hin. rewrite Hcs in Hin. apply in_map_iff in Hin.
      destruct Hin as (stored & <- & Hin). apply window_incl, filter_In in Hin.
      destruct Hin as [Hin Hp]. apply andb_prop in Hp.
      exists stored. split; [exact Hin | split; [reflexivity | apply Hp]]. }
    split; [exact Hcs | split].
    + intros listed Hin. destruct (Hlisted listed Hin) as (stored & Hs & He & Hn).
      exists stored. split; [exact Hs | split; [exact He | split; [exact Hn |]]].
      intros Hw. subst named. cbv beta in Hn.
      apply orb_prop in Hn. destruct Hn as [Hn | Hn];
        [apply orb_prop in Hn; destruct Hn as [Hn | Hn] |];
        apply like_contains_nocase in Hn; auto.
    + intros Hf Hl Hn listed Hin.
      destruct (Hlisted listed Hin) as (stored & _ & -> & Hs).
      subst named. cbv beta in *.
      change (Contact.Firstname (Schema.project cols stored))
        with (Schema.text Schema.firstname (Schema.project cols stored)).
      change (Contact.Lastname (Schema.project cols stored))
        with (Schema.text Schema.lastname (Schema.project cols stored)).
      change (Contact.Nickname (Schema.project cols stored))
        with (Schema.text Schema.nickname (Schema.project cols stored)).
      rewrite !project_text by assumption. exact Hs.
  - intros He. rewrite He in Hc. apply all_fields_selected in Hc. tauto.
  - intros Hn. subst term. unfold Gin.Query. now rewrite Hn.
  - intros He. rewrite Hcs. f_equal. f_equal.
    unfold Spec.pool. apply filter_ext. intros c. fold term. rewrite He.
    reflexivity.
Qed.

Lemma search_filter_is_like_witness :
  let q := [("search", "bea"); ("fields", "firstname")] in
  let cs := [Schema.project [Schema.id; Schema.firstname] Sample.bea] in
  let term := Gin.Query q "search" in
  let pattern := "%" +:+ term +:+ "%" in
  let named (c : Contact.t) :=
    Sqlite.like pattern (Contact.Firstname c)
    || Sqlite.like pattern (Contact.Lastname c)
    || Sqlite.like pattern (Contact.Nickname c) in
  let in_circle (c : Contact.t) := Spec.circle_matches (Gin.Query q "circle") c in
  let cut := Gorm.window (Some 25) (Some (Go.mul (Go.sub 1 1) 25)) in
  exists cols,
    Gorm.resolve (Backend.selectedFields (Gin.Query q "fields")) = Some cols
    /\ (term <> "" ->
        cs = map (Schema.project cols)
               (cut (List.filter (fun c => named c && in_circle c)
                       (Gorm.contacts Sample.two)))
        /\ (forall listed, In listed cs ->
              exists stored,
                In stored (Gorm.contacts Sample.two)
                /\ listed = Schema.project cols stored
                /\ named stored = true
                /\ (Spec.no_wildcards term = true ->
                    Spec.contains_nocase term (Contact.Firstname stored)
                    \/ Spec.contains_nocase term (Contact.Lastname stored)
                    \/ Spec.contains_nocase term (Contact.Nickname stored)))
        /\ (In Schema.firstname cols -> In Schema.lastname cols ->
            In Schema.nickname cols ->
            forall listed, In listed cs -> named listed = true))
    /\ (Gin.Query q "fields" = "" ->
        In Schema.firstname cols /\ In Schema.lastname cols /\ In Schema.nickname cols)
    /\ (Gin.GetQuery q "search" = None -> term = "")
    /\ (term = "" ->
        cs = map (Schema.project cols)
               (cut (List.filter in_circle (Gorm.contacts Sample.two)))).
Proof.
  intros q cs.
  apply (search_filter_is_like Sample.sqlite Sample.two q cs 2 1 25).
  vm_compute. reflexivity.
Defined.

Lemma contains_byte (c : ascii) (s : string) :
  Spec.contains (String c "") s -> In c (list_ascii_of_string s).
Proof.
  intros (pre & post & ->).
  induction pre as [|x pre IH]; simpl; [left; reflexivity | right; exact IH].
Qed.

(** The search term [%] lists Al Smith under his names. *)
Example search_percent_lists_all (sqlite : Gorm.Engine) :
  Backend.GetContacts sqlite Sample.one [("search", "%")]
  = Http.JSON Http.StatusOK
      (Http.ContactPage
         [Contact.mk 0%N "Al" "Smith" "" "" "al@example.org" "" (Time.mk 1990 11 2)
            "" "" "" "" "" (Some ["family"]) ""] 1 1 25).
Proof. vm_compute. reflexivity. Qed.

(** C8 (as stated, refuted).  The search term [%] has Al Smith on its page,
    none of whose names contains a percent sign. *)
Lemma search_filter_not_by_substring :
  ~ Spec.search_filter_by_substring Sample.sqlite Sample.one [("search", "%")].
Proof.
  intros H.
  specialize (H _ _ _ _ (search_percent_lists_all Sample.sqlite) _ (or_introl eq_refl)).
  destruct H as [Hc | [Hc | Hc]];
    apply contains_byte in Hc; cbn in Hc;
    repeat (destruct Hc as [Hc | Hc]; [discriminate Hc |]); exact Hc.
Qed.

(* ================================================================== *)
(** * Relationships and reminders *)
(* ================================================================== *)

Lemma First_cases (db : Gorm.DB) (key : Z) :
  (exists c, Gorm.First db key = Gorm.Ok c)
  \/ Gorm.First db key = Gorm.Err Gorm.ErrRecordNotFound.
Proof.
  unfold Gorm.First. destruct (find _ _) as [c|]; [left; exists c |right]; reflexivity.
Qed.

(** The contact [First] finds is a stored one and has the key asked for. *)
Lemma First_found (db : Gorm.DB) (key : Z) (c : Contact.t) :
  Gorm.First db key = Gorm.Ok c ->
  In c (Gorm.contacts db) /\ Z.of_N (Contact.ID c) = key.
Proof.
  unfold Gorm.First. destruct (find _ _) as [c'|] eqn:E; [| discriminate].
  intros [= <-]. apply find_some in E. destruct E as [Hin He].
  apply Z.eqb_eq in He. auto.
Qed.

Lemma missing_contact (db : Gorm.DB) (k : N) :
  ~ Spec.contact_exists db k ->
  Gorm.First db (Z.of_N k) = Gorm.Err Gorm.ErrRecordNotFound.
Proof.
  intros Hn. destruct (First_cases db (Z.of_N k)) as [(c & Hc) | H]; [| exact H].
  exfalso. apply Hn. exists c. exact Hc.
Qed.

(** C6 (as amended).  For a relationship body that names a contact that is
    not stored, both handlers leave the store as it was and answer with an
    error.  [CreateRelationship] answers 400 with the message that the
    related contact was not found.  [AddRelationshipToContact] answers 400
    "Invalid contact ID" when its path parameter is no number, 404 "Contact
    not found" when no contact has the number as its id, and 404 "Related
    contact not found" once the contact it is addressed to has been found.
    Hence a relationship whose body names a contact is written only if that
    contact is stored. *)
Theorem relationship_needs_existing_contact (db : Gorm.DB) (id : string)
    (r : Relationship.t) (k : N) :
  Relationship.ContactID r = Some k ->
  let add := Controllers.AddRelationshipToContact db id (Http.Decoded r) in
  let create := RelationshipController.CreateRelationship db (Http.Decoded r) in
  (~ Spec.contact_exists db k ->
     snd add = db
     /\ Http.status (fst add) <> Http.StatusOK
     /\ (snd (Go.Atoi id) = true ->
         fst add = Http.JSON Http.StatusBadRequest (Http.Error "Invalid contact ID"))
     /\ (snd (Go.Atoi id) = false ->
         Gorm.First db (fst (Go.Atoi id)) = Gorm.Err Gorm.ErrRecordNotFound ->
         fst add = Http.JSON Http.StatusNotFound (Http.Error "Contact not found"))
     /\ ((exists c, snd (Go.Atoi id) = false
                    /\ Gorm.First db (fst (Go.Atoi id)) = Gorm.Ok c) ->
         fst add = Http.JSON Http.StatusNotFound (Http.Error "Related contact not found"))
     /\ create = (Http.JSON Http.StatusBadRequest
                    (Http.Error "Related contact not found"), db))
  /\ (Gorm.relationships (snd add) <> Gorm.relationships db ->
      Spec.contact_exists db k)
  /\ (Gorm.relationships (snd create) <> Gorm.relationships db ->
      Spec.contact_exists db k).
Proof.
  intros Hk add create.
  assert (Hmiss : ~ Spec.contact_exists db k ->
     snd add = db
     /\ Http.status (fst add) <> Http.StatusOK
     /\ (snd (Go.Atoi id) = true ->
         fst add = Http.JSON Http.StatusBadRequest (Http.Error "Invalid contact ID"))
     /\ (snd (Go.Atoi id) = false ->
         Gorm.First db (fst (Go.Atoi id)) = Gorm.Err Gorm.ErrRecordNotFound ->
         fst add = Http.JSON Http.StatusNotFound (Http.Error "Contact not found"))
     /\ ((exists c, snd (Go.Atoi id) = false
                    /\ Gorm.First db (fst (Go.Atoi id)) = Gorm.Ok c) ->
         fst add = Http.JSON Http.StatusNotFound (Http.Error "Related contact not found"))
     /\ create = (Http.JSON Http.StatusBadRequest
                    (Http.Error "Related contact not found"), db)).
  { intros Hn. apply missing_contact in Hn.
    subst add create.
    unfold Controllers.AddRelationshipToContact, RelationshipController.CreateRelationship.
    rewrite Hk, Hn.
    destruct (Go.Atoi id) as [n err]. cbn [fst snd].
    destruct err.
    - repeat split; try discriminate. intros (c & Hc & _). discriminate Hc.
    - destruct (Gorm.First db n) as [c | [| msg]] eqn:E; cbn [fst snd].
      + repeat split; discriminate.
      + repeat split; try discriminate. intros (c & _ & Hc). discriminate Hc.
      + repeat split; try discriminate. intros (c & _ & Hc). discriminate Hc. }
  split; [exact Hmiss | split]; intros Hw;
    (destruct (First_cases db (Z.of_N k)) as [Hc | Hc]; [exact Hc | exfalso]);
    apply Hw;
    (assert (Hn : ~ Spec.contact_exists db k)
       by (intros (c & Hc'); rewrite Hc in Hc'; discriminate Hc'));
    destruct (Hmiss Hn) as (Ha & _ & _ & _ & _ & Hcr).
  - now rewrite Ha.
  - now rewrite Hcr.
Qed.

Lemma relationship_needs_existing_contact_witness :
  let add :=
    Controllers.AddRelationshipToContact Sample.one "1"
      (Http.Decoded (Sample.sibling_of (Some 99%N))) in
  let create :=
    RelationshipController.CreateRelationship Sample.one
      (Http.Decoded (Sample.sibling_of (Some 99%N))) in
  (~ Spec.contact_exists Sample.one 99 ->
     snd add = Sample.one
     /\ Http.status (fst add) <> Http.StatusOK
     /\ (snd (Go.Atoi "1") = true ->
         fst add = Http.JSON Http.StatusBadRequest (Http.Error "Invalid contact ID"))
     /\ (snd (Go.Atoi "1") = false ->
         Gorm.First Sample.one (fst (Go.Atoi "1")) = Gorm.Err Gorm.ErrRecordNotFound ->
         fst add = Http.JSON Http.StatusNotFound (Http.Error "Contact not found"))
     /\ ((exists c, snd (Go.Atoi "1") = false
                    /\ Gorm.First Sample.one (fst (Go.Atoi "1")) = Gorm.Ok c) ->
         fst add = Http.JSON Http.StatusNotFound (Http.Error "Related contact not found"))
     /\ create = (Http.JSON Http.StatusBadRequest
                    (Http.Error "Related contact not found"), Sample.one))
  /\ (Gorm.relationships (snd add) <> Gorm.relationships Sample.one ->
      Spec.contact_exists Sample.one 99)
  /\ (Gorm.relationships (snd create) <> Gorm.relationships Sample.one ->
      Spec.contact_exists Sample.one 99).
Proof.
  apply (relationship_needs_existing_contact Sample.one "1"
           (Sample.sibling_of (Some 99%N)) 99%N).
  reflexivity.
Defined.

(** The three answers of [AddRelationshipToContact] to a body that names the
    contact 99, which is not stored: by the path parameter. *)
Example relationship_with_missing_contact :
  let body := Http.Decoded (Sample.sibling_of (Some 99%N)) in
  Controllers.AddRelationshipToContact Sample.one "abc" body
  = (Http.JSON Http.StatusBadRequest (Http.Error "Invalid contact ID"), Sample.one)
  /\ Controllers.AddRelationshipToContact Sample.one "7" body
     = (Http.JSON Http.StatusNotFound (Http.Error "Contact not found"), Sample.one)
  /\ Controllers.AddRelationshipToContact Sample.one "1" body
     = (Http.JSON Http.StatusNotFound (Http.Error "Related contact not found"),
        Sample.one).
Proof. repeat split. Qed.

(** A body that names a stored contact is written by either handler, with
    the contact attached. *)
Example relationship_with_existing_contact :
  snd (Controllers.AddRelationshipToContact Sample.two "1"
         (Http.Decoded (Sample.sibling_of (Some 2%N))))
  = Gorm.mkDB [Sample.al; Sample.bea]
      [Gorm.mkRow (Some 1%N)
         (Relationship.mk 1%N "Cy" "sibling" (Some 2%N) (Some Sample.bea))] []
  /\ RelationshipController.CreateRelationship Sample.two
       (Http.Decoded (Sample.sibling_of (Some 2%N)))
     = (Http.JSON Http.StatusOK
          (Http.OneRelationship
             (Relationship.mk 1%N "Cy" "sibling" (Some 2%N) (Some Sample.bea))),
        Gorm.mkDB [Sample.al; Sample.bea]
          [Gorm.mkRow None
             (Relationship.mk 1%N "Cy" "sibling" (Some 2%N) (Some Sample.bea))] []).
Proof. split; reflexivity. Qed.

(** C6 (as stated, refuted).  A request to [AddRelationshipToContact] whose
    path parameter is [abc] and whose body names the contact 99, which is
    not stored, is answered 400 "Invalid contact ID": an error, but not one
    that reports a missing record. *)
Lemma missing_contact_not_always_not_found :
  ~ Spec.missing_contact_is_not_found Sample.one "abc" (Sample.sibling_of (Some 99%N)).
Proof.
  intros H. destruct (H 99%N eq_refl) as [[Hs | Hb] _].
  - intros (c & Hc). discriminate Hc.
  - discriminate Hs.
  - discriminate Hb.
Qed.

Lemma existsb_eqb_In (x : N) (ids : list N) :
  existsb (N.eqb x) ids = true <-> In x ids.
Proof.
  rewrite existsb_exists. split.
  - intros (y & Hy & He). apply N.eqb_eq in He. now subst.
  - intros H. exists x. split; [exact H | apply N.eqb_refl].
Qed.

(** A path parameter that is a number is looked up as the primary key. *)
Lemma FirstWhere_number (sqlite : Gorm.Engine) (db : Gorm.DB) (path : string) (i : Z) :
  Go.Atoi path = (i, false) ->
  Gorm.FirstWhere sqlite db path = Gorm.First db i.
Proof. intros H. unfold Gorm.FirstWhere. now rewrite H. Qed.

(** A path parameter that is no number is a condition: the reminder is
    created for the contact that SQLite finds by it. *)
Lemma CreateReminder_condition (sqlite : Gorm.Engine) (db : Gorm.DB) (path : string)
    (c : Contact.t) (r : Reminder.t) :
  snd (Go.Atoi path) = true ->
  Gorm.first_contact_where sqlite path db = Gorm.Ok c ->
  Reminder.ID r = 0%N ->
  exists created,
    ReminderController.CreateReminder sqlite db path (Http.Decoded r)
    = (Http.JSON Http.StatusOK
         (Http.MessageReminder "Reminder created successfully" created),
       Gorm.set_reminders db (Gorm.reminders db ++ [created]))
    /\ Reminder.ContactID created = Some (Contact.ID c).
Proof.
  intros Hpath Hc Hz.
  unfold ReminderController.CreateReminder, Gorm.FirstWhere.
  destruct (Go.Atoi path) as [n err]. cbn in Hpath. subst err. rewrite Hc.
  unfold Gorm.CreateReminder. cbn [Reminder.ID]. rewrite Hz. cbn.
  eexists. split; reflexivity.
Qed.



(** A well-formed reminder addressed to a stored contact is stored with
    that contact's id. *)
Example CreateReminder_stores (sqlite : Gorm.Engine) :
  ReminderController.CreateReminder sqlite Sample.one "1" (Http.Decoded Sample.call_back)
  = (Http.JSON Http.StatusOK
       (Http.MessageReminder "Reminder created successfully"
          (Reminder.mk 1%N "call back" false "2026-12-01T08:00:00Z" "none" true
             (Some 1%N))),
     Gorm.mkDB [Sample.al] []
       [Reminder.mk 1%N "call back" false "2026-12-01T08:00:00Z" "none" true
          (Some 1%N)]).
Proof. reflexivity. Qed.


(* ================================================================== *)
(** * Updating a contact *)
(* ================================================================== *)

Section Update.

Variable parse_time : string -> option Time.t.

(** Decoding one member touches the field it names and no other. *)
Lemma set_member_frame (col0 : Schema.Column) (v : Json.value) (c c' : Contact.t) :
  Json.set_member parse_time col0 v c = Some c' ->
  forall col, col <> col0 -> Spec.same_field col c' c.
Proof.
  intros H col Hne.
  destruct col0, v; cbn in H;
    repeat match type of H with
           | context [match ?x with _ => _ end] => destruct x
           end;
    try discriminate H; injection H as <-;
    destruct col; try reflexivity; contradiction.
Qed.

Lemma same_field_trans (col : Schema.Column) (a b c : Contact.t) :
  Spec.same_field col a b -> Spec.same_field col b c -> Spec.same_field col a c.
Proof. destruct col; simpl; congruence. Qed.

Lemma same_field_refl (col : Schema.Column) (a : Contact.t) : Spec.same_field col a a.
Proof. destruct col; reflexivity. Qed.

(** Decoding a body leaves every field that no member names as it was. *)
Lemma decode_members_frame (members : list (string * Json.value)) (c c' : Contact.t) :
  Json.decode_members parse_time members c = Some c' ->
  forall col, ~ Json.mentions members col -> Spec.same_field col c' c.
Proof.
  revert c. induction members as [|[key v] members IH]; intros c H col Hn.
  - injection H as <-. apply same_field_refl.
  - cbn [Json.decode_members] in H.
    assert (Hn' : ~ Json.mentions members col).
    { intros (k & w & Hin & Hk). apply Hn. exists k, w. split; [right; exact Hin | exact Hk]. }
    destruct (Schema.column_of_name key) as [col0|] eqn:Ek.
    + destruct (Json.set_member parse_time col0 v c) as [c1|] eqn:E1; [| discriminate].
      apply (same_field_trans col c' c1 c).
      * exact (IH c1 H col Hn').
      * apply (set_member_frame col0 v c c1 E1). intros ->.
        apply Hn. exists key, v. split; [left; reflexivity | exact Ek].
    + exact (IH c H col Hn').
Qed.

Lemma ShouldBindJSON_frame (doc : Json.value) (c c' : Contact.t) :
  Json.ShouldBindJSON parse_time doc c = Http.Decoded c' ->
  forall col, Spec.absent doc col -> Spec.same_field col c' c.
Proof.
  intros H col Ha. destruct doc; cbn in H; try discriminate H.
  - injection H as <-. apply same_field_refl.
  - destruct (Json.decode_members parse_time members c) as [c1|] eqn:E; [| discriminate H].
    injection H as <-. exact (decode_members_frame members c c1 E col Ha).
Qed.

Lemma find_replace_contact (key : Z) (c old : Contact.t) (rows : list Contact.t) :
  find (fun r => Z.of_N (Contact.ID r) =? key) rows = Some old ->
  find (fun r => Z.of_N (Contact.ID r) =? key) (Gorm.replace_contact c rows) = Some old
  \/ find (fun r => Z.of_N (Contact.ID r) =? key) (Gorm.replace_contact c rows) = Some c.
Proof.
  induction rows as [|r rows IH]; cbn [find Gorm.replace_contact]; [discriminate |].
  destruct (N.eqb_spec (Contact.ID r) (Contact.ID c)) as [He | Hne]; cbn [find].
  - rewrite <- He. destruct (Z.of_N (Contact.ID r) =? key); auto.
  - destruct (Z.of_N (Contact.ID r) =? key); auto.
Qed.

Lemma find_app_first (key : Z) (old : Contact.t) (rows more : list Contact.t) :
  find (fun r => Z.of_N (Contact.ID r) =? key) rows = Some old ->
  find (fun r => Z.of_N (Contact.ID r) =? key) (rows ++ more) = Some old.
Proof.
  induction rows as [|r rows IH]; cbn [find app]; [discriminate |].
  destruct (Z.of_N (Contact.ID r) =? key); auto.
Qed.

(** After a save, the contact found under a key is the one that was found
    before or the one that was saved. *)
Lemma First_SaveContact (db : Gorm.DB) (key : Z) (old c : Contact.t) :
  Gorm.First db key = Gorm.Ok old ->
  Gorm.First (snd (Gorm.SaveContact db c)) key = Gorm.Ok old
  \/ Gorm.First (snd (Gorm.SaveContact db c)) key = Gorm.Ok c.
Proof.
  unfold Gorm.First.
  destruct (find _ (Gorm.contacts db)) as [o|] eqn:E; [| discriminate].
  intros [= ->]. unfold Gorm.SaveContact.
  destruct (Contact.ID c =? 0)%N; [| destruct (existsb _ _)]; cbn [snd Gorm.set_contacts Gorm.contacts].
  - left. now rewrite (find_app_first key old _ _ E).
  - destruct (find_replace_contact key c old _ E) as [-> | ->]; auto.
  - left. now rewrite (find_app_first key old _ _ E).
Qed.

(** C10.  An update of a stored contact with a body that binds is answered
    200 with the saved contact; the struct that is saved and the contact
    stored under the id afterwards hold, in every field that no member of
    the body names, the value that was stored before. *)
Theorem UpdateContact_keeps_absent_fields (db : Gorm.DB) (id : Z)
    (doc : Json.value) (old bound : Contact.t) :
  Gorm.First db id = Gorm.Ok old ->
  Json.ShouldBindJSON parse_time doc old = Http.Decoded bound ->
  exists saved db' stored,
    Backend.UpdateContact parse_time db id (Http.Decoded doc)
    = (Http.JSON Http.StatusOK (Http.OneContact saved), db')
    /\ (saved, db') = Gorm.SaveContact db bound
    /\ Gorm.First db' id = Gorm.Ok stored
    /\ forall col, Spec.absent doc col ->
         Spec.same_field col bound old /\ Spec.same_field col stored old.
Proof.
  intros Hold Hbind. unfold Backend.UpdateContact. rewrite Hold, Hbind.
  destruct (Gorm.SaveContact db bound) as [saved db'] eqn:Es.
  pose proof (First_SaveContact db id old bound Hold) as Hf.
  rewrite Es in Hf. cbn [snd] in Hf.
  destruct Hf as [Hf | Hf].
  - exists saved, db', old. repeat split; auto.
    + exact (ShouldBindJSON_frame doc old bound Hbind col H).
    + apply same_field_refl.
  - exists saved, db', bound. repeat split; auto;
      exact (ShouldBindJSON_frame doc old bound Hbind col H).
Qed.

End Update.

Lemma UpdateContact_keeps_absent_fields_witness :
  let doc := Json.Object [("nickname", Json.Str "Ally"); ("circles", Json.Null)] in
  let bound :=
    Contact.mk 1%N "Al" "Smith" "Ally" "" "al@example.org" "" (Time.mk 1990 11 2)
      "" "" "" "" "" None "" in
  exists saved db' stored,
    Backend.UpdateContact Sample.no_time Sample.one 1 (Http.Decoded doc)
    = (Http.JSON Http.StatusOK (Http.OneContact saved), db')
    /\ (saved, db') = Gorm.SaveContact Sample.one bound
    /\ Gorm.First db' 1 = Gorm.Ok stored
    /\ forall col, Spec.absent doc col ->
         Spec.same_field col bound Sample.al /\ Spec.same_field col stored Sample.al.
Proof.
  intros doc bound.
  apply (UpdateContact_keeps_absent_fields Sample.no_time Sample.one 1 doc
           Sample.al bound); reflexivity.
Defined.

(** The update of the example: the nickname and the circles change, the
    other fields stay. *)
Example UpdateContact_merges :
  Backend.UpdateContact Sample.no_time Sample.one 1
    (Http.Decoded (Json.Object [("nickname", Json.Str "Ally"); ("circles", Json.Null)]))
  = (Http.JSON Http.StatusOK
       (Http.OneContact
          (Contact.mk 1%N "Al" "Smith" "Ally" "" "al@example.org" ""
             (Time.mk 1990 11 2) "" "" "" "" "" None "")),
     Gorm.mkDB
       [Contact.mk 1%N "Al" "Smith" "Ally" "" "al@example.org" ""
          (Time.mk 1990 11 2) "" "" "" "" "" None ""] [] []).
Proof. reflexivity. Qed.

(* ================================================================== *)
(** * Further properties: what [GetContacts] selects and preloads *)
(* ================================================================== *)

(** X1.  The select list of [GetContacts] is [ID] followed by the requested
    names that are allowed, in the order of the request, or the allowed
    fields, without [ID], when no field is requested.  Every entry names a
    column of the table; nothing else of the [fields] parameter reaches the
    query. *)
Theorem GetContacts_select_list (q : Gin.Values) :
  exists names cols,
    Gorm.selection (Backend.contacts_query q) = Gorm.SelectColumns names
    /\ Gorm.resolve names = Some cols
    /\ names =
       (if String.eqb (Gin.Query q "fields") "" then Backend.allowedFields
        else "ID" :: List.filter (Go.Contains Backend.allowedFields)
                       (Go.Split (Gin.Query q "fields") ","%char))
    /\ forall n, In n names -> n = "ID" \/ In n Backend.allowedFields.
Proof.
  destruct (selectedFields_resolve (Gin.Query q "fields")) as [cols Hc].
  exists (Backend.selectedFields (Gin.Query q "fields")), cols.
  destruct (Backend_query_parts q) as (_ & _ & Hs & _).
  split; [exact Hs | split; [exact Hc | split]].
  - unfold Backend.selectedFields.
    destruct (String.eqb (Gin.Query q "fields") ""); cbn [negb]; [reflexivity |].
    now rewrite validated_spec.
  - intros n Hn. unfold Backend.selectedFields in Hn.
    destruct (String.eqb (Gin.Query q "fields") ""); cbn [negb] in Hn; [right; exact Hn |].
    rewrite validated_spec in Hn. apply in_app_or in Hn. destruct Hn as [Hn | Hn].
    + destruct Hn as [Hn | []]. left. symmetry. exact Hn.
    + apply filter_In in Hn. right. apply Contains_In, Hn.
Qed.

Lemma resolve_In (names : list string) (cols : list Schema.Column) (col : Schema.Column) :
  Gorm.resolve names = Some cols ->
  In col cols ->
  exists n, In n names /\ Schema.column_of_name n = Some col.
Proof.
  revert cols. induction names as [|n names IH]; intros cols H Hin; cbn [Gorm.resolve] in H.
  - injection H as <-. destruct Hin.
  - destruct (Schema.column_of_name n) as [c0|] eqn:En; [| discriminate H].
    destruct (Gorm.resolve names) as [cols'|]; [| discriminate H].
    injection H as <-. destruct Hin as [<- | Hin].
    + exists n. split; [left; reflexivity | exact En].
    + destruct (IH cols' eq_refl Hin) as (m & Hm & Em).
      exists m. split; [right; exact Hm | exact Em].
Qed.

Lemma selected_never_photo (fields : string) (cols : list Schema.Column) :
  Gorm.resolve (Backend.selectedFields fields) = Some cols ->
  existsb (Schema.Column_eqb Schema.photo) cols = false.
Proof.
  intros H. destruct (existsb _ cols) eqn:E; [exfalso | reflexivity].
  apply existsb_exists in E. destruct E as (col & Hin & He).
  assert (col = Schema.photo) as -> by (destruct col; first [reflexivity | discriminate He]).
  destruct (resolve_In _ _ _ H Hin) as (n & Hn & En).
  destruct (GetContacts_selects_allowed_only fields n Hn) as [-> | Ha].
  - discriminate En.
  - unfold Backend.allowedFields in Ha.
    repeat (destruct Ha as [<- | Ha]; [discriminate En |]). destruct Ha.
Qed.

(** X2.  The contacts of a page answered by [GetContacts] never carry the
    photo, which is not an allowed field.  When the request names fields,
    each carries the id of the stored contact it comes from; when it names
    none, the select list is the allowed fields without [ID] and every
    contact of the page carries the id 0. *)
Theorem GetContacts_page_ids (sqlite : Gorm.Engine) (db : Gorm.DB) (q : Gin.Values)
    (cs : list Contact.t) (total p l : Z) :
  Backend.GetContacts sqlite db q
  = Http.JSON Http.StatusOK (Http.ContactPage cs total p l) ->
  Forall (fun c => Contact.Photo c = "") cs
  /\ (Gin.Query q "fields" = "" -> Forall (fun c => Contact.ID c = 0%N) cs)
  /\ (Gin.Query q "fields" <> "" ->
      map Contact.ID cs = map Contact.ID (Gorm.rows db (Backend.contacts_query q))).
Proof.
  intros Hans.
  destruct (GetContacts_page sqlite db q cs total p l Hans) as (cols & Hc & -> & _).
  pose proof (selected_never_photo _ _ Hc) as Hphoto.
  split; [| split].
  - apply List.Forall_forall. intros c Hin. apply in_map_iff in Hin.
    destruct Hin as (r & <- & _). cbn. now rewrite Hphoto.
  - intros He. rewrite He in Hc. injection Hc as <-.
    apply List.Forall_forall. intros c Hin. apply in_map_iff in Hin.
    destruct Hin as (r & <- & _). reflexivity.
  - intros Hne. unfold Backend.selectedFields in Hc.
    destruct (String.eqb_spec (Gin.Query q "fields") "") as [He | _]; [contradiction |].
    cbn [negb] in Hc. rewrite validated_spec in Hc. cbn [app Gorm.resolve] in Hc.
    change (Schema.column_of_name "ID") with (Some Schema.id) in Hc.
    destruct (Gorm.resolve _) as [cols'|]; [| discriminate Hc].
    injection Hc as <-. rewrite map_map. reflexivity.
Qed.

Lemma GetContacts_page_ids_witness :
  Forall (fun c => Contact.Photo c = "") [Schema.project [Schema.id; Schema.firstname] Sample.bea]
  /\ (Gin.Query [("search", "bea"); ("fields", "firstname")] "fields" = "" ->
      Forall (fun c => Contact.ID c = 0%N)
        [Schema.project [Schema.id; Schema.firstname] Sample.bea])
  /\ (Gin.Query [("search", "bea"); ("fields", "firstname")] "fields" <> "" ->
      map Contact.ID [Schema.project [Schema.id; Schema.firstname] Sample.bea]
      = map Contact.ID
          (Gorm.rows Sample.two
             (Backend.contacts_query [("search", "bea"); ("fields", "firstname")]))).
Proof.
  apply (GetContacts_page_ids Sample.sqlite Sample.two
           [("search", "bea"); ("fields", "firstname")] _ 2 1 25).
  vm_compute. reflexivity.
Defined.

(** ** Preloads *)

Lemma include_lookup (m : gmap string bool) (rel k : string) :
  Backend.include m rel !! k
  = (fun b : bool => b || String.eqb k rel) <$> (m !! k).
Proof.
  unfold Backend.include.
  destruct (String.eqb_spec k rel) as [-> | Hne].
  - destruct (m !! rel) as [b|] eqn:E.
    + rewrite lookup_insert_eq. cbn. now rewrite orb_true_r.
    + now rewrite E.
  - destruct (m !! rel) as [b|] eqn:E.
    + rewrite lookup_insert_ne by congruence.
      destruct (m !! k); cbn; [now rewrite orb_false_r | reflexivity].
    + destruct (m !! k); cbn; [now rewrite orb_false_r | reflexivity].
Qed.

Lemma fold_include_lookup (l : list string) (m : gmap string bool) (k : string) :
  fold_left Backend.include l m !! k
  = (fun b : bool => b || existsb (String.eqb k) l) <$> (m !! k).
Proof.
  revert m. induction l as [|x l IH]; intros m; cbn [fold_left existsb].
  - destruct (m !! k); cbn; [now rewrite orb_false_r | reflexivity].
  - rewrite IH, include_lookup. destruct (m !! k); cbn; [| reflexivity].
    now rewrite orb_assoc.
Qed.

Lemma relationshipMap_lookup (k : string) :
  Backend.relationshipMap !! k
  = if existsb (String.eqb k) Spec.relations then Some false else None.
Proof.
  unfold Backend.relationshipMap, Spec.relations. cbn [existsb].
  repeat (rewrite lookup_insert; case_decide as H;
          [subst k; reflexivity
          | apply String.eqb_neq in H; rewrite String.eqb_sym in H; rewrite H; clear H]).
  now rewrite lookup_empty.
Qed.

Lemma In_included (m : gmap string bool) (k : string) :
  In k (Backend.included m) <-> m !! k = Some true.
Proof.
  unfold Backend.included. rewrite in_map_iff. split.
  - intros ([k' b] & <- & Hin). apply filter_In in Hin. destruct Hin as [Hin Hb].
    cbn in Hb. subst b. apply list_elem_of_In in Hin.
    now apply elem_of_map_to_list in Hin.
  - intros H. exists (k, true). split; [reflexivity |].
    apply filter_In. split; [| reflexivity].
    apply list_elem_of_In. now apply elem_of_map_to_list.
Qed.

Lemma NoDup_map_filter {A B : Type} (f : A -> B) (p : A -> bool) (l : list A) :
  List.NoDup (map f l) -> List.NoDup (map f (List.filter p l)).
Proof.
  induction l as [|x l IH]; cbn [map List.filter]; intros H; [constructor |].
  inversion H as [|? ? Hx Hl]; subst.
  destruct (p x); [| exact (IH Hl)].
  cbn [map]. constructor; [| exact (IH Hl)].
  intros Hin. apply Hx. apply in_map_iff in Hin. destruct Hin as (y & Hy & Hin).
  apply filter_In in Hin. apply in_map_iff. exists y. tauto.
Qed.

Lemma preload_appends (names : list string) (q : Gorm.Query) :
  Gorm.preloads (fold_left (fun qr rel => Gorm.Preload rel qr) names q)
  = (Gorm.preloads q ++ names)%list.
Proof.
  revert q. induction names as [|n names IH]; intros q; cbn [fold_left].
  - now rewrite app_nil_r.
  - rewrite IH. cbn. now rewrite <- app_assoc.
Qed.

(** The calls of [Preload] that [GetContacts] makes: one for each of its
    four names that the [includes] parameter names. *)
Lemma Backend_preloads (q : Gin.Values) :
  (forall rel,
     In rel (Gorm.preloads (Backend.contacts_query q)) <->
     In rel (Go.Split (Gin.Query q "includes") ","%char) /\ In rel Spec.relations)
  /\ List.NoDup (Gorm.preloads (Backend.contacts_query q)).
Proof.
  unfold Backend.contacts_query. rewrite preload_appends.
  match goal with
  | |- context [(Gorm.preloads ?q0 ++ _)%list] =>
      assert (H0 : Gorm.preloads q0 = [])
        by (repeat (match goal with |- context [if ?b then _ else _] => destruct b end);
            reflexivity);
      rewrite H0; clear H0
  end.
  cbn [app]. split.
  - intros rel. rewrite In_included, fold_include_lookup, relationshipMap_lookup.
    destruct (existsb (String.eqb rel) Spec.relations) eqn:Er; cbn.
    + apply existsb_exists in Er. destruct Er as (x & Hx & He).
      apply String.eqb_eq in He. subst x.
      destruct (existsb (String.eqb rel) (Go.Split (Gin.Query q "includes") ",")) eqn:Es.
      * apply existsb_exists in Es. destruct Es as (x & Hx' & He).
        apply String.eqb_eq in He. subst x. tauto.
      * split; [discriminate |]. intros [Hin _]. exfalso.
        assert (Ht : existsb (String.eqb rel) (Go.Split (Gin.Query q "includes") ",") = true)
          by (apply existsb_exists; exists rel; split; [exact Hin | apply String.eqb_refl]).
        congruence.
    + split; [discriminate |]. intros [_ Hin]. exfalso.
      assert (Ht : existsb (String.eqb rel) Spec.relations = true)
        by (apply existsb_exists; exists rel; split; [exact Hin | apply String.eqb_refl]).
      congruence.
  - unfold Backend.included. apply NoDup_map_filter.
    apply NoDup_ListNoDup, NoDup_fst_map_to_list.
Qed.

(** None of the four names is the name of a relation of a contact: the
    handler writes them in lower case. *)
Lemma lower_case_relations (rel : string) :
  In rel Spec.relations -> Go.Contains Gorm.relations rel = false.
Proof.
  unfold Spec.relations. intros H.
  repeat (destruct H as [<- | H]; [reflexivity |]). destruct H.
Qed.

Lemma Backend_unsupported (q : Gin.Values) :
  Gorm.unsupported (Backend.contacts_query q) = Gorm.preloads (Backend.contacts_query q).
Proof.
  unfold Gorm.unsupported. apply forallb_filter_id, forallb_forall.
  intros rel Hin. apply (proj1 (Backend_preloads q)) in Hin.
  rewrite lower_case_relations; [reflexivity | apply Hin].
Qed.

(** X3.  [GetContacts] hands to [Preload] each of the names notes,
    activities, relationships and reminders that the [includes] parameter
    names, once, as it is written there, in lower case; any other name in
    the parameter is dropped.  None of the four is the name of a relation of
    a contact, which are [Notes], [Activities], [Relationships] and
    [Reminders]: a request that names one of them is answered 500 "Failed
    to retrieve contacts", and a request that names none is answered with
    its page. *)
Theorem GetContacts_preloads (sqlite : Gorm.Engine) (db : Gorm.DB) (q : Gin.Values) :
  let includes := Go.Split (Gin.Query q "includes") ","%char in
  let preloads := Gorm.preloads (Backend.contacts_query q) in
  (forall rel, In rel preloads <-> In rel includes /\ In rel Spec.relations)
  /\ List.NoDup preloads
  /\ (forall rel, In rel preloads -> ~ In rel Gorm.relations)
  /\ ((exists rel, In rel includes /\ In rel Spec.relations) ->
      Backend.GetContacts sqlite db q
      = Http.JSON Http.StatusInternalServerError
          (Http.Error "Failed to retrieve contacts"))
  /\ ((forall rel, In rel includes -> ~ In rel Spec.relations) ->
      preloads = []
      /\ exists cols,
           Gorm.resolve (Backend.selectedFields (Gin.Query q "fields")) = Some cols
           /\ Backend.GetContacts sqlite db q
              = Http.JSON Http.StatusOK
                  (Http.ContactPage
                     (map (Schema.project cols)
                        (Gorm.rows db (Backend.contacts_query q)))
                     (Gorm.Count db) (Backend.effective_page q)
                     (Backend.effective_limit q))).
Proof.
  cbv zeta. destruct (Backend_preloads q) as [Hiff Hnd].
  destruct (GetContacts_answer sqlite db q) as (cols & Hc & Hans).
  rewrite Backend_unsupported in Hans.
  split; [exact Hiff | split; [exact Hnd | split; [| split]]].
  - intros rel Hin Hrel. apply Hiff in Hin. destruct Hin as [_ Hin].
    apply lower_case_relations in Hin. apply Contains_In in Hrel. congruence.
  - intros (rel & Hi & Hr).
    destruct (Gorm.preloads (Backend.contacts_query q)) as [|x rest] eqn:E;
      [| exact Hans].
    exfalso. apply (proj2 (Hiff rel) (conj Hi Hr)).
  - intros Hnone.
    destruct (Gorm.preloads (Backend.contacts_query q)) as [|x rest] eqn:E.
    + split; [reflexivity |]. exists cols. split; [exact Hc | exact Hans].
    + exfalso. destruct (proj1 (Hiff x) (or_introl eq_refl)) as [Hi Hr].
      exact (Hnone x Hi Hr).
Qed.

(** A request for the notes of the contacts is refused. *)
Example GetContacts_includes_notes (sqlite : Gorm.Engine) :
  Backend.GetContacts sqlite Sample.two [("includes", "notes")]
  = Http.JSON Http.StatusInternalServerError (Http.Error "Failed to retrieve contacts").
Proof. vm_compute. reflexivity. Qed.

(* ================================================================== *)
(** * Further properties: pages and the search filter *)
(* ================================================================== *)

Lemma Backend_matching (db : Gorm.DB) (q : Gin.Values) :
  Gorm.matching (Gorm.conds (Backend.contacts_query q)) (Gorm.contacts db)
  = Spec.pool Spec.GetContacts db q.
Proof.
  destruct (Backend_query_parts q) as (_ & _ & _ & ->).
  unfold Gorm.matching, Spec.pool. apply filter_ext. intros c.
  unfold Spec.search_matches at 1. unfold Spec.circle_matches at 1.
  destruct (String.eqb_spec (Gin.Query q "search") "") as [Hs | Hs];
    destruct (String.eqb_spec (Gin.Query q "circle") "") as [Hc | Hc];
    cbn [negb app forallb]; rewrite ?andb_true_r;
    rewrite ?(holds_name_like _ c Hs), ?(holds_circle_like _ c Hc);
    unfold Spec.search_matches, Spec.circle_matches;
    repeat match goal with
           | |- context [String.eqb ?a ""] =>
               destruct (String.eqb_spec a ""); [contradiction |]
           end;
    reflexivity.
Qed.

Lemma selected_has_id (fields : string) (cols : list Schema.Column) :
  fields <> "" ->
  Gorm.resolve (Backend.selectedFields fields) = Some cols ->
  existsb (Schema.Column_eqb Schema.id) cols = true.
Proof.
  intros Hne Hc. unfold Backend.selectedFields in Hc.
  destruct (String.eqb_spec fields "") as [He | _]; [contradiction |].
  cbn [negb] in Hc. rewrite validated_spec in Hc. cbn [app Gorm.resolve] in Hc.
  change (Schema.column_of_name "ID") with (Some Schema.id) in Hc.
  destruct (Gorm.resolve _) as [cols'|]; [| discriminate Hc].
  injection Hc as <-. reflexivity.
Qed.

(** Two stretches of a list that do not overlap hold different keys when the
    keys of the list are pairwise distinct. *)
Lemma segments_disjoint (l : list Contact.t) (a n m : nat) (x y : Contact.t) :
  NoDup (map Contact.ID l) ->
  In x (firstn n (skipn a l)) ->
  In y (firstn m (skipn (a + n) l)) ->
  Contact.ID x <> Contact.ID y.
Proof.
  intros Hnd Hx Hy He.
  rewrite <- (firstn_skipn a l), map_app in Hnd.
  apply NoDup_app in Hnd. destruct Hnd as (_ & _ & Hnd).
  rewrite <- (firstn_skipn n (skipn a l)), map_app in Hnd.
  apply NoDup_app in Hnd. destruct Hnd as (_ & Hdis & _).
  apply (Hdis (Contact.ID x)).
  - apply list_elem_of_In, in_map, Hx.
  - apply list_elem_of_In. rewrite He. apply in_map.
    rewrite skipn_skipn. replace (n + a)%nat with (a + n)%nat by lia.
    apply In_firstn in Hy. exact Hy.
Qed.

(** X4.  Two requests to [GetContacts] that differ in nothing but the page,
    the second asking for the page after the first, are answered with
    adjoining stretches of the stored contacts that the conditions of the
    query let through, each contact in the selected columns: the first page
    holds the [limit] contacts after the first [(page - 1) * limit], the
    second the [limit] contacts after those, so together they are the
    [2 * limit] contacts that follow the first page's offset and none is
    skipped between them.  On a store whose contact keys are in order, and
    for a request that names fields, so that the ids are listed, no id is
    listed on both pages. *)
Theorem GetContacts_consecutive_pages (sqlite : Gorm.Engine) (db : Gorm.DB)
    (q q' : Gin.Values) (cs cs' : list Contact.t) (total total' p l : Z) :
  Backend.GetContacts sqlite db q
  = Http.JSON Http.StatusOK (Http.ContactPage cs total p l) ->
  Backend.GetContacts sqlite db q'
  = Http.JSON Http.StatusOK (Http.ContactPage cs' total' (p + 1) l) ->
  Gin.Query q "search" = Gin.Query q' "search" ->
  Gin.Query q "circle" = Gin.Query q' "circle" ->
  Gin.Query q "fields" = Gin.Query q' "fields" ->
  p * l <= Go.int_max ->
  let pool := Gorm.matching (Gorm.conds (Backend.contacts_query q)) (Gorm.contacts db) in
  exists cols,
    Gorm.resolve (Backend.selectedFields (Gin.Query q "fields")) = Some cols
    /\ cs = map (Schema.project cols)
              (firstn (Z.to_nat l) (skipn (Z.to_nat ((p - 1) * l)) pool))
    /\ cs' = map (Schema.project cols)
               (firstn (Z.to_nat l) (skipn (Z.to_nat (p * l)) pool))
    /\ (cs ++ cs')%list
       = map (Schema.project cols)
           (firstn (Z.to_nat (2 * l)) (skipn (Z.to_nat ((p - 1) * l)) pool))
    /\ (Spec.contact_keys_ok db -> Gin.Query q "fields" <> "" ->
        forall c c', In c cs -> In c' cs' -> Contact.ID c <> Contact.ID c').
Proof.
  intros Ha Ha' Hs Hc Hf Hfit pool.
  destruct (GetContacts_page sqlite db q cs total p l Ha)
    as (cols & Hcols & Hcs & _ & Hp & Hl).
  destruct (GetContacts_page sqlite db q' cs' total' (p + 1) l Ha')
    as (cols' & Hcols' & Hcs' & _ & Hp' & Hl').
  rewrite <- Hf, Hcols in Hcols'. injection Hcols' as <-.
  pose proof (effective_page_range q) as Rp. pose proof (effective_page_range q') as Rp'.
  pose proof (Backend_limit_range q) as Rl.
  rewrite <- Hp in Rp. rewrite <- Hp' in Rp'. rewrite <- Hl in Rl.
  assert (Hpool : Spec.pool Spec.GetContacts db q' = Spec.pool Spec.GetContacts db q)
    by (unfold Spec.pool; now rewrite Hs, Hc).
  rewrite Backend_rows, <- Hp, <- Hl, <- Backend_matching in Hcs.
  rewrite Backend_rows, <- Hp', <- Hl', Hpool, <- Backend_matching in Hcs'.
  fold pool in Hcs, Hcs'.
  unfold Go.int_max in *.
  assert (Ho : Go.mul (Go.sub p 1) l = (p - 1) * l).
  { unfold Go.mul, Go.sub.
    rewrite (wrap_small (p - 1)) by (unfold Go.int_min, Go.int_max; lia).
    apply wrap_small. unfold Go.int_min, Go.int_max. nia. }
  assert (Ho' : Go.mul (Go.sub (p + 1) 1) l = p * l).
  { unfold Go.mul, Go.sub.
    rewrite (wrap_small (p + 1 - 1)) by (unfold Go.int_min, Go.int_max; lia).
    replace (p + 1 - 1) with p by lia.
    apply wrap_small. unfold Go.int_min, Go.int_max. nia. }
  rewrite Ho, window_page in Hcs by nia. rewrite Ho', window_page in Hcs' by nia.
  assert (Hsum : Z.to_nat (p * l) = (Z.to_nat ((p - 1) * l) + Z.to_nat l)%nat) by nia.
  exists cols. split; [exact Hcols | split; [exact Hcs | split; [exact Hcs' | split]]].
  - rewrite Hcs, Hcs', <- map_app. f_equal.
    rewrite Hsum.
    replace (Z.to_nat (2 * l)) with (Z.to_nat l + Z.to_nat l)%nat by lia.
    rewrite <- drop_drop. apply take_take_drop.
  - intros [Hnd _] Hne c c' Hin Hin'.
    rewrite Hcs in Hin. rewrite Hcs', Hsum in Hin'.
    apply in_map_iff in Hin. destruct Hin as (x & <- & Hx).
    apply in_map_iff in Hin'. destruct Hin' as (y & <- & Hy).
    assert (Hid : forall r, Contact.ID (Schema.project cols r) = Contact.ID r)
      by (intros r; cbn; now rewrite (selected_has_id _ _ Hne Hcols)).
    rewrite !Hid.
    apply (segments_disjoint pool (Z.to_nat ((p - 1) * l)) (Z.to_nat l) (Z.to_nat l) x y);
      [| exact Hx | exact Hy].
    subst pool. unfold Gorm.matching.
    apply NoDup_ListNoDup, NoDup_map_filter, NoDup_ListNoDup, Hnd.
Qed.

Lemma GetContacts_consecutive_pages_witness :
  let q := [("page", "1"); ("limit", "1"); ("fields", "firstname")] in
  let cs := [Schema.project [Schema.id; Schema.firstname] Sample.al] in
  let cs' := [Schema.project [Schema.id; Schema.firstname] Sample.bea] in
  let pool :=
    Gorm.matching (Gorm.conds (Backend.contacts_query q)) (Gorm.contacts Sample.two) in
  exists cols,
    Gorm.resolve (Backend.selectedFields (Gin.Query q "fields")) = Some cols
    /\ cs = map (Schema.project cols)
              (firstn (Z.to_nat 1) (skipn (Z.to_nat ((1 - 1) * 1)) pool))
    /\ cs' = map (Schema.project cols)
               (firstn (Z.to_nat 1) (skipn (Z.to_nat (1 * 1)) pool))
    /\ (cs ++ cs')%list
       = map (Schema.project cols)
           (firstn (Z.to_nat (2 * 1)) (skipn (Z.to_nat ((1 - 1) * 1)) pool))
    /\ (Spec.contact_keys_ok Sample.two -> Gin.Query q "fields" <> "" ->
        forall c c', In c cs -> In c' cs' -> Contact.ID c <> Contact.ID c').
Proof.
  intros q cs cs'.
  apply (GetContacts_consecutive_pages Sample.sqlite Sample.two q
           [("page", "2"); ("limit", "1"); ("fields", "firstname")]
           cs cs' 2 2 1 1).
  - vm_compute. reflexivity.
  - vm_compute. reflexivity.
  - reflexivity.
  - reflexivity.
  - reflexivity.
  - vm_compute. discriminate.
Defined.

(** ** LIKE on ASCII text *)

Lemma ascii_not_lead (c : ascii) : Sqlite.is_ascii c = true -> Sqlite.is_lead c = false.
Proof.
  unfold Sqlite.is_ascii, Sqlite.is_lead. intros H.
  apply Nat.ltb_lt in H. apply Nat.leb_gt. lia.
Qed.

Lemma chars_ascii (s : string) :
  Spec.ascii_only s = true ->
  Sqlite.chars s = map (fun c => String c "") (list_ascii_of_string s).
Proof.
  induction s as [|c s IH]; cbn [Spec.ascii_only Sqlite.chars list_ascii_of_string map];
    intros H; [reflexivity |].
  apply andb_prop in H. destruct H as [Hc Hs].
  rewrite (ascii_not_lead c Hc), (IH Hs). reflexivity.
Qed.

Lemma ascii_only_app (a b : string) :
  Spec.ascii_only (a +:+ b) = Spec.ascii_only a && Spec.ascii_only b.
Proof.
  induction a as [|x a IH]; simpl; [reflexivity |]. now rewrite IH, andb_assoc.
Qed.

Lemma list_ascii_app (a b : string) :
  list_ascii_of_string (a +:+ b)
  = (list_ascii_of_string a ++ list_ascii_of_string b)%list.
Proof. induction a as [|x a IH]; simpl; [| rewrite IH]; reflexivity. Qed.

Lemma lower_eq_nocase (t mid : string) :
  Spec.ascii_only t = true -> Spec.ascii_only mid = true ->
  Schema.lower_string mid = Schema.lower_string t ->
  Forall2 (fun a b => Sqlite.eq_nocase a b = true)
    (map (fun c => String c "") (list_ascii_of_string t))
    (map (fun c => String c "") (list_ascii_of_string mid)).
Proof.
  revert mid. induction t as [|x t IH]; intros [|y mid] Ht Hm H; simpl in *;
    try discriminate; [constructor |].
  injection H as Hxy H.
  apply andb_prop in Ht, Hm. destruct Ht as [Hx Ht], Hm as [Hy Hm].
  constructor; [| now apply IH].
  unfold Sqlite.eq_nocase. rewrite Hx, Hy, Hxy, Ascii.eqb_refl. apply orb_true_r.
Qed.

Lemma patternCompare_only_all (s : list string) :
  Sqlite.patternCompare [Sqlite.matchAll] s = true.
Proof.
  induction s as [|c s IH]; rewrite patternCompare_all; [reflexivity |].
  rewrite IH. apply orb_true_r.
Qed.

Lemma patternCompare_all_intro (p pre s : list string) :
  Sqlite.patternCompare p s = true ->
  Sqlite.patternCompare (Sqlite.matchAll :: p) (pre ++ s) = true.
Proof.
  intros H. induction pre as [|c pre IH]; cbn [app]; rewrite patternCompare_all.
  - rewrite H. reflexivity.
  - rewrite IH. apply orb_true_r.
Qed.

Lemma patternCompare_literals_intro (m mid post : list string) :
  Forall Sqlite.literal m ->
  Forall2 (fun a b => Sqlite.eq_nocase a b = true) m mid ->
  Sqlite.patternCompare (m ++ [Sqlite.matchAll]) (mid ++ post) = true.
Proof.
  intros Hm Hf. revert Hm. induction Hf as [|a b m mid Hab _ IH]; intros Hm; cbn [app].
  - apply patternCompare_only_all.
  - inversion Hm as [|? ? Ha Hm']; subst.
    rewrite (patternCompare_literal a _ _ Ha), Hab. exact (IH Hm').
Qed.

(** On ASCII text and for an ASCII term without [%] and [_], [LIKE %term%]
    is containing the term, letter case aside. *)
Lemma like_ascii_iff (term text : string) :
  Spec.no_wildcards term = true ->
  Spec.ascii_only term = true ->
  Spec.ascii_only text = true ->
  Sqlite.like ("%" +:+ term +:+ "%") text = true <-> Spec.contains_nocase term text.
Proof.
  intros Hw Ht Hs. split; [now apply like_contains_nocase |].
  intros (pre & mid & post & -> & Hl).
  rewrite !ascii_only_app in Hs.
  apply andb_prop in Hs. destruct Hs as [Hpre Hs].
  apply andb_prop in Hs. destruct Hs as [Hmid Hpost].
  unfold Sqlite.like.
  change (Sqlite.chars ("%" +:+ term +:+ "%"))
    with (Sqlite.matchAll :: Sqlite.chars (term +:+ "%")).
  rewrite chars_app_percent.
  rewrite (chars_ascii (pre +:+ mid +:+ post))
    by (rewrite !ascii_only_app, Hpre, Hmid, Hpost; reflexivity).
  rewrite !list_ascii_app, !map_app.
  apply patternCompare_all_intro, patternCompare_literals_intro.
  - now apply chars_literal.
  - rewrite (chars_ascii term Ht). now apply lower_eq_nocase.
Qed.

(** X5.  On a store whose names are ASCII text, a search term of ASCII
    characters without [%] and [_] makes [GetContacts] an exact
    case-insensitive substring search: the stored contacts its query
    conditions let through are those of which the firstname, the lastname
    or the nickname contains the term, letter case aside, and which pass the
    circle filter. *)
Theorem GetContacts_search_is_substring_search (db : Gorm.DB) (q : Gin.Values)
    (term : string) :
  Gin.Query q "search" = term ->
  term <> "" ->
  Spec.no_wildcards term = true ->
  Spec.ascii_only term = true ->
  (forall c, In c (Gorm.contacts db) ->
     Spec.ascii_only (Contact.Firstname c) = true
     /\ Spec.ascii_only (Contact.Lastname c) = true
     /\ Spec.ascii_only (Contact.Nickname c) = true) ->
  forall c,
    In c (Gorm.matching (Gorm.conds (Backend.contacts_query q)) (Gorm.contacts db)) <->
    In c (Gorm.contacts db)
    /\ (Spec.contains_nocase term (Contact.Firstname c)
        \/ Spec.contains_nocase term (Contact.Lastname c)
        \/ Spec.contains_nocase term (Contact.Nickname c))
    /\ Spec.circle_matches (Gin.Query q "circle") c = true.
Proof.
  intros Hq Hne Hw Ht Hdb c.
  rewrite Backend_matching, pool_GetContacts, Hq.
  unfold Spec.search_matches.
  destruct (String.eqb_spec term "") as [He | _]; [contradiction |].
  split.
  - intros (Hin & Hs & Hc). destruct (Hdb c Hin) as (Hf & Hl & Hn).
    split; [exact Hin | split; [| exact Hc]].
    apply orb_prop in Hs. destruct Hs as [Hs | Hs].
    + apply orb_prop in Hs. destruct Hs as [Hs | Hs].
      * left. now apply like_ascii_iff.
      * right; left. now apply like_ascii_iff.
    + right; right. now apply like_ascii_iff.
  - intros (Hin & Hs & Hc). destruct (Hdb c Hin) as (Hf & Hl & Hn).
    split; [exact Hin | split; [| exact Hc]].
    destruct Hs as [Hs | [Hs | Hs]]; apply like_ascii_iff in Hs; auto;
      rewrite Hs, ?orb_true_r; reflexivity.
Qed.

Lemma GetContacts_search_is_substring_search_witness :
  In Sample.bea
    (Gorm.matching (Gorm.conds (Backend.contacts_query [("search", "BEA")]))
       (Gorm.contacts Sample.two)) <->
  In Sample.bea (Gorm.contacts Sample.two)
  /\ (Spec.contains_nocase "BEA" (Contact.Firstname Sample.bea)
      \/ Spec.contains_nocase "BEA" (Contact.Lastname Sample.bea)
      \/ Spec.contains_nocase "BEA" (Contact.Nickname Sample.bea))
  /\ Spec.circle_matches (Gin.Query [("search", "BEA")] "circle") Sample.bea = true.
Proof.
  apply (GetContacts_search_is_substring_search Sample.two [("search", "BEA")] "BEA").
  - reflexivity.
  - discriminate.
  - reflexivity.
  - reflexivity.
  - intros c [<- | [<- | []]]; repeat split; reflexivity.
Defined.

(* ================================================================== *)
(** * Further properties: creating, updating and deleting contacts *)
(* ================================================================== *)

Lemma max_bounds (ids : list N) (x : N) :
  In x ids -> (x <= fold_right N.max 0%N ids)%N.
Proof.
  induction ids as [|y ids IH]; cbn [fold_right]; intros H; [destruct H |].
  destruct H as [-> | H]; [apply N.le_max_l |].
  specialize (IH H). pose proof (N.le_max_r y (fold_right N.max 0%N ids)). lia.
Qed.

(** The key a table assigns is none of the stored ones, and not zero. *)
Lemma next_id_fresh (ids : list N) :
  ~ In (Gorm.next_id ids) ids /\ Gorm.next_id ids <> 0%N.
Proof.
  unfold Gorm.next_id. split; [| lia].
  intros H. apply max_bounds in H. lia.
Qed.


Lemma find_contact_none (key : Z) (rows : list Contact.t) :
  (forall k, Z.of_N k = key -> ~ In k (map Contact.ID rows)) ->
  find (fun r => Z.of_N (Contact.ID r) =? key) rows = None.
Proof.
  induction rows as [|r rows IH]; cbn [find map]; intros H; [reflexivity |].
  destruct (Z.eqb_spec (Z.of_N (Contact.ID r)) key) as [He | _].
  - exfalso. apply (H _ He). left. reflexivity.
  - apply IH. intros k Hk Hin. apply (H k Hk). right. exact Hin.
Qed.

Lemma find_contact_app (key : Z) (rows more : list Contact.t) :
  find (fun r => Z.of_N (Contact.ID r) =? key) (rows ++ more)
  = match find (fun r => Z.of_N (Contact.ID r) =? key) rows with
    | Some r => Some r
    | None => find (fun r => Z.of_N (Contact.ID r) =? key) more
    end.
Proof.
  induction rows as [|r rows IH]; cbn [find app]; [reflexivity |].
  destruct (Z.of_N (Contact.ID r) =? key); [reflexivity | exact IH].
Qed.

(** Appending a contact under a key that is not stored: it is found under
    its key, and every other key finds what it found before. *)
Lemma First_append (db : Gorm.DB) (c : Contact.t) (key : Z) :
  ~ In (Contact.ID c) (map Contact.ID (Gorm.contacts db)) ->
  Gorm.First (Gorm.set_contacts db (Gorm.contacts db ++ [c])) key
  = if Z.of_N (Contact.ID c) =? key then Gorm.Ok c else Gorm.First db key.
Proof.
  intros Hfresh. unfold Gorm.First. cbn [Gorm.set_contacts Gorm.contacts].
  rewrite find_contact_app. cbn [find].
  destruct (Z.eqb_spec (Z.of_N (Contact.ID c)) key) as [He | Hne].
  - rewrite find_contact_none; [reflexivity |].
    intros k Hk. assert (k = Contact.ID c) as -> by lia. exact Hfresh.
  - destruct (find _ (Gorm.contacts db)); reflexivity.
Qed.

Lemma First_replace (db : Gorm.DB) (c : Contact.t) (key : Z) :
  In (Contact.ID c) (map Contact.ID (Gorm.contacts db)) ->
  Gorm.First (Gorm.set_contacts db (Gorm.replace_contact c (Gorm.contacts db))) key
  = if Z.of_N (Contact.ID c) =? key then Gorm.Ok c else Gorm.First db key.
Proof.
  unfold Gorm.First. cbn [Gorm.set_contacts Gorm.contacts].
  induction (Gorm.contacts db) as [|r rows IH]; cbn [map In find Gorm.replace_contact];
    intros Hin; [destruct Hin |].
  destruct (N.eqb_spec (Contact.ID r) (Contact.ID c)) as [He | Hne]; cbn [find].
  - rewrite He. destruct (Z.of_N (Contact.ID c) =? key); reflexivity.
  - destruct Hin as [Hin | Hin]; [contradiction |].
    destruct (Z.eqb_spec (Z.of_N (Contact.ID r)) key) as [Hr | Hr].
    + destruct (Z.eqb_spec (Z.of_N (Contact.ID c)) key) as [Hc | _]; [| reflexivity].
      exfalso. apply Hne. lia.
    + exact (IH Hin).
Qed.

(** What a save leaves to be found: the saved contact under its key, and
    under every other key what was found before. *)
Lemma First_SaveContact_key (db : Gorm.DB) (c : Contact.t) (key : Z) :
  let '(saved, db') := Gorm.SaveContact db c in
  Gorm.First db' key
  = if Z.of_N (Contact.ID saved) =? key then Gorm.Ok saved else Gorm.First db key.
Proof.
  unfold Gorm.SaveContact.
  destruct (Contact.ID c =? 0)%N.
  - apply First_append. cbn. apply next_id_fresh.
  - destruct (existsb _ _) eqn:E.
    + apply First_replace. now apply existsb_eqb_In.
    + apply First_append. intros Hin. apply existsb_eqb_In in Hin. congruence.
Qed.

Lemma GetContact_First (db : Gorm.DB) (key : Z) (c : Contact.t) :
  Backend.GetContact db key = Http.JSON Http.StatusOK (Http.OneContact c)
  <-> Gorm.First db key = Gorm.Ok c.
Proof.
  unfold Backend.GetContact. destruct (Gorm.First db key) as [c'|e].
  - split; [intros [= ->]; reflexivity | intros [= ->]; reflexivity].
  - split; discriminate.
Qed.

Section ContactWrites.

Variable parse_time : string -> option Time.t.

(** X6.  When [CreateContact] answers 200, the contact of the answer has
    been appended to the contacts under a key that is not zero and was not
    in use; [GetContact] with that key answers it, and every key that found
    a contact before finds the same contact after. *)
Theorem CreateContact_then_GetContact (db db' : Gorm.DB)
    (body : Http.Bound Json.value) (msg : string) (created : Contact.t) :
  Backend.CreateContact parse_time db body
  = (Reply.JSON Http.StatusOK (Reply.MessageContact msg created), db') ->
  db' = Gorm.set_contacts db (Gorm.contacts db ++ [created])
  /\ Contact.ID created <> 0%N
  /\ ~ In (Contact.ID created) (map Contact.ID (Gorm.contacts db))
  /\ Backend.GetContact db' (Z.of_N (Contact.ID created))
     = Http.JSON Http.StatusOK (Http.OneContact created)
  /\ (forall key old,
        Backend.GetContact db key = Http.JSON Http.StatusOK (Http.OneContact old) ->
        Backend.GetContact db' key = Http.JSON Http.StatusOK (Http.OneContact old))
  /\ Gorm.Count db' = Gorm.Count db + 1.
Proof.
  unfold Backend.CreateContact.
  destruct body as [doc | err]; [| discriminate].
  destruct (Json.ShouldBindJSON parse_time doc Contact.zero) as [c | err]; [| discriminate].
  unfold Gorm.CreateContact.
  assert (Hgen : forall c',
    Contact.ID c' <> 0%N ->
    ~ In (Contact.ID c') (map Contact.ID (Gorm.contacts db)) ->
    (Reply.JSON Http.StatusOK (Reply.MessageContact "Contact created successfully" c'),
     Gorm.set_contacts db (Gorm.contacts db ++ [c']))
    = (Reply.JSON Http.StatusOK (Reply.MessageContact msg created), db') ->
    db' = Gorm.set_contacts db (Gorm.contacts db ++ [created])
    /\ Contact.ID created <> 0%N
    /\ ~ In (Contact.ID created) (map Contact.ID (Gorm.contacts db))
    /\ Backend.GetContact db' (Z.of_N (Contact.ID created))
       = Http.JSON Http.StatusOK (Http.OneContact created)
    /\ (forall key old,
          Backend.GetContact db key = Http.JSON Http.StatusOK (Http.OneContact old) ->
          Backend.GetContact db' key = Http.JSON Http.StatusOK (Http.OneContact old))
    /\ Gorm.Count db' = Gorm.Count db + 1).
  { intros c' Hnz Hfresh [= _ <- <-].
    repeat split; auto.
    - apply GetContact_First. rewrite First_append by exact Hfresh.
      now rewrite Z.eqb_refl.
    - intros key old Hold. apply GetContact_First in Hold.
      apply GetContact_First. rewrite First_append by exact Hfresh.
      destruct (Z.eqb_spec (Z.of_N (Contact.ID c')) key) as [He | _]; [| exact Hold].
      exfalso. apply First_found in Hold. destruct Hold as [Hin Hk].
      apply Hfresh. apply in_map_iff. exists old. split; [lia | exact Hin].
    - unfold Gorm.Count. cbn. rewrite length_app. cbn. lia. }
  destruct (N.eqb_spec (Contact.ID c) 0) as [Hz | Hnz].
  - apply Hgen; cbn; apply next_id_fresh.
  - destruct (existsb _ _) eqn:E; [discriminate |].
    apply Hgen; [exact Hnz |].
    intros Hin. apply existsb_eqb_In in Hin. congruence.
Qed.

(** X7.  [CreateContact] changes the store only when it answers 200.  A
    body that is not JSON, or does not bind, is answered 400; a body that
    binds to a contact whose id is not zero and already in use is answered
    500 "Failed to save contact"; every other body that binds is answered
    200. *)
Theorem CreateContact_refusals (db : Gorm.DB) (body : Http.Bound Json.value) :
  let answer := Backend.CreateContact parse_time db body in
  (Reply.status (fst answer) <> Http.StatusOK -> snd answer = db)
  /\ (forall err, body = Http.Malformed err ->
      answer = (Reply.JSON Http.StatusBadRequest (Reply.Error err), db))
  /\ (forall doc err,
        body = Http.Decoded doc ->
        Json.ShouldBindJSON parse_time doc Contact.zero = Http.Malformed err ->
        answer = (Reply.JSON Http.StatusBadRequest (Reply.Error err), db))
  /\ (forall doc c,
        body = Http.Decoded doc ->
        Json.ShouldBindJSON parse_time doc Contact.zero = Http.Decoded c ->
        if (Contact.ID c =? 0)%N
           || negb (existsb (N.eqb (Contact.ID c)) (map Contact.ID (Gorm.contacts db)))
        then Reply.status (fst answer) = Http.StatusOK
        else answer = (Reply.JSON Http.StatusInternalServerError
                         (Reply.Error "Failed to save contact"), db)).
Proof.
  cbv zeta. unfold Backend.CreateContact, Gorm.CreateContact.
  destruct body as [doc | err].
  - destruct (Json.ShouldBindJSON parse_time doc Contact.zero) as [c | err] eqn:Eb.
    + destruct (Contact.ID c =? 0)%N eqn:Ez; [| destruct (existsb _ _) eqn:Ee];
        cbn [fst snd Reply.status];
        (split; [intros H; try reflexivity; now contradiction H |]);
        (split; [intros ? [=] |]); (split; [intros ? ? [= <-]; congruence |]);
        intros ? ? [= <-] Hb; rewrite Eb in Hb; injection Hb as <-;
        rewrite Ez, ?Ee; reflexivity.
    + cbn [fst snd]. split; [reflexivity |].
      split; [intros ? [=] |]. split.
      * intros ? ? [= <-] Hb. rewrite Eb in Hb. now injection Hb as <-.
      * intros ? ? [= <-] Hb. rewrite Eb in Hb. discriminate Hb.
  - cbn [fst snd]. split; [reflexivity |].
    split; [intros ? [= <-]; reflexivity |].
    split; intros ? ? [=].
Qed.

(** X8.  [UpdateContact] either refuses, with 404 or 400, and leaves the
    store as it was, or answers 200 with the saved contact.  In that case
    the contact is stored under the id it carries (the id of the body when
    the body has one that is not zero), [GetContact] with that id answers
    it, and what is found under every other id is what was found before. *)
Theorem UpdateContact_effect (db : Gorm.DB) (id : Z) (body : Http.Bound Json.value) :
  let answer := Backend.UpdateContact parse_time db id body in
  (Http.status (fst answer) = Http.StatusNotFound
   \/ Http.status (fst answer) = Http.StatusBadRequest)
  /\ snd answer = db
  \/ exists old doc bound saved,
       Gorm.First db id = Gorm.Ok old
       /\ body = Http.Decoded doc
       /\ Json.ShouldBindJSON parse_time doc old = Http.Decoded bound
       /\ fst answer = Http.JSON Http.StatusOK (Http.OneContact saved)
       /\ (Contact.ID bound <> 0%N -> saved = bound)
       /\ forall key,
            Backend.GetContact (snd answer) key
            = if Z.of_N (Contact.ID saved) =? key
              then Http.JSON Http.StatusOK (Http.OneContact saved)
              else Backend.GetContact db key.
Proof.
  cbv zeta. unfold Backend.UpdateContact.
  destruct (Gorm.First db id) as [old | e] eqn:Ef; [| left; cbn; auto].
  destruct body as [doc | err]; [| left; cbn; auto].
  destruct (Json.ShouldBindJSON parse_time doc old) as [bound | err] eqn:Eb;
    [| left; cbn; auto].
  right. exists old, doc, bound.
  pose proof (First_SaveContact_key db bound) as Hkey.
  assert (Hsaved : Contact.ID bound <> 0%N -> fst (Gorm.SaveContact db bound) = bound).
  { intros Hnz. unfold Gorm.SaveContact.
    destruct (N.eqb_spec (Contact.ID bound) 0); [contradiction |].
    destruct (existsb _ _); reflexivity. }
  destruct (Gorm.SaveContact db bound) as [saved db'].
  exists saved. cbn [fst snd] in *. repeat split; auto.
  intros key. unfold Backend.GetContact. rewrite (Hkey key).
  destruct (Z.of_N (Contact.ID saved) =? key); reflexivity.
Qed.

End ContactWrites.

Lemma CreateContact_then_GetContact_witness :
  let created :=
    Contact.mk 3%N "Cy" "" "" "" "" "" Time.zero "" "" "" "" "" None "" in
  let db' := Gorm.set_contacts Sample.two (Gorm.contacts Sample.two ++ [created]) in
  db' = Gorm.set_contacts Sample.two (Gorm.contacts Sample.two ++ [created])
  /\ Contact.ID created <> 0%N
  /\ ~ In (Contact.ID created) (map Contact.ID (Gorm.contacts Sample.two))
  /\ Backend.GetContact db' (Z.of_N (Contact.ID created))
     = Http.JSON Http.StatusOK (Http.OneContact created)
  /\ (forall key old,
        Backend.GetContact Sample.two key = Http.JSON Http.StatusOK (Http.OneContact old) ->
        Backend.GetContact db' key = Http.JSON Http.StatusOK (Http.OneContact old))
  /\ Gorm.Count db' = Gorm.Count Sample.two + 1.
Proof.
  intros created db'.
  apply (CreateContact_then_GetContact Sample.no_time Sample.two db'
           (Http.Decoded (Json.Object [("firstname", Json.Str "Cy")]))
           "Contact created successfully" created).
  reflexivity.
Defined.

(** For a path parameter that is a number, [DeleteContact] deletes by the
    primary key and answers 200. *)
Lemma DeleteContact_number (sqlite : Gorm.Engine) (db : Gorm.DB) (path : string)
    (id : Z) :
  Go.Atoi path = (id, false) ->
  Backend.DeleteContact sqlite db path
  = (Http.JSON Http.StatusOK (Http.Message "Contact deleted"), Gorm.DeleteContact db id).
Proof.
  intros H. unfold Backend.DeleteContact, Gorm.DeleteContactWhere. now rewrite H.
Qed.



(** The store after the contact 1 was deleted. *)
Example DeleteContact_removes (sqlite : Gorm.Engine) :
  Backend.DeleteContact sqlite Sample.two "1"
  = (Http.JSON Http.StatusOK (Http.Message "Contact deleted"),
     Gorm.mkDB [Sample.bea] [] []).
Proof. reflexivity. Qed.

(* ================================================================== *)
(** * Further properties: primary keys *)
(* ================================================================== *)

Lemma keys_ok_append (ids : list N) (x : N) :
  Spec.keys_ok ids -> x <> 0%N -> ~ In x ids -> Spec.keys_ok (ids ++ [x]).
Proof.
  intros [Hnd Hz] Hx Hfresh. split.
  - apply NoDup_app. repeat split.
    + exact Hnd.
    + intros y Hy Hy'. apply list_elem_of_In in Hy, Hy'.
      destruct Hy' as [<- | []]. contradiction.
    + apply NoDup_ListNoDup. repeat constructor. intros [].
  - intros Hin. apply in_app_or in Hin. destruct Hin as [Hin | [Hin | []]]; auto.
Qed.

Lemma keys_ok_filter {A : Type} (f : A -> N) (p : A -> bool) (l : list A) :
  Spec.keys_ok (map f l) -> Spec.keys_ok (map f (List.filter p l)).
Proof.
  intros [Hnd Hz]. split; [apply NoDup_ListNoDup, NoDup_map_filter, NoDup_ListNoDup, Hnd |].
  intros Hin. apply Hz. apply in_map_iff in Hin. destruct Hin as (x & Hx & Hin).
  apply filter_In in Hin. apply in_map_iff. exists x. tauto.
Qed.

Lemma replace_contact_ids (c : Contact.t) (rows : list Contact.t) :
  map Contact.ID (Gorm.replace_contact c rows) = map Contact.ID rows.
Proof.
  induction rows as [|r rows IH]; cbn [Gorm.replace_contact map]; [reflexivity |].
  destruct (N.eqb_spec (Contact.ID r) (Contact.ID c)) as [He | _]; cbn [map].
  - now rewrite He.
  - now rewrite IH.
Qed.

Lemma replace_reminder_ids (r : Reminder.t) (rows : list Reminder.t) :
  map Reminder.ID (Gorm.replace_reminder r rows) = map Reminder.ID rows.
Proof.
  induction rows as [|x rows IH]; cbn [Gorm.replace_reminder map]; [reflexivity |].
  destruct (N.eqb_spec (Reminder.ID x) (Reminder.ID r)) as [He | _]; cbn [map].
  - now rewrite He.
  - now rewrite IH.
Qed.

Lemma reparent_ids (i o : N) (rows : list Gorm.RelationshipRow) :
  map (fun row => Relationship.ID (Gorm.relationship row)) (Gorm.reparent i o rows)
  = map (fun row => Relationship.ID (Gorm.relationship row)) rows.
Proof.
  induction rows as [|x rows IH]; cbn [Gorm.reparent map]; [reflexivity |].
  destruct (Relationship.ID (Gorm.relationship x) =? i)%N; cbn [map Gorm.relationship].
  - reflexivity.
  - now rewrite IH.
Qed.

Lemma well_keyed_CreateContact (db : Gorm.DB) (c : Contact.t) :
  Spec.well_keyed db -> Spec.well_keyed (snd (Gorm.CreateContact db c)).
Proof.
  intros (Hc & Hr & Hm). unfold Gorm.CreateContact.
  destruct (N.eqb_spec (Contact.ID c) 0) as [Hz | Hnz]; cbn [snd].
  - split; [| split; [exact Hr | exact Hm]].
    unfold Spec.contact_keys_ok. cbn. rewrite map_app. cbn.
    apply keys_ok_append; [exact Hc | apply next_id_fresh | apply next_id_fresh].
  - destruct (existsb _ _) eqn:E; cbn [snd]; [exact (conj Hc (conj Hr Hm)) |].
    split; [| split; [exact Hr | exact Hm]].
    unfold Spec.contact_keys_ok. cbn. rewrite map_app. cbn.
    apply keys_ok_append; [exact Hc | exact Hnz |].
    intros Hin. apply existsb_eqb_In in Hin. congruence.
Qed.

Lemma well_keyed_SaveContact (db : Gorm.DB) (c : Contact.t) :
  Spec.well_keyed db -> Spec.well_keyed (snd (Gorm.SaveContact db c)).
Proof.
  intros (Hc & Hr & Hm). unfold Gorm.SaveContact.
  destruct (N.eqb_spec (Contact.ID c) 0) as [Hz | Hnz]; cbn [snd].
  - split; [| split; [exact Hr | exact Hm]].
    unfold Spec.contact_keys_ok. cbn. rewrite map_app. cbn.
    apply keys_ok_append; [exact Hc | apply next_id_fresh | apply next_id_fresh].
  - destruct (existsb _ _) eqn:E; cbn [snd]; (split; [| split; [exact Hr | exact Hm]]).
    + unfold Spec.contact_keys_ok. cbn. now rewrite replace_contact_ids.
    + unfold Spec.contact_keys_ok. cbn. rewrite map_app. cbn.
      apply keys_ok_append; [exact Hc | exact Hnz |].
      intros Hin. apply existsb_eqb_In in Hin. congruence.
Qed.

Lemma well_keyed_DeleteContact (db : Gorm.DB) (key : Z) :
  Spec.well_keyed db -> Spec.well_keyed (Gorm.DeleteContact db key).
Proof.
  intros (Hc & Hr & Hm). split; [| split; [exact Hr | exact Hm]].
  unfold Spec.contact_keys_ok, Gorm.DeleteContact. cbn. now apply keys_ok_filter.
Qed.

Lemma well_keyed_SaveRelationshipOf (o : N) (db : Gorm.DB) (r : Relationship.t) :
  Spec.well_keyed db -> Spec.well_keyed (Gorm.SaveRelationshipOf o db r).
Proof.
  intros (Hc & Hr & Hm). unfold Gorm.SaveRelationshipOf.
  destruct (N.eqb_spec (Relationship.ID r) 0) as [Hz | Hnz].
  - split; [exact Hc | split; [| exact Hm]].
    unfold Spec.relationship_keys_ok. cbn. rewrite map_app. cbn.
    apply keys_ok_append; [exact Hr | apply next_id_fresh | apply next_id_fresh].
  - destruct (existsb _ _) eqn:E; (split; [exact Hc | split; [| exact Hm]]).
    + unfold Spec.relationship_keys_ok. cbn. now rewrite reparent_ids.
    + unfold Spec.relationship_keys_ok. cbn. rewrite map_app. cbn.
      apply keys_ok_append; [exact Hr | exact Hnz |].
      intros Hin. apply existsb_eqb_In in Hin. congruence.
Qed.

Lemma well_keyed_SaveWithRelationships (db : Gorm.DB) (c : Contact.t)
    (rels : list Relationship.t) :
  Spec.well_keyed db -> Spec.well_keyed (snd (Gorm.SaveWithRelationships db c rels)).
Proof.
  intros H. unfold Gorm.SaveWithRelationships.
  pose proof (well_keyed_SaveContact db c H) as H'.
  destruct (Gorm.SaveContact db c) as [c' db']. cbn [snd] in *.
  revert db' H'. induction rels as [|r rels IH]; intros db' H'; cbn [fold_left]; [exact H' |].
  apply IH. now apply well_keyed_SaveRelationshipOf.
Qed.

Lemma well_keyed_CreateRelationship (db : Gorm.DB) (r : Relationship.t) :
  Spec.well_keyed db -> Spec.well_keyed (snd (Gorm.CreateRelationship db r)).
Proof.
  intros (Hc & Hr & Hm). unfold Gorm.CreateRelationship.
  destruct (N.eqb_spec (Relationship.ID r) 0) as [Hz | Hnz]; cbn [snd].
  - split; [exact Hc | split; [| exact Hm]].
    unfold Spec.relationship_keys_ok. cbn. rewrite map_app. cbn.
    apply keys_ok_append; [exact Hr | apply next_id_fresh | apply next_id_fresh].
  - destruct (existsb _ _) eqn:E; cbn [snd]; [exact (conj Hc (conj Hr Hm)) |].
    split; [exact Hc | split; [| exact Hm]].
    unfold Spec.relationship_keys_ok. cbn. rewrite map_app. cbn.
    apply keys_ok_append; [exact Hr | exact Hnz |].
    intros Hin. apply existsb_eqb_In in Hin. congruence.
Qed.

Lemma well_keyed_CreateReminder (db : Gorm.DB) (r : Reminder.t) :
  Spec.well_keyed db -> Spec.well_keyed (snd (Gorm.CreateReminder db r)).
Proof.
  intros (Hc & Hr & Hm). unfold Gorm.CreateReminder.
  destruct (N.eqb_spec (Reminder.ID r) 0) as [Hz | Hnz]; cbn [snd].
  - split; [exact Hc | split; [exact Hr |]].
    unfold Spec.reminder_keys_ok. cbn. rewrite map_app. cbn.
    apply keys_ok_append; [exact Hm | apply next_id_fresh | apply next_id_fresh].
  - destruct (existsb _ _) eqn:E; cbn [snd]; [exact (conj Hc (conj Hr Hm)) |].
    split; [exact Hc | split; [exact Hr |]].
    unfold Spec.reminder_keys_ok. cbn. rewrite map_app. cbn.
    apply keys_ok_append; [exact Hm | exact Hnz |].
    intros Hin. apply existsb_eqb_In in Hin. congruence.
Qed.

Lemma well_keyed_SaveReminder (db : Gorm.DB) (r : Reminder.t) :
  Spec.well_keyed db -> Spec.well_keyed (snd (Gorm.SaveReminder db r)).
Proof.
  intros (Hc & Hr & Hm). unfold Gorm.SaveReminder.
  destruct (N.eqb_spec (Reminder.ID r) 0) as [Hz | Hnz]; cbn [snd].
  - split; [exact Hc | split; [exact Hr |]].
    unfold Spec.reminder_keys_ok. cbn. rewrite map_app. cbn.
    apply keys_ok_append; [exact Hm | apply next_id_fresh | apply next_id_fresh].
  - destruct (existsb _ _) eqn:E; cbn [snd]; (split; [exact Hc | split; [exact Hr |]]).
    + unfold Spec.reminder_keys_ok. cbn. now rewrite replace_reminder_ids.
    + unfold Spec.reminder_keys_ok. cbn. rewrite map_app. cbn.
      apply keys_ok_append; [exact Hm | exact Hnz |].
      intros Hin. apply existsb_eqb_In in Hin. congruence.
Qed.

Lemma well_keyed_DeleteReminder (db : Gorm.DB) (key : Z) :
  Spec.well_keyed db -> Spec.well_keyed (Gorm.DeleteReminder db key).
Proof.
  intros (Hc & Hr & Hm). split; [exact Hc | split; [exact Hr |]].
  unfold Spec.reminder_keys_ok, Gorm.DeleteReminder. cbn. now apply keys_ok_filter.
Qed.

(** X10.  The handlers of the contact controllers keep the primary keys of
    the store in order: if in every table the keys are pairwise distinct
    and none is zero, they are so after [CreateContact], [UpdateContact],
    [DeleteContact] for a path parameter that is a number, and
    [AddRelationshipToContact], whatever the request and whatever the
    answer. *)
Theorem contact_handlers_keep_keys (parse_time : string -> option Time.t)
    (sqlite : Gorm.Engine) (db : Gorm.DB) :
  Spec.well_keyed db ->
  (forall body, Spec.well_keyed (snd (Backend.CreateContact parse_time db body)))
  /\ (forall id body, Spec.well_keyed (snd (Backend.UpdateContact parse_time db id body)))
  /\ (forall path, snd (Go.Atoi path) = false ->
        Spec.well_keyed (snd (Backend.DeleteContact sqlite db path)))
  /\ (forall id body,
        Spec.well_keyed (snd (Controllers.AddRelationshipToContact db id body))).
Proof.
  intros H. split; [| split; [| split]].
  - intros body. unfold Backend.CreateContact.
    destruct body as [doc | err]; [| exact H].
    destruct (Json.ShouldBindJSON parse_time doc Contact.zero) as [c | err]; [| exact H].
    pose proof (well_keyed_CreateContact db c H) as H'.
    destruct (Gorm.CreateContact db c) as [[c' | e] db']; exact H'.
  - intros id body. unfold Backend.UpdateContact.
    destruct (Gorm.First db id) as [old | e]; [| exact H].
    destruct body as [doc | err]; [| exact H].
    destruct (Json.ShouldBindJSON parse_time doc old) as [c | err]; [| exact H].
    pose proof (well_keyed_SaveContact db c H) as H'.
    destruct (Gorm.SaveContact db c) as [c' db']; exact H'.
  - intros path Hpath.
    rewrite (DeleteContact_number sqlite db path (fst (Go.Atoi path)))
      by (destruct (Go.Atoi path); cbn in *; now subst).
    now apply well_keyed_DeleteContact.
  - intros id body. unfold Controllers.AddRelationshipToContact.
    destruct (Go.Atoi id) as [n err]. destruct err; [exact H |].
    destruct (Gorm.First db n) as [contact | [| msg]]; [| exact H | exact H].
    destruct body as [r | err]; [| exact H].
    destruct (Relationship.ContactID r) as [k |].
    + destruct (Gorm.First db (Z.of_N k)) as [rc | [| msg]]; [| exact H | exact H].
      match goal with
      | |- context [Gorm.SaveWithRelationships db contact ?rels] =>
          pose proof (well_keyed_SaveWithRelationships db contact rels H) as H';
          destruct (Gorm.SaveWithRelationships db contact rels) as [c' db']
      end.
      exact H'.
    + match goal with
      | |- context [Gorm.SaveWithRelationships db contact ?rels] =>
          pose proof (well_keyed_SaveWithRelationships db contact rels H) as H';
          destruct (Gorm.SaveWithRelationships db contact rels) as [c' db']
      end.
      exact H'.
Qed.

Lemma contact_handlers_keep_keys_witness :
  (forall body, Spec.well_keyed (snd (Backend.CreateContact Sample.no_time Sample.two body)))
  /\ (forall id body,
        Spec.well_keyed (snd (Backend.UpdateContact Sample.no_time Sample.two id body)))
  /\ (forall path, snd (Go.Atoi path) = false ->
        Spec.well_keyed (snd (Backend.DeleteContact Sample.sqlite Sample.two path)))
  /\ (forall id body,
        Spec.well_keyed (snd (Controllers.AddRelationshipToContact Sample.two id body))).
Proof.
  apply (contact_handlers_keep_keys Sample.no_time Sample.sqlite Sample.two).
  repeat split; cbn; try (apply NoDup_ListNoDup; repeat constructor; cbn);
    intuition discriminate.
Defined.

(** For a path parameter that is a number, [DeleteReminder] deletes by the
    primary key and answers 200. *)
Lemma DeleteReminder_number (sqlite : Gorm.Engine) (db : Gorm.DB) (path : string)
    (id : Z) :
  Go.Atoi path = (id, false) ->
  ReminderController.DeleteReminder sqlite db path
  = (Http.JSON Http.StatusOK (Http.Message "Reminder deleted"),
     Gorm.DeleteReminder db id).
Proof.
  intros H. unfold ReminderController.DeleteReminder, Gorm.DeleteReminderWhere.
  now rewrite H.
Qed.

Lemma Atoi_number (path : string) :
  snd (Go.Atoi path) = false -> Go.Atoi path = (fst (Go.Atoi path), false).
Proof. destruct (Go.Atoi path); cbn; now intros ->. Qed.

(** X11.  The handlers of the relationship and reminder controllers keep
    the primary keys of the store in order as well: [CreateRelationship],
    [UpdateReminder], and [CreateReminder] and [DeleteReminder] for a path
    parameter that is a number. *)
Theorem relationship_and_reminder_handlers_keep_keys (sqlite : Gorm.Engine)
    (db : Gorm.DB) :
  Spec.well_keyed db ->
  (forall body, Spec.well_keyed (snd (RelationshipController.CreateRelationship db body)))
  /\ (forall path body, snd (Go.Atoi path) = false ->
        Spec.well_keyed (snd (ReminderController.CreateReminder sqlite db path body)))
  /\ (forall id body, Spec.well_keyed (snd (ReminderController.UpdateReminder db id body)))
  /\ (forall path, snd (Go.Atoi path) = false ->
        Spec.well_keyed (snd (ReminderController.DeleteReminder sqlite db path))).
Proof.
  intros H. split; [| split; [| split]].
  - intros body. unfold RelationshipController.CreateRelationship.
    destruct body as [r | err]; [| exact H].
    destruct (Relationship.ContactID r) as [k |].
    + destruct (Gorm.First db (Z.of_N k)) as [rc | e]; [| exact H].
      match goal with
      | |- context [Gorm.CreateRelationship db ?r'] =>
          pose proof (well_keyed_CreateRelationship db r' H) as H';
          destruct (Gorm.CreateRelationship db r') as [[c' | e] db']
      end; exact H'.
    + pose proof (well_keyed_CreateRelationship db r H) as H'.
      destruct (Gorm.CreateRelationship db r) as [[c' | e] db']; exact H'.
  - intros path body Hpath. unfold ReminderController.CreateReminder.
    rewrite (FirstWhere_number sqlite db path _ (Atoi_number path Hpath)).
    destruct (Gorm.First db (fst (Go.Atoi path))) as [contact | [| msg]];
      [| exact H | exact H].
    destruct body as [r | err]; [| exact H].
    match goal with
    | |- context [Gorm.CreateReminder db ?r'] =>
        pose proof (well_keyed_CreateReminder db r' H) as H';
        destruct (Gorm.CreateReminder db r') as [[c' | e] db']
    end; exact H'.
  - intros id body. unfold ReminderController.UpdateReminder.
    destruct (Gorm.FirstReminder db id) as [old | e]; [| exact H].
    destruct (body old) as [r | err]; [| exact H].
    pose proof (well_keyed_SaveReminder db r H) as H'.
    destruct (Gorm.SaveReminder db r) as [c' db']; exact H'.
  - intros path Hpath.
    rewrite (DeleteReminder_number sqlite db path _ (Atoi_number path Hpath)).
    now apply well_keyed_DeleteReminder.
Qed.

Lemma relationship_and_reminder_handlers_keep_keys_witness :
  (forall body,
     Spec.well_keyed (snd (RelationshipController.CreateRelationship Sample.two body)))
  /\ (forall path body, snd (Go.Atoi path) = false ->
        Spec.well_keyed
          (snd (ReminderController.CreateReminder Sample.sqlite Sample.two path body)))
  /\ (forall id body,
        Spec.well_keyed (snd (ReminderController.UpdateReminder Sample.two id body)))
  /\ (forall path, snd (Go.Atoi path) = false ->
        Spec.well_keyed (snd (ReminderController.DeleteReminder Sample.sqlite Sample.two path))).
Proof.
  apply (relationship_and_reminder_handlers_keep_keys Sample.sqlite Sample.two).
  repeat split; cbn; try (apply NoDup_ListNoDup; repeat constructor; cbn);
    intuition discriminate.
Defined.

(* ================================================================== *)
(** * Further properties: reminders and relationships *)
(* ================================================================== *)

Lemma find_reminder_app (key : Z) (rows more : list Reminder.t) :
  find (fun r => Z.of_N (Reminder.ID r) =? key) (rows ++ more)
  = match find (fun r => Z.of_N (Reminder.ID r) =? key) rows with
    | Some r => Some r
    | None => find (fun r => Z.of_N (Reminder.ID r) =? key) more
    end.
Proof.
  induction rows as [|r rows IH]; cbn [find app]; [reflexivity |].
  destruct (Z.of_N (Reminder.ID r) =? key); [reflexivity | exact IH].
Qed.

Lemma find_reminder_none (key : Z) (rows : list Reminder.t) :
  (forall k, Z.of_N k = key -> ~ In k (map Reminder.ID rows)) ->
  find (fun r => Z.of_N (Reminder.ID r) =? key) rows = None.
Proof.
  induction rows as [|r rows IH]; cbn [find map]; intros H; [reflexivity |].
  destruct (Z.eqb_spec (Z.of_N (Reminder.ID r)) key) as [He | _].
  - exfalso. apply (H _ He). left. reflexivity.
  - apply IH. intros k Hk Hin. apply (H k Hk). right. exact Hin.
Qed.

Lemma FirstReminder_append (db : Gorm.DB) (r : Reminder.t) (key : Z) :
  ~ In (Reminder.ID r) (map Reminder.ID (Gorm.reminders db)) ->
  Gorm.FirstReminder (Gorm.set_reminders db (Gorm.reminders db ++ [r])) key
  = if Z.of_N (Reminder.ID r) =? key then Gorm.Ok r else Gorm.FirstReminder db key.
Proof.
  intros Hfresh. unfold Gorm.FirstReminder. cbn [Gorm.set_reminders Gorm.reminders].
  rewrite find_reminder_app. cbn [find].
  destruct (Z.eqb_spec (Z.of_N (Reminder.ID r)) key) as [He | Hne].
  - rewrite find_reminder_none; [reflexivity |].
    intros k Hk. assert (k = Reminder.ID r) as -> by lia. exact Hfresh.
  - destruct (find _ (Gorm.reminders db)); reflexivity.
Qed.

Lemma FirstReminder_replace (db : Gorm.DB) (r : Reminder.t) (key : Z) :
  In (Reminder.ID r) (map Reminder.ID (Gorm.reminders db)) ->
  Gorm.FirstReminder (Gorm.set_reminders db (Gorm.replace_reminder r (Gorm.reminders db))) key
  = if Z.of_N (Reminder.ID r) =? key then Gorm.Ok r else Gorm.FirstReminder db key.
Proof.
  unfold Gorm.FirstReminder. cbn [Gorm.set_reminders Gorm.reminders].
  induction (Gorm.reminders db) as [|x rows IH]; cbn [map In find Gorm.replace_reminder];
    intros Hin; [destruct Hin |].
  destruct (N.eqb_spec (Reminder.ID x) (Reminder.ID r)) as [He | Hne]; cbn [find].
  - rewrite He. destruct (Z.of_N (Reminder.ID r) =? key); reflexivity.
  - destruct Hin as [Hin | Hin]; [contradiction |].
    destruct (Z.eqb_spec (Z.of_N (Reminder.ID x)) key) as [Hr | Hr].
    + destruct (Z.eqb_spec (Z.of_N (Reminder.ID r)) key) as [Hc | _]; [| reflexivity].
      exfalso. apply Hne. lia.
    + exact (IH Hin).
Qed.

Lemma FirstReminder_SaveReminder_key (db : Gorm.DB) (r : Reminder.t) (key : Z) :
  let '(saved, db') := Gorm.SaveReminder db r in
  Gorm.FirstReminder db' key
  = if Z.of_N (Reminder.ID saved) =? key then Gorm.Ok saved
    else Gorm.FirstReminder db key.
Proof.
  unfold Gorm.SaveReminder.
  destruct (Reminder.ID r =? 0)%N.
  - apply FirstReminder_append. cbn. apply next_id_fresh.
  - destruct (existsb _ _) eqn:E.
    + apply FirstReminder_replace. now apply existsb_eqb_In.
    + apply FirstReminder_append. intros Hin. apply existsb_eqb_In in Hin. congruence.
Qed.


Lemma First_delete (db : Gorm.DB) (id key : Z) :
  Gorm.First (Gorm.DeleteContact db id) key
  = if key =? id then Gorm.Err Gorm.ErrRecordNotFound else Gorm.First db key.
Proof.
  unfold Gorm.First, Gorm.DeleteContact. cbn [Gorm.set_contacts Gorm.contacts].
  induction (Gorm.contacts db) as [|r rows IH]; cbn [List.filter find].
  - destruct (key =? id); reflexivity.
  - destruct (Z.eqb_spec (Z.of_N (Contact.ID r)) id) as [He | Hne]; cbn [negb find].
    + rewrite IH. destruct (Z.eqb_spec key id) as [Hk | Hk]; [reflexivity |].
      destruct (Z.eqb_spec (Z.of_N (Contact.ID r)) key); [lia | reflexivity].
    + destruct (Z.eqb_spec (Z.of_N (Contact.ID r)) key) as [Hr | Hr].
      * destruct (Z.eqb_spec key id); [lia | reflexivity].
      * exact IH.
Qed.

Lemma RemindersOf_append (db : Gorm.DB) (r : Reminder.t) (k : N) :
  Gorm.RemindersOf (Gorm.set_reminders db (Gorm.reminders db ++ [r])) k
  = (Gorm.RemindersOf db k
     ++ (if match Reminder.ContactID r with Some j => (j =? k)%N | None => false end
         then [r] else []))%list.
Proof.
  unfold Gorm.RemindersOf. cbn [Gorm.set_reminders Gorm.reminders].
  rewrite List.filter_app. reflexivity.
Qed.

(** X12.  When [CreateReminder], for a path parameter that is the number
    [i], answers 200, [GetReminder] with the id of the created reminder
    answers that reminder, [GetRemindersForContact] for the contact it was
    created for lists the reminders the contact had and the created one, the
    lists of the other contacts are what they were, and every reminder that
    was found before is found still. *)
Theorem CreateReminder_then_lookup (sqlite : Gorm.Engine) (db db' : Gorm.DB)
    (path : string) (i : Z) (body : Http.Bound Reminder.t) (msg : string)
    (created : Reminder.t) :
  Go.Atoi path = (i, false) ->
  ReminderController.CreateReminder sqlite db path body
  = (Http.JSON Http.StatusOK (Http.MessageReminder msg created), db') ->
  ReminderController.GetReminder db' (Z.of_N (Reminder.ID created))
  = Reply.JSON Http.StatusOK (Reply.OneReminder created)
  /\ (exists c,
        Gorm.First db i = Gorm.Ok c
        /\ ReminderController.GetRemindersForContact db' i
           = Reply.JSON Http.StatusOK
               (Reply.ReminderList (Gorm.RemindersOf db (Contact.ID c) ++ [created])))
  /\ (forall j, j <> i ->
        ReminderController.GetRemindersForContact db' j
        = ReminderController.GetRemindersForContact db j)
  /\ (forall key old,
        ReminderController.GetReminder db key
        = Reply.JSON Http.StatusOK (Reply.OneReminder old) ->
        ReminderController.GetReminder db' key
        = Reply.JSON Http.StatusOK (Reply.OneReminder old)).
Proof.
  intros Hpath. unfold ReminderController.CreateReminder.
  rewrite (FirstWhere_number sqlite db path i Hpath).
  destruct (Gorm.First db i) as [c | [| m]] eqn:Ef; try discriminate.
  destruct body as [r | err]; [| discriminate].
  destruct (First_found db i c Ef) as [Hin Hid].
  assert (Hgen : forall r',
    Reminder.ContactID r' = Some (Contact.ID c) ->
    ~ In (Reminder.ID r') (map Reminder.ID (Gorm.reminders db)) ->
    (Http.JSON Http.StatusOK (Http.MessageReminder "Reminder created successfully" r'),
     Gorm.set_reminders db (Gorm.reminders db ++ [r']))
    = (Http.JSON Http.StatusOK (Http.MessageReminder msg created), db') ->
    ReminderController.GetReminder db' (Z.of_N (Reminder.ID created))
    = Reply.JSON Http.StatusOK (Reply.OneReminder created)
    /\ (exists c0,
          Gorm.Ok c = Gorm.Ok c0
          /\ ReminderController.GetRemindersForContact db' i
             = Reply.JSON Http.StatusOK
                 (Reply.ReminderList (Gorm.RemindersOf db (Contact.ID c0) ++ [created])))
    /\ (forall j, j <> i ->
          ReminderController.GetRemindersForContact db' j
          = ReminderController.GetRemindersForContact db j)
    /\ (forall key old,
          ReminderController.GetReminder db key
          = Reply.JSON Http.StatusOK (Reply.OneReminder old) ->
          ReminderController.GetReminder db' key
          = Reply.JSON Http.StatusOK (Reply.OneReminder old))).
  { intros r' Hcid Hfresh [= _ <- <-].
    split; [| split; [| split]].
    - unfold ReminderController.GetReminder.
      rewrite FirstReminder_append by exact Hfresh. now rewrite Z.eqb_refl.
    - exists c. split; [reflexivity |].
      unfold ReminderController.GetRemindersForContact.
      change (Gorm.First (Gorm.set_reminders db (Gorm.reminders db ++ [r'])) i)
        with (Gorm.First db i).
      rewrite Ef, RemindersOf_append, Hcid, N.eqb_refl. reflexivity.
    - intros j Hj. unfold ReminderController.GetRemindersForContact.
      change (Gorm.First (Gorm.set_reminders db (Gorm.reminders db ++ [r'])) j)
        with (Gorm.First db j).
      destruct (Gorm.First db j) as [cj | [| m]] eqn:Ej; try reflexivity.
      rewrite RemindersOf_append, Hcid.
      destruct (First_found db j cj Ej) as [_ Hcj].
      destruct (N.eqb_spec (Contact.ID c) (Contact.ID cj)) as [He | _]; [| now rewrite app_nil_r].
      exfalso. apply Hj. rewrite <- Hcj, <- Hid, He. reflexivity.
    - intros key old. unfold ReminderController.GetReminder.
      rewrite FirstReminder_append by exact Hfresh.
      destruct (Gorm.FirstReminder db key) as [o | e] eqn:Eo; [| discriminate].
      intros [= ->].
      destruct (Z.eqb_spec (Z.of_N (Reminder.ID r')) key) as [He | _]; [| reflexivity].
      exfalso. apply Hfresh. unfold Gorm.FirstReminder in Eo.
      destruct (find _ _) as [o' |] eqn:Efind; [| discriminate]. injection Eo as ->.
      apply find_some in Efind. destruct Efind as [Ho Hk]. apply Z.eqb_eq in Hk.
      apply in_map_iff. exists old. split; [lia | exact Ho]. }
  unfold Gorm.CreateReminder. cbn [Reminder.ID].
  destruct (N.eqb_spec (Reminder.ID r) 0) as [Hz | Hnz].
  - apply Hgen; [reflexivity | cbn; apply next_id_fresh].
  - destruct (existsb _ _) eqn:E; [discriminate |].
    apply Hgen; [reflexivity |]. cbn.
    intros Hi. apply existsb_eqb_In in Hi. congruence.
Qed.

Lemma CreateReminder_then_lookup_witness :
  let created :=
    Reminder.mk 1%N "call back" false "2026-12-01T08:00:00Z" "none" true (Some 1%N) in
  let db' := Gorm.mkDB [Sample.al] [] [created] in
  ReminderController.GetReminder db' (Z.of_N (Reminder.ID created))
  = Reply.JSON Http.StatusOK (Reply.OneReminder created)
  /\ (exists c,
        Gorm.First Sample.one 1 = Gorm.Ok c
        /\ ReminderController.GetRemindersForContact db' 1
           = Reply.JSON Http.StatusOK
               (Reply.ReminderList (Gorm.RemindersOf Sample.one (Contact.ID c) ++ [created])))
  /\ (forall j, j <> 1 ->
        ReminderController.GetRemindersForContact db' j
        = ReminderController.GetRemindersForContact Sample.one j)
  /\ (forall key old,
        ReminderController.GetReminder Sample.one key
        = Reply.JSON Http.StatusOK (Reply.OneReminder old) ->
        ReminderController.GetReminder db' key
        = Reply.JSON Http.StatusOK (Reply.OneReminder old)).
Proof.
  intros created db'.
  apply (CreateReminder_then_lookup Sample.sqlite Sample.one db' "1" 1
           (Http.Decoded Sample.call_back) "Reminder created successfully" created).
  - reflexivity.
  - reflexivity.
Defined.



(** X14.  [UpdateReminder] saves the reminder as the body leaves it and
    looks no contact up: when the stored reminder is found and the body
    binds, the answer is 200, [GetReminder] with the id of the saved
    reminder answers it, and its [ContactID] is the one the binding left,
    also when no contact with that id is stored. *)
Theorem UpdateReminder_saves_unchecked (db : Gorm.DB) (id : Z)
    (body : Reminder.t -> Http.Bound Reminder.t) (old bound : Reminder.t) :
  Gorm.FirstReminder db id = Gorm.Ok old ->
  body old = Http.Decoded bound ->
  exists saved db',
    ReminderController.UpdateReminder db id body
    = (Http.JSON Http.StatusOK
         (Http.MessageReminder "Reminder updated successfully" saved), db')
    /\ Reminder.ContactID saved = Reminder.ContactID bound
    /\ ReminderController.GetReminder db' (Z.of_N (Reminder.ID saved))
       = Reply.JSON Http.StatusOK (Reply.OneReminder saved)
    /\ Gorm.contacts db' = Gorm.contacts db
    /\ (forall k, Reminder.ContactID bound = Some k ->
          ~ Spec.contact_exists db k -> ~ Spec.contact_exists db' k).
Proof.
  intros Hold Hb. unfold ReminderController.UpdateReminder. rewrite Hold, Hb.
  pose proof (FirstReminder_SaveReminder_key db bound) as Hkey.
  assert (Hc : Gorm.contacts (snd (Gorm.SaveReminder db bound)) = Gorm.contacts db
               /\ Reminder.ContactID (fst (Gorm.SaveReminder db bound))
                  = Reminder.ContactID bound).
  { unfold Gorm.SaveReminder.
    destruct (Reminder.ID bound =? 0)%N; [| destruct (existsb _ _)]; split; reflexivity. }
  destruct (Gorm.SaveReminder db bound) as [saved db']. cbn [fst snd] in Hc.
  destruct Hc as [Hc Hcid].
  exists saved, db'. split; [reflexivity | split; [exact Hcid | split; [| split]]].
  - unfold ReminderController.GetReminder.
    rewrite (Hkey (Z.of_N (Reminder.ID saved))), Z.eqb_refl. reflexivity.
  - exact Hc.
  - intros k _ Hn (c & Hf). apply Hn. exists c.
    unfold Gorm.First in *. now rewrite <- Hc.
Qed.

Lemma UpdateReminder_saves_unchecked_witness :
  let old :=
    Reminder.mk 1%N "call back" false "2026-12-01T08:00:00Z" "none" true (Some 1%N) in
  let bound :=
    Reminder.mk 1%N "call back" false "2026-12-01T08:00:00Z" "none" true (Some 99%N) in
  let body (r : Reminder.t) : Http.Bound Reminder.t :=
    Http.Decoded
      (Reminder.mk (Reminder.ID r) (Reminder.Message r) (Reminder.ByMail r)
         (Reminder.RemindAt r) (Reminder.Recurrence r)
         (Reminder.ReoccurFromCompletion r) (Some 99%N)) in
  exists saved db',
    ReminderController.UpdateReminder Sample.with_reminder 1 body
    = (Http.JSON Http.StatusOK
         (Http.MessageReminder "Reminder updated successfully" saved), db')
    /\ Reminder.ContactID saved = Reminder.ContactID bound
    /\ ReminderController.GetReminder db' (Z.of_N (Reminder.ID saved))
       = Reply.JSON Http.StatusOK (Reply.OneReminder saved)
    /\ Gorm.contacts db' = Gorm.contacts Sample.with_reminder
    /\ (forall k, Reminder.ContactID bound = Some k ->
          ~ Spec.contact_exists Sample.with_reminder k -> ~ Spec.contact_exists db' k).
Proof.
  intros old bound body.
  apply (UpdateReminder_saves_unchecked Sample.with_reminder 1 body old bound);
    reflexivity.
Defined.

(** X15.  A reminder outlives its contact: after [DeleteContact] for a
    contact, addressed by a path parameter that is its id, the reminders
    tied to it are still stored and still answered by [GetReminder], while
    the contact is gone and [GetRemindersForContact] for it answers 404. *)
Theorem reminders_outlive_contact (sqlite : Gorm.Engine) (db : Gorm.DB)
    (path : string) (i : N) (r : Reminder.t) :
  Go.Atoi path = (Z.of_N i, false) ->
  In r (Gorm.reminders db) ->
  Reminder.ContactID r = Some i ->
  let db' := snd (Backend.DeleteContact sqlite db path) in
  In r (Gorm.reminders db')
  /\ ~ Spec.contact_exists db' i
  /\ ReminderController.GetRemindersForContact db' (Z.of_N i)
     = Reply.JSON Http.StatusNotFound (Reply.Error "Contact not found")
  /\ (forall key,
        ReminderController.GetReminder db' key = ReminderController.GetReminder db key).
Proof.
  intros Hpath Hin Hcid. cbv zeta.
  rewrite (DeleteContact_number sqlite db path _ Hpath). cbn [snd].
  split; [exact Hin | split; [| split]].
  - intros (c & Hc). rewrite First_delete, Z.eqb_refl in Hc. discriminate Hc.
  - unfold ReminderController.GetRemindersForContact.
    now rewrite First_delete, Z.eqb_refl.
  - reflexivity.
Qed.

Lemma reminders_outlive_contact_witness :
  let r := Reminder.mk 1%N "call back" false "2026-12-01T08:00:00Z" "none" true (Some 1%N) in
  let db' := snd (Backend.DeleteContact Sample.sqlite Sample.with_reminder "1") in
  In r (Gorm.reminders db')
  /\ ~ Spec.contact_exists db' 1
  /\ ReminderController.GetRemindersForContact db' (Z.of_N 1)
     = Reply.JSON Http.StatusNotFound (Reply.Error "Contact not found")
  /\ (forall key,
        ReminderController.GetReminder db' key
        = ReminderController.GetReminder Sample.with_reminder key).
Proof.
  intros r.
  apply (reminders_outlive_contact Sample.sqlite Sample.with_reminder "1" 1%N r).
  - reflexivity.
  - left. reflexivity.
  - reflexivity.
Defined.

(** X16.  [CreateRelationship] does not look at the outcome of the insert:
    for a body whose id is not zero and already the key of a stored
    relationship, and whose [ContactID] is nil or names a stored contact,
    it answers 200 with the relationship although the store is left as it
    was. *)
Theorem CreateRelationship_answers_200_on_conflict (db : Gorm.DB) (r : Relationship.t) :
  Relationship.ID r <> 0%N ->
  In (Relationship.ID r)
    (map (fun row => Relationship.ID (Gorm.relationship row)) (Gorm.relationships db)) ->
  (Relationship.ContactID r = None
   \/ exists k, Relationship.ContactID r = Some k /\ Spec.contact_exists db k) ->
  exists answered,
    RelationshipController.CreateRelationship db (Http.Decoded r)
    = (Http.JSON Http.StatusOK (Http.OneRelationship answered), db)
    /\ Relationship.ID answered = Relationship.ID r
    /\ Relationship.ContactID answered = Relationship.ContactID r.
Proof.
  intros Hnz Hin Hc. unfold RelationshipController.CreateRelationship.
  assert (Hconf : forall r', Relationship.ID r' = Relationship.ID r ->
            Gorm.CreateRelationship db r'
            = (Gorm.Err (Gorm.ErrSQL "UNIQUE constraint failed: relationships.id"), db)).
  { intros r' He. unfold Gorm.CreateRelationship. rewrite He.
    destruct (N.eqb_spec (Relationship.ID r) 0); [contradiction |].
    apply existsb_eqb_In in Hin. now rewrite Hin. }
  destruct Hc as [Hc | (k & Hc & (c & Hf))]; rewrite Hc.
  - rewrite (Hconf r eq_refl). exists r. auto.
  - rewrite Hf. rewrite Hconf by reflexivity. eexists. split; [reflexivity |].
    cbn. auto.
Qed.

Lemma CreateRelationship_answers_200_on_conflict_witness :
  let stored := Relationship.mk 1%N "Cy" "sibling" None None in
  let db := Gorm.mkDB [Sample.al] [Gorm.mkRow None stored] [] in
  let r := Relationship.mk 1%N "Di" "cousin" None None in
  exists answered,
    RelationshipController.CreateRelationship db (Http.Decoded r)
    = (Http.JSON Http.StatusOK (Http.OneRelationship answered), db)
    /\ Relationship.ID answered = Relationship.ID r
    /\ Relationship.ContactID answered = Relationship.ContactID r.
Proof.
  intros stored db r.
  apply (CreateRelationship_answers_200_on_conflict db r).
  - discriminate.
  - left. reflexivity.
  - left. reflexivity.
Defined.

Lemma replace_found (key : Z) (c : Contact.t) (rows : list Contact.t) :
  find (fun r => Z.of_N (Contact.ID r) =? key) rows = Some c ->
  Gorm.replace_contact c rows = rows.
Proof.
  induction rows as [|r rows IH]; cbn [find Gorm.replace_contact]; [discriminate |].
  destruct (Z.eqb_spec (Z.of_N (Contact.ID r)) key) as [He | Hne].
  - intros [= ->]. now rewrite N.eqb_refl.
  - intros H. pose proof (find_some _ _ H) as [_ Hk]. apply Z.eqb_eq in Hk.
    destruct (N.eqb_spec (Contact.ID r) (Contact.ID c)) as [Hrc | _].
    + exfalso. apply Hne. rewrite Hrc. exact Hk.
    + now rewrite (IH H).
Qed.

(** X17.  On a store whose contact keys are in order, a request to
    [AddRelationshipToContact] that is addressed to a stored contact and
    whose body names no contact, or a stored one, is answered 200 and
    leaves the contacts and the reminders as they were.  A relationship
    without an id is appended to the relationships under a new key, for the
    addressed contact, with the name, the type and the [ContactID] of the
    body and, when it names a contact, that contact attached. *)
Theorem AddRelationshipToContact_appends (db : Gorm.DB) (id : string) (n : Z)
    (contact : Contact.t) (r : Relationship.t) :
  Spec.contact_keys_ok db ->
  Go.Atoi id = (n, false) ->
  Gorm.First db n = Gorm.Ok contact ->
  (Relationship.ContactID r = None
   \/ exists k, Relationship.ContactID r = Some k /\ Spec.contact_exists db k) ->
  let answer := Controllers.AddRelationshipToContact db id (Http.Decoded r) in
  fst answer
  = Http.JSON Http.StatusOK (Http.Message "Relationship added to contact successfully")
  /\ Gorm.contacts (snd answer) = Gorm.contacts db
  /\ Gorm.reminders (snd answer) = Gorm.reminders db
  /\ (Relationship.ID r = 0%N ->
      exists stored,
        Gorm.relationships (snd answer)
        = (Gorm.relationships db ++ [Gorm.mkRow (Some (Contact.ID contact)) stored])%list
        /\ ~ In (Relationship.ID stored)
             (map (fun row => Relationship.ID (Gorm.relationship row))
                (Gorm.relationships db))
        /\ Relationship.ID stored <> 0%N
        /\ Relationship.Name stored = Relationship.Name r
        /\ Relationship.Type_ stored = Relationship.Type_ r
        /\ Relationship.ContactID stored = Relationship.ContactID r
        /\ forall k, Relationship.ContactID r = Some k ->
             exists related,
               Gorm.First db (Z.of_N k) = Gorm.Ok related
               /\ Relationship.RelatedContact stored = Some related).
Proof.
  intros [_ Hz] Ha Hf Hc. cbv zeta. unfold Controllers.AddRelationshipToContact.
  rewrite Ha, Hf.
  assert (Hsave : Gorm.SaveContact db contact = (contact, db)).
  { unfold Gorm.SaveContact. destruct (First_found db n contact Hf) as [Hin Hk].
    destruct (N.eqb_spec (Contact.ID contact) 0) as [He | _].
    - exfalso. apply Hz. rewrite <- He. apply in_map. exact Hin.
    - assert (He : existsb (N.eqb (Contact.ID contact)) (map Contact.ID (Gorm.contacts db)) = true)
        by (apply existsb_eqb_In, in_map, Hin).
      rewrite He. unfold Gorm.First in Hf.
      destruct (find _ _) as [c' |] eqn:Efind; [| discriminate]. injection Hf as ->.
      rewrite (replace_found n contact _ Efind). destruct db; reflexivity. }
  assert (Hgen : forall r',
    Relationship.ID r' = Relationship.ID r ->
    Relationship.Name r' = Relationship.Name r ->
    Relationship.Type_ r' = Relationship.Type_ r ->
    Relationship.ContactID r' = Relationship.ContactID r ->
    (forall k, Relationship.ContactID r = Some k ->
       exists related, Gorm.First db (Z.of_N k) = Gorm.Ok related
                       /\ Relationship.RelatedContact r' = Some related) ->
    let answer :=
      (let '(_, db') := Gorm.SaveWithRelationships db contact ([] ++ [r']) in
       (Http.JSON Http.StatusOK (Http.Message "Relationship added to contact successfully"),
        db')) in
    fst answer
    = Http.JSON Http.StatusOK (Http.Message "Relationship added to contact successfully")
    /\ Gorm.contacts (snd answer) = Gorm.contacts db
    /\ Gorm.reminders (snd answer) = Gorm.reminders db
    /\ (Relationship.ID r = 0%N ->
        exists stored,
          Gorm.relationships (snd answer)
          = (Gorm.relationships db ++ [Gorm.mkRow (Some (Contact.ID contact)) stored])%list
          /\ ~ In (Relationship.ID stored)
               (map (fun row => Relationship.ID (Gorm.relationship row))
                  (Gorm.relationships db))
          /\ Relationship.ID stored <> 0%N
          /\ Relationship.Name stored = Relationship.Name r
          /\ Relationship.Type_ stored = Relationship.Type_ r
          /\ Relationship.ContactID stored = Relationship.ContactID r
          /\ forall k, Relationship.ContactID r = Some k ->
               exists related,
                 Gorm.First db (Z.of_N k) = Gorm.Ok related
                 /\ Relationship.RelatedContact stored = Some related)).
  { intros r' Hid Hname Htype Hcid Hrel. cbv zeta.
    unfold Gorm.SaveWithRelationships. rewrite Hsave. cbn [app fold_left].
    unfold Gorm.SaveRelationshipOf. rewrite Hid.
    destruct (N.eqb_spec (Relationship.ID r) 0) as [He | Hne]; cbn [fst snd].
    - split; [reflexivity | split; [reflexivity | split; [reflexivity |]]].
      intros _. eexists. split; [reflexivity |].
      cbn. split; [apply next_id_fresh | split; [apply next_id_fresh |]].
      repeat split; auto.
    - destruct (existsb _ _); cbn [fst snd];
        (split; [reflexivity | split; [reflexivity | split; [reflexivity |]]]);
        intros He; contradiction. }
  destruct Hc as [Hc | (k & Hc & (rc & Hrc))]; rewrite Hc in Hgen |- *.
  - cbv beta iota zeta.
    apply (Hgen r); auto. intros k Hk. discriminate Hk.
  - rewrite Hrc. cbv beta iota zeta.
    eapply Hgen; try reflexivity.
    intros k' Hk'. injection Hk' as <-.
    exists rc. split; [exact Hrc | reflexivity].
Qed.

Lemma AddRelationshipToContact_appends_witness :
  let answer :=
    Controllers.AddRelationshipToContact Sample.two "1"
      (Http.Decoded (Sample.sibling_of (Some 2%N))) in
  fst answer
  = Http.JSON Http.StatusOK (Http.Message "Relationship added to contact successfully")
  /\ Gorm.contacts (snd answer) = Gorm.contacts Sample.two
  /\ Gorm.reminders (snd answer) = Gorm.reminders Sample.two
  /\ (Relationship.ID (Sample.sibling_of (Some 2%N)) = 0%N ->
      exists stored,
        Gorm.relationships (snd answer)
        = (Gorm.relationships Sample.two
           ++ [Gorm.mkRow (Some (Contact.ID Sample.al)) stored])%list
        /\ ~ In (Relationship.ID stored)
             (map (fun row => Relationship.ID (Gorm.relationship row))
                (Gorm.relationships Sample.two))
        /\ Relationship.ID stored <> 0%N
        /\ Relationship.Name stored = Relationship.Name (Sample.sibling_of (Some 2%N))
        /\ Relationship.Type_ stored = Relationship.Type_ (Sample.sibling_of (Some 2%N))
        /\ Relationship.ContactID stored
           = Relationship.ContactID (Sample.sibling_of (Some 2%N))
        /\ forall k, Relationship.ContactID (Sample.sibling_of (Some 2%N)) = Some k ->
             exists related,
               Gorm.First Sample.two (Z.of_N k) = Gorm.Ok related
               /\ Relationship.RelatedContact stored = Some related).
Proof.
  apply (AddRelationshipToContact_appends Sample.two "1" 1 Sample.al
           (Sample.sibling_of (Some 2%N))).
  - split; cbn; [apply NoDup_ListNoDup; repeat constructor; cbn |]; intuition discriminate.
  - reflexivity.
  - reflexivity.
  - right. exists 2%N. split; [reflexivity |]. exists Sample.bea. reflexivity.
Defined.

(* ================================================================== *)
(** * Further properties: the age in a birthday mail *)
(* ================================================================== *)

(** A year from 0 to 9999 is written with four digits, which read back as
    the year. *)
Lemma pad_year (y : Z) :
  Spec.four_digit_year y ->
  Go.digits (Time.pad 4 y) 0 = Some y /\ String.length (Time.pad 4 y) = 4%nat.
Proof.
  intros Hy.
  assert (Hall : forallb
            (fun n => match Go.digits (Time.pad 4 (Z.of_nat n)) 0 with
                      | Some v => (v =? Z.of_nat n)
                                  && (String.length (Time.pad 4 (Z.of_nat n)) =? 4)%nat
                      | None => false
                      end)
            (seq 0 (Z.to_nat 10000)) = true) by (vm_compute; reflexivity).
  rewrite forallb_forall in Hall.
  specialize (Hall (Z.to_nat y)).
  unfold Spec.four_digit_year in Hy.
  rewrite Z2Nat.id in Hall by lia.
  assert (Hin : In (Z.to_nat y) (seq 0 (Z.to_nat 10000))) by (apply in_seq; lia).
  specialize (Hall Hin).
  destruct (Go.digits (Time.pad 4 y) 0) as [v|]; [| discriminate].
  apply andb_prop in Hall. destruct Hall as [Hv Hl].
  apply Z.eqb_eq in Hv. apply Nat.eqb_eq in Hl. subst v. auto.
Qed.

Lemma append_same_length (a b x y : string) :
  a +:+ x = b +:+ y -> String.length a = String.length b -> a = b.
Proof.
  revert b. induction a as [|c a IH]; intros [|d b] H Hl; simpl in *;
    try discriminate; [reflexivity |].
  injection H as -> H. injection Hl as Hl. f_equal. exact (IH b H Hl).
Qed.

Lemma same_date_same_year (a b : Time.t) :
  Spec.four_digit_year (Time.Year a) ->
  Spec.four_digit_year (Time.Year b) ->
  Time.FormatDate a = Time.FormatDate b ->
  Time.Year a = Time.Year b.
Proof.
  intros Ha Hb H. unfold Time.FormatDate in H.
  destruct (pad_year _ Ha) as [Hda Hla]. destruct (pad_year _ Hb) as [Hdb Hlb].
  apply append_same_length in H; [| congruence].
  rewrite H in Hda. congruence.
Qed.

(** X18.  The birthday job never states an age other than zero: where the
    years of the day it runs on and of the stored birthdays are written
    with four digits, every mail it sends says "0 years old" or "unknown
    age". *)
Theorem birthday_mails_state_no_age (sqlite : Gorm.Engine) (db : Gorm.DB)
    (now : Time.t) :
  Spec.four_digit_year (Time.Year now) ->
  (forall c, In c (Gorm.contacts db) ->
     Spec.four_digit_year (Time.Year (Contact.Birthday c))) ->
  forall mail, In mail (Main.sendBirthdayReminders sqlite db now) ->
    Main.birthday_age mail = "0 years old" \/ Main.birthday_age mail = "unknown age".
Proof.
  intros Hnow Hdb mail Hin.
  rewrite sendBirthdayReminders_selects in Hin.
  apply in_map_iff in Hin. destruct Hin as (c & <- & Hc).
  apply filter_In in Hc. destruct Hc as [Hc Hsame].
  apply String.eqb_eq in Hsame.
  apply same_date_same_year in Hsame; [| now apply Hdb | exact Hnow].
  unfold Main.sendBirthdayMail. cbn [Main.birthday_age].
  destruct (negb _); [left | right; reflexivity].
  rewrite Hsame. unfold Go.sub. rewrite Z.sub_diag. reflexivity.
Qed.

Lemma birthday_mails_state_no_age_witness :
  exists mail,
    In mail (Main.sendBirthdayReminders Sample.sqlite Sample.two Sample.today)
    /\ (Main.birthday_age mail = "0 years old" \/ Main.birthday_age mail = "unknown age").
Proof.
  eexists. split; [cbv; left; reflexivity |].
  apply (birthday_mails_state_no_age Sample.sqlite Sample.two Sample.today).
  - unfold Spec.four_digit_year. cbn. lia.
  - intros c [<- | [<- | []]]; unfold Spec.four_digit_year; cbn; lia.
  - cbv. left. reflexivity.
Defined.

(* ================================================================== *)
(** * Further properties: the contact service of the frontend *)
(* ================================================================== *)

Lemma Split_nonempty (s : string) (sep : ascii) : Go.Split s sep <> [].
Proof.
  destruct s as [|c s]; cbn [Go.Split]; [discriminate |].
  destruct (Ascii.eqb c sep); [discriminate |].
  destruct (Go.Split s sep); discriminate.
Qed.

(** Splitting at a separator splits what is before it and what is after
    it. *)
Lemma Split_app_sep (a b : string) (sep : ascii) :
  Go.Split (a +:+ String sep b) sep = (Go.Split a sep ++ Go.Split b sep)%list.
Proof.
  induction a as [|c a IH]; cbn [String.append Go.Split app].
  - now rewrite Ascii.eqb_refl.
  - destruct (Ascii.eqb c sep); [now rewrite IH |].
    rewrite IH. pose proof (Split_nonempty a sep) as Hn.
    destruct (Go.Split a sep) as [|piece rest]; [contradiction | reflexivity].
Qed.

Lemma In_Split_Join (l : list string) (x : string) :
  In x (Go.Split (Go.Join l ",") ","%char) ->
  (l = [] /\ x = "") \/ exists y, In y l /\ In x (Go.Split y ","%char).
Proof.
  unfold Go.Join. induction l as [|y l IH]; cbn [String.concat].
  - intros [<- | []]. left. auto.
  - destruct l as [|z l].
    + intros H. right. exists y. split; [left; reflexivity | exact H].
    + change ("," +:+ String.concat "," (z :: l))
        with (String ","%char (String.concat "," (z :: l))).
      rewrite Split_app_sep. intros H. apply in_app_or in H. right.
      destruct H as [H | H].
      * exists y. split; [left; reflexivity | exact H].
      * destruct (IH H) as [[Hnil _] | (w & Hw & Hx)]; [discriminate |].
        exists w. split; [right; exact Hw | exact Hx].
Qed.

Lemma Backend_preloads_In (q : Gin.Values) (rel : string) :
  In rel (Gorm.preloads (Backend.contacts_query q)) ->
  In rel (Go.Split (Gin.Query q "includes") ","%char) /\ In rel Spec.relations.
Proof.
  unfold Backend.contacts_query. rewrite preload_appends.
  match goal with
  | |- context [(Gorm.preloads ?q0 ++ _)%list] =>
      assert (H0 : Gorm.preloads q0 = [])
        by (repeat (match goal with |- context [if ?b then _ else _] => destruct b end);
            reflexivity);
      rewrite H0; clear H0
  end.
  cbn [app]. rewrite In_included, fold_include_lookup, relationshipMap_lookup.
  destruct (existsb (String.eqb rel) Spec.relations) eqn:Er; cbn; [| discriminate].
  apply existsb_exists in Er. destruct Er as (x & Hx & He).
  apply String.eqb_eq in He. subst x.
  destruct (existsb (String.eqb rel) (Go.Split (Gin.Query q "includes") ",")) eqn:Es;
    [| discriminate].
  apply existsb_exists in Es. destruct Es as (x & Hx' & He).
  apply String.eqb_eq in He. subst x. tauto.
Qed.

(** X19.  [getContacts] of the frontend service puts the joined [fields]
    into the [includes] parameter, not the [includes] it was given.  A call
    with [includes] but without [fields] throws before any request is made;
    for a request it does make, [GetContacts] preloads a relation only if
    an element of [fields] names it, and preloads nothing when [fields] are
    names of allowed contact fields. *)
Theorem getContacts_includes_are_the_fields (fields includes : option (list string))
    (page limit : Z) :
  (fields = None -> includes <> None ->
   ContactService.getContacts fields includes page limit = ContactService.Throws)
  /\ forall url params,
       ContactService.getContacts fields includes page limit
       = ContactService.Get url params ->
       url = "/contacts"
       /\ (forall rel,
             In rel (Gorm.preloads (Backend.contacts_query params)) ->
             includes <> None
             /\ exists fs f, fields = Some fs /\ In f fs
                             /\ In rel (Go.Split f ","%char))
       /\ ((forall fs f, fields = Some fs -> In f fs -> In f Backend.allowedFields) ->
           Gorm.preloads (Backend.contacts_query params) = []).
Proof.
  split.
  - intros -> Hi. destruct includes; [reflexivity | contradiction].
  - intros url params Hcall.
    assert (Hrel : forall rel,
      In rel (Gorm.preloads (Backend.contacts_query params)) ->
      In rel Spec.relations
      /\ includes <> None
      /\ exists fs f, fields = Some fs /\ In f fs /\ In rel (Go.Split f ","%char)).
    { intros rel Hin. apply Backend_preloads_In in Hin. destruct Hin as [Hs Hr].
      split; [exact Hr |].
      unfold ContactService.getContacts in Hcall.
      destruct includes as [inc |], fields as [fs |]; try discriminate Hcall;
        injection Hcall as <- <-.
      - split; [discriminate |].
        change (In rel (Go.Split (Go.Join fs ",") ","%char)) in Hs.
        apply In_Split_Join in Hs. destruct Hs as [[_ ->] | (f & Hf & Hx)].
        + cbn in Hr. intuition discriminate.
        + exists fs, f. auto.
      - exfalso. unfold Gin.Query in Hs. cbn in Hs.
        destruct Hs as [<- | []]. cbn in Hr. intuition discriminate.
      - exfalso. unfold Gin.Query in Hs. cbn in Hs.
        destruct Hs as [<- | []]. cbn in Hr. intuition discriminate. }
    split; [| split].
    + unfold ContactService.getContacts in Hcall.
      destruct includes, fields; try discriminate Hcall; now injection Hcall as <- _.
    + intros rel Hin. apply Hrel in Hin. tauto.
    + intros Hall.
      destruct (Gorm.preloads (Backend.contacts_query params)) as [|rel rest] eqn:E;
        [reflexivity | exfalso].
      destruct (Hrel rel (or_introl eq_refl)) as (Hr & _ & fs & f & Hfs & Hf & Hx).
      specialize (Hall fs f Hfs Hf). unfold Backend.allowedFields in Hall.
      unfold Spec.relations in Hr.
      repeat (destruct Hall as [<- | Hall];
              [cbn in Hx; destruct Hx as [<- | []]; cbn in Hr; intuition discriminate |]).
      destruct Hall.
Qed.

(* ================================================================== *)
(** * Further properties: the circles in use *)
(* ================================================================== *)

(** X20.  On a store in which every contact has a tag set, [GetCircles]
    answers 200 with the circles in use: a name is listed exactly when some
    stored contact carries it as a tag, and it is listed once. *)
Theorem GetCircles_lists_tags (db : Gorm.DB) :
  (forall c, In c (Gorm.contacts db) -> Contact.Circles c <> None) ->
  exists names,
    Backend.GetCircles db = Reply.JSON Http.StatusOK (Reply.CircleNames names)
    /\ List.NoDup names
    /\ forall tag,
         In tag names <-> exists c, In c (Gorm.contacts db) /\ In tag (Spec.tags c).
Proof.
  intros Hall. unfold Backend.GetCircles, Gorm.Circles.
  assert (He : existsb (fun c => match Contact.Circles c with None => true | Some _ => false end)
                 (Gorm.contacts db) = false).
  { destruct (existsb _ _) eqn:E; [exfalso | reflexivity].
    apply existsb_exists in E. destruct E as (c & Hc & Hn).
    specialize (Hall c Hc). destruct (Contact.Circles c); [discriminate | contradiction]. }
  rewrite He. eexists. split; [reflexivity | split; [apply NoDup_nodup |]].
  intros tag. rewrite nodup_In, in_flat_map. unfold Spec.tags. reflexivity.
Qed.

Lemma GetCircles_lists_tags_witness :
  exists names,
    Backend.GetCircles Sample.two = Reply.JSON Http.StatusOK (Reply.CircleNames names)
    /\ List.NoDup names
    /\ forall tag,
         In tag names <-> exists c, In c (Gorm.contacts Sample.two) /\ In tag (Spec.tags c).
Proof.
  apply (GetCircles_lists_tags Sample.two).
  intros c [<- | [<- | []]]; discriminate.
Defined.

(* ================================================================== *)
(** * Further properties: from the listing to one contact *)
(* ================================================================== *)


(** With keys in order, a stored contact is the one found under its key. *)
Lemma First_stored (db : Gorm.DB) (c : Contact.t) :
  Spec.contact_keys_ok db ->
  In c (Gorm.contacts db) ->
  Gorm.First db (Z.of_N (Contact.ID c)) = Gorm.Ok c.
Proof.
  unfold Spec.contact_keys_ok, Spec.keys_ok, Gorm.First. intros [Hnd _].
  apply NoDup_ListNoDup in Hnd.
  induction (Gorm.contacts db) as [|r rows IH]; cbn [In find map] in *; intros Hin;
    [destruct Hin |].
  inversion Hnd as [|? ? Hr Hrows]; subst.
  destruct Hin as [-> | Hin]; [now rewrite Z.eqb_refl |].
  destruct (Z.eqb_spec (Z.of_N (Contact.ID r)) (Z.of_N (Contact.ID c))) as [He | _].
  - exfalso. apply Hr. apply N2Z.inj in He. rewrite He. now apply in_map.
  - exact (IH Hrows Hin).
Qed.

(** X21.  On a store whose contact keys are in order, the ids of a page
    that [GetContacts] answers to a request naming fields lead back to the
    contacts listed: [GetContact] with the id of a listed contact answers
    the stored contact with that id, of which the listed one shows the
    selected columns. *)
Theorem listed_contacts_are_found (sqlite : Gorm.Engine) (db : Gorm.DB)
    (q : Gin.Values) (cs : list Contact.t) (total p l : Z) :
  Spec.contact_keys_ok db ->
  Gin.Query q "fields" <> "" ->
  Backend.GetContacts sqlite db q
  = Http.JSON Http.StatusOK (Http.ContactPage cs total p l) ->
  exists cols,
    forall listed, In listed cs ->
      exists stored,
        In stored (Gorm.contacts db)
        /\ listed = Schema.project cols stored
        /\ Contact.ID listed = Contact.ID stored
        /\ Backend.GetContact db (Z.of_N (Contact.ID listed))
           = Http.JSON Http.StatusOK (Http.OneContact stored).
Proof.
  intros Hk Hne Hans.
  destruct (GetContacts_page sqlite db q cs total p l Hans) as (cols & Hc & -> & _).
  exists cols. intros listed Hin. apply in_map_iff in Hin.
  destruct Hin as (stored & <- & Hin).
  rewrite Backend_rows in Hin. apply window_incl, pool_GetContacts in Hin.
  destruct Hin as (Hin & _).
  assert (Hid : Contact.ID (Schema.project cols stored) = Contact.ID stored)
    by (cbn; now rewrite (selected_has_id _ _ Hne Hc)).
  exists stored. repeat split; auto.
  rewrite Hid. apply GetContact_First. now apply First_stored.
Qed.

Lemma listed_contacts_are_found_witness :
  exists cols,
    forall listed,
      In listed [Schema.project [Schema.id; Schema.firstname] Sample.bea] ->
      exists stored,
        In stored (Gorm.contacts Sample.two)
        /\ listed = Schema.project cols stored
        /\ Contact.ID listed = Contact.ID stored
        /\ Backend.GetContact Sample.two (Z.of_N (Contact.ID listed))
           = Http.JSON Http.StatusOK (Http.OneContact stored).
Proof.
  apply (listed_contacts_are_found Sample.sqlite Sample.two
           [("search", "bea"); ("fields", "firstname")] _ 2 1 25).
  - split; cbn; [apply NoDup_ListNoDup; repeat constructor; cbn |]; intuition discriminate.
  - discriminate.
  - vm_compute. reflexivity.
Defined.

(** X22.  [GetAllContacts] preloads [Notes] exactly when the [includes]
    parameter names [notes], [Activities] exactly when it names
    [activities], and nothing else. *)
Theorem GetAllContacts_preloads (q : Gin.Values) (rel : string) :
  In rel (Gorm.preloads (Controllers.contacts_query q)) <->
  (rel = "Notes" /\ In "notes" (Go.Split (Gin.Query q "includes") ","%char))
  \/ (rel = "Activities"
      /\ In "activities" (Go.Split (Gin.Query q "includes") ","%char)).
Proof.
  unfold Controllers.contacts_query.
  set (l := Go.Split (Gin.Query q "includes") ","%char).
  assert (Hn : fold_left Backend.include l Controllers.relationshipMap !! "notes"
               = Some (existsb (String.eqb "notes") l))
    by (rewrite fold_include_lookup; reflexivity).
  assert (Ha : fold_left Backend.include l Controllers.relationshipMap !! "activities"
               = Some (existsb (String.eqb "activities") l))
    by (rewrite fold_include_lookup; reflexivity).
  rewrite Hn, Ha.
  assert (Hex : forall k, existsb (String.eqb k) l = true <-> In k l).
  { intros k. rewrite existsb_exists. split.
    - intros (x & Hx & He). apply String.eqb_eq in He. now subst.
    - intros H. exists k. split; [exact H | apply String.eqb_refl]. }
  rewrite <- !Hex.
  destruct (existsb (String.eqb "notes") l), (existsb (String.eqb "activities") l);
    destruct (negb (String.eqb (Gin.Query q "fields") ""));
    repeat case_bool_decide; try congruence;
    cbn; intuition (try discriminate; try congruence; auto).
Qed.
